(** * SkillSync job board: schema, row-level policies, triggers and the
      client handlers that call them.

    The relational part (tables, constraints, policies, triggers) is embedded
    from the SQL migrations; the client part from the page components
    (JobDetails, Jobs, PostJob, Profile, Applicants). *)

From Stdlib Require Import String Ascii List NArith ZArith Bool Lia.
From Stdlib Require Import Sorted Permutation.
Import ListNotations.

(* ================================================================== *)
(** ** JavaScript strings *)
(* ================================================================== *)

(** A JavaScript string is a sequence of UTF-16 code units.  The same
    representation is used for the TEXT and UUID columns the client
    exchanges with the store (types.ts: [id: string], [email: string]). *)
Module JS.

Definition str := list N.

(** String literals of the sources, written as ASCII. *)
Definition lit (s : string) : str :=
  map N_of_ascii (list_ascii_of_string s).

Fixpoint eqb (a b : str) : bool :=
  match a, b with
  | [], [] => true
  | x :: a', y :: b' => N.eqb x y && eqb a' b'
  | _, _ => false
  end.

(** [WhiteSpace] and [LineTerminator] code points, the characters
    [String.prototype.trim] removes; all of them are single code units. *)
Definition is_white_space (c : N) : bool :=
  (N.eqb c 9 || N.eqb c 10 || N.eqb c 11 || N.eqb c 12 || N.eqb c 13
   || N.eqb c 32 || N.eqb c 160 || N.eqb c 5760
   || (N.leb 8192 c && N.leb c 8202)
   || N.eqb c 8232 || N.eqb c 8233 || N.eqb c 8239 || N.eqb c 8287
   || N.eqb c 12288 || N.eqb c 65279)%bool.

Fixpoint trimStart (s : str) : str :=
  match s with
  | [] => []
  | c :: r => if is_white_space c then trimStart r else s
  end.

Fixpoint trimEnd (s : str) : str :=
  match s with
  | [] => []
  | c :: r =>
      match trimEnd r with
      | [] => if is_white_space c then [] else [c]
      | r' => c :: r'
      end
  end.

(** [s.trim()] *)
Definition trim (s : str) : str := trimEnd (trimStart s).

(** [s.split(sep)] for a separator of one code unit: the result always has
    at least one segment ([""].split(",") is [[""]]). *)
Fixpoint split (sep : N) (s : str) : list str :=
  match s with
  | [] => [[]]
  | c :: r =>
      if N.eqb c sep then [] :: split sep r
      else match split sep r with
           | [] => [[c]]
           | seg :: segs => (c :: seg) :: segs
           end
  end.

(** [a.pop()] as used on a fresh array: the last element, [undefined]
    (here [None]) on the empty array. *)
Fixpoint pop (a : list str) : option str :=
  match a with
  | [] => None
  | [x] => Some x
  | _ :: r => pop r
  end.

(** A value spliced into a template literal; [undefined] prints as such. *)
Definition template (v : option str) : str :=
  match v with
  | Some s => s
  | None => lit "undefined"
  end.

Definition comma : N := 44.
Definition dot : N := 46.
Definition slash : N := 47.

(** [s.startsWith(t)] *)
Fixpoint startsWith (s t : str) : bool :=
  match t, s with
  | [], _ => true
  | y :: t', x :: s' => N.eqb x y && startsWith s' t'
  | _ :: _, [] => false
  end.

(** [s.includes(t)] *)
Fixpoint includes (s t : str) : bool :=
  startsWith s t
  || match s with
     | [] => false
     | _ :: r => includes r t
     end.

End JS.

Abbreviation text := JS.str (only parsing).
Abbreviation uuid := JS.str (only parsing).
Abbreviation timestamptz := Z (only parsing).

(** Last code unit of a string. *)
Definition last_unit (s : JS.str) : option N := hd_error (rev s).

(** Strings made of one separator and white space only. *)
Definition blank_or (sep : N) (s : JS.str) : Prop :=
  Forall (fun c => c = sep \/ JS.is_white_space c = true) s.

(* ================================================================== *)
(** ** SQL values *)
(* ================================================================== *)

(** Three-valued booleans: [None] is NULL. *)
Definition sqlbool : Type := option bool.

Definition sql_and (a b : sqlbool) : sqlbool :=
  match a, b with
  | Some false, _ | _, Some false => Some false
  | Some true, Some true => Some true
  | _, _ => None
  end.

Definition sql_or (a b : sqlbool) : sqlbool :=
  match a, b with
  | Some true, _ | _, Some true => Some true
  | Some false, Some false => Some false
  | _, _ => None
  end.

(** [a = b] on nullable UUID or TEXT values. *)
Definition sql_eq (a b : option text) : sqlbool :=
  match a, b with
  | Some x, Some y => Some (JS.eqb x y)
  | _, _ => None
  end.

(** A USING or WITH CHECK expression admits a row only when it is true;
    false and NULL both reject. *)
Definition holds (b : sqlbool) : bool :=
  match b with
  | Some true => true
  | _ => false
  end.

(** [COALESCE(v, d)] *)
Definition COALESCE {A : Type} (v : option A) (d : A) : A :=
  match v with
  | Some x => x
  | None => d
  end.

(** Range of the INTEGER column type. *)
Definition int4_ok (v : option Z) : bool :=
  match v with
  | None => true
  | Some n => (Z.leb (-2147483648) n && Z.leb n 2147483647)%bool
  end.

(** [CREATE TYPE user_role AS ENUM ('job_seeker', 'recruiter', 'admin')] *)
Inductive user_role : Type := job_seeker | recruiter | admin.

(** [CREATE TYPE application_status AS ENUM (...)] *)
Inductive application_status : Type :=
  applied | viewed | shortlisted | rejected | hired.

(** [CREATE TYPE job_status AS ENUM ('open', 'closed', 'paused')] *)
Inductive job_status : Type := open | closed | paused.

Definition user_role_eqb (a b : user_role) : bool :=
  match a, b with
  | job_seeker, job_seeker | recruiter, recruiter | admin, admin => true
  | _, _ => false
  end.

Definition job_status_eqb (a b : job_status) : bool :=
  match a, b with
  | open, open | closed, closed | paused, paused => true
  | _, _ => false
  end.

(** A JSONB object as the [->>] operator observes it: each member with the
    text of its value, [None] for a JSON null. *)
Definition jsonb : Type := list (text * option text).

(** [j ->> key]; NULL when [j] is NULL, the key is missing or the value is
    a JSON null. *)
Fixpoint jsonb_member (o : jsonb) (key : text) : option text :=
  match o with
  | [] => None
  | (k, v) :: r => if JS.eqb k key then v else jsonb_member r key
  end.

Definition json_get_text (j : option jsonb) (key : text) : option text :=
  match j with
  | None => None
  | Some o => jsonb_member o key
  end.

(* ================================================================== *)
(** ** Tables *)
(* ================================================================== *)

(** The three columns of [auth.users] the provisioning trigger reads. *)
Module AuthUser.
Record row : Type := mk {
  id : uuid;
  email : text;
  raw_user_meta_data : option jsonb
}.
End AuthUser.

(** [CREATE TABLE profiles] *)
Module Profile.
Record row : Type := mk {
  id : uuid;
  email : text;
  full_name : text;
  role : user_role;
  phone : option text;
  location : option text;
  bio : option text;
  company_name : option text;
  resume_url : option text;
  profile_image_url : option text;
  skills : option (list text);
  experience_years : option Z;
  created_at : option timestamptz;
  updated_at : option timestamptz
}.

(** types.ts [Insert]: an absent member takes the column default. *)
Record Insert : Type := mkInsert {
  i_id : uuid;
  i_email : text;
  i_full_name : text;
  i_role : option user_role;
  i_phone : option text;
  i_location : option text;
  i_bio : option text;
  i_company_name : option text;
  i_resume_url : option text;
  i_profile_image_url : option text;
  i_skills : option (list text);
  i_experience_years : option Z;
  i_created_at : option (option timestamptz);
  i_updated_at : option (option timestamptz)
}.

(** types.ts [Update]: an absent member leaves the column alone. *)
Record Update : Type := mkUpdate {
  u_id : option uuid;
  u_email : option text;
  u_full_name : option text;
  u_role : option user_role;
  u_phone : option (option text);
  u_location : option (option text);
  u_bio : option (option text);
  u_company_name : option (option text);
  u_resume_url : option (option text);
  u_profile_image_url : option (option text);
  u_skills : option (option (list text));
  u_experience_years : option (option Z);
  u_created_at : option (option timestamptz);
  u_updated_at : option (option timestamptz)
}.

Definition patch (u : Update) (r : row) : row :=
  mk (COALESCE (u_id u) (id r))
     (COALESCE (u_email u) (email r))
     (COALESCE (u_full_name u) (full_name r))
     (COALESCE (u_role u) (role r))
     (COALESCE (u_phone u) (phone r))
     (COALESCE (u_location u) (location r))
     (COALESCE (u_bio u) (bio r))
     (COALESCE (u_company_name u) (company_name r))
     (COALESCE (u_resume_url u) (resume_url r))
     (COALESCE (u_profile_image_url u) (profile_image_url r))
     (COALESCE (u_skills u) (skills r))
     (COALESCE (u_experience_years u) (experience_years r))
     (COALESCE (u_created_at u) (created_at r))
     (COALESCE (u_updated_at u) (updated_at r)).

Definition set_updated_at (t : option timestamptz) (r : row) : row :=
  mk (id r) (email r) (full_name r) (role r) (phone r) (location r) (bio r)
     (company_name r) (resume_url r) (profile_image_url r) (skills r)
     (experience_years r) (created_at r) t.

Definition no_change : Update :=
  mkUpdate None None None None None None None None None None None None
           None None.
End Profile.

(** [CREATE TABLE jobs] *)
Module Job.
Record row : Type := mk {
  id : uuid;
  recruiter_id : uuid;
  title : text;
  description : text;
  company_name : text;
  location : text;
  job_type : text;
  salary_min : option Z;
  salary_max : option Z;
  required_skills : list text;
  experience_required : option Z;
  status : job_status;
  views_count : option Z;
  applications_count : option Z;
  created_at : option timestamptz;
  updated_at : option timestamptz
}.

(** types.ts [Insert]: an absent member takes the column default. *)
Record Insert : Type := mkInsert {
  i_id : option uuid;
  i_recruiter_id : uuid;
  i_title : text;
  i_description : text;
  i_company_name : text;
  i_location : text;
  i_job_type : text;
  i_salary_min : option Z;
  i_salary_max : option Z;
  i_required_skills : list text;
  i_experience_required : option Z;
  i_status : option job_status;
  i_views_count : option (option Z);
  i_applications_count : option (option Z);
  i_created_at : option (option timestamptz);
  i_updated_at : option (option timestamptz)
}.

Record Update : Type := mkUpdate {
  u_id : option uuid;
  u_recruiter_id : option uuid;
  u_title : option text;
  u_description : option text;
  u_company_name : option text;
  u_location : option text;
  u_job_type : option text;
  u_salary_min : option (option Z);
  u_salary_max : option (option Z);
  u_required_skills : option (list text);
  u_experience_required : option (option Z);
  u_status : option job_status;
  u_views_count : option (option Z);
  u_applications_count : option (option Z);
  u_created_at : option (option timestamptz);
  u_updated_at : option (option timestamptz)
}.

Definition patch (u : Update) (r : row) : row :=
  mk (COALESCE (u_id u) (id r))
     (COALESCE (u_recruiter_id u) (recruiter_id r))
     (COALESCE (u_title u) (title r))
     (COALESCE (u_description u) (description r))
     (COALESCE (u_company_name u) (company_name r))
     (COALESCE (u_location u) (location r))
     (COALESCE (u_job_type u) (job_type r))
     (COALESCE (u_salary_min u) (salary_min r))
     (COALESCE (u_salary_max u) (salary_max r))
     (COALESCE (u_required_skills u) (required_skills r))
     (COALESCE (u_experience_required u) (experience_required r))
     (COALESCE (u_status u) (status r))
     (COALESCE (u_views_count u) (views_count r))
     (COALESCE (u_applications_count u) (applications_count r))
     (COALESCE (u_created_at u) (created_at r))
     (COALESCE (u_updated_at u) (updated_at r)).

Definition set_updated_at (t : option timestamptz) (r : row) : row :=
  mk (id r) (recruiter_id r) (title r) (description r) (company_name r)
     (location r) (job_type r) (salary_min r) (salary_max r)
     (required_skills r) (experience_required r) (status r)
     (views_count r) (applications_count r) (created_at r) t.
End Job.

(** [CREATE TABLE applications] *)
Module Application.
Record row : Type := mk {
  id : uuid;
  job_id : uuid;
  applicant_id : uuid;
  status : application_status;
  cover_letter : option text;
  resume_url : option text;
  applied_at : option timestamptz;
  updated_at : option timestamptz
}.

Record Insert : Type := mkInsert {
  i_id : option uuid;
  i_job_id : uuid;
  i_applicant_id : uuid;
  i_status : option application_status;
  i_cover_letter : option text;
  i_resume_url : option text;
  i_applied_at : option (option timestamptz);
  i_updated_at : option (option timestamptz)
}.

Record Update : Type := mkUpdate {
  u_id : option uuid;
  u_job_id : option uuid;
  u_applicant_id : option uuid;
  u_status : option application_status;
  u_cover_letter : option (option text);
  u_resume_url : option (option text);
  u_applied_at : option (option timestamptz);
  u_updated_at : option (option timestamptz)
}.

Definition patch (u : Update) (r : row) : row :=
  mk (COALESCE (u_id u) (id r))
     (COALESCE (u_job_id u) (job_id r))
     (COALESCE (u_applicant_id u) (applicant_id r))
     (COALESCE (u_status u) (status r))
     (COALESCE (u_cover_letter u) (cover_letter r))
     (COALESCE (u_resume_url u) (resume_url r))
     (COALESCE (u_applied_at u) (applied_at r))
     (COALESCE (u_updated_at u) (updated_at r)).

Definition set_updated_at (t : option timestamptz) (r : row) : row :=
  mk (id r) (job_id r) (applicant_id r) (status r) (cover_letter r)
     (resume_url r) (applied_at r) t.
End Application.

(** [CREATE TABLE saved_jobs] *)
Module SavedJob.
Record row : Type := mk {
  id : uuid;
  job_id : uuid;
  user_id : uuid;
  saved_at : option timestamptz
}.

Record Insert : Type := mkInsert {
  i_id : option uuid;
  i_job_id : uuid;
  i_user_id : uuid;
  i_saved_at : option (option timestamptz)
}.
End SavedJob.

(** A row of [storage.objects]: the bucket, the object path and the size of
    the stored body. *)
Module StorageObject.
Record row : Type := mk {
  bucket_id : text;
  name : text;
  size : Z
}.
End StorageObject.

(** The whole store.  Tables are lists in insertion order. *)
Record db : Type := mkdb {
  auth_users : list AuthUser.row;
  profiles : list Profile.row;
  jobs : list Job.row;
  applications : list Application.row;
  saved_jobs : list SavedJob.row;
  storage_objects : list StorageObject.row
}.

Definition empty_db : db := mkdb [] [] [] [] [] [].

Definition with_auth_users (d : db) (l : list AuthUser.row) : db :=
  mkdb l (profiles d) (jobs d) (applications d) (saved_jobs d)
       (storage_objects d).
Definition with_profiles (d : db) (l : list Profile.row) : db :=
  mkdb (auth_users d) l (jobs d) (applications d) (saved_jobs d)
       (storage_objects d).
Definition with_jobs (d : db) (l : list Job.row) : db :=
  mkdb (auth_users d) (profiles d) l (applications d) (saved_jobs d)
       (storage_objects d).
Definition with_applications (d : db) (l : list Application.row) : db :=
  mkdb (auth_users d) (profiles d) (jobs d) l (saved_jobs d)
       (storage_objects d).
Definition with_saved_jobs (d : db) (l : list SavedJob.row) : db :=
  mkdb (auth_users d) (profiles d) (jobs d) (applications d) l
       (storage_objects d).
Definition with_storage_objects (d : db) (l : list StorageObject.row) : db :=
  mkdb (auth_users d) (profiles d) (jobs d) (applications d) (saved_jobs d) l.

(** What a statement sees of its surroundings: the caller ([auth.uid()],
    NULL for an anonymous request), the clock ([NOW()]) and the value
    [gen_random_uuid()] produces for it. *)
Record request : Type := mkrequest {
  auth_uid : option uuid;
  NOW : timestamptz;
  gen_random_uuid : uuid
}.

(** The error object a failed call hands to the client. *)
Record PostgrestError : Type := mkerror {
  code : text;
  message : text
}.

Inductive result (A : Type) : Type :=
| Ok (a : A)
| Err (e : PostgrestError).
Arguments Ok {A} a.
Arguments Err {A} e.

(** The store after a statement: an error leaves it as it was. *)
Definition after (d : db) (r : result db) : db :=
  match r with
  | Ok d' => d'
  | Err _ => d
  end.

(* ================================================================== *)
(** ** Errors raised by the store *)
(* ================================================================== *)

Definition quoted (name : string) : text :=
  [34%N] ++ JS.lit name ++ [34%N].

(** SQLSTATE 23505 *)
Definition unique_violation (constraint : string) : PostgrestError :=
  mkerror (JS.lit "23505")
          (JS.lit "duplicate key value violates unique constraint "
           ++ quoted constraint).

(** SQLSTATE 23503 *)
Definition foreign_key_violation (constraint : string) : PostgrestError :=
  mkerror (JS.lit "23503")
          (JS.lit "violates foreign key constraint " ++ quoted constraint).

(** SQLSTATE 42501, raised when a new row fails a WITH CHECK expression. *)
Definition rls_violation (table : string) : PostgrestError :=
  mkerror (JS.lit "42501")
          (JS.lit "new row violates row-level security policy for table "
           ++ quoted table).

(** SQLSTATE 22003 *)
Definition numeric_value_out_of_range : PostgrestError :=
  mkerror (JS.lit "22003") (JS.lit "integer out of range").

(** SQLSTATE 22P02, for a text that is no UUID where one is expected. *)
Definition invalid_text_representation (input : text) : PostgrestError :=
  mkerror (JS.lit "22P02")
          (JS.lit "invalid input syntax for type uuid: "
           ++ [34%N] ++ input ++ [34%N]).

(** The storage service refusing an upload. *)
Definition storage_unauthorized : PostgrestError :=
  mkerror (JS.lit "403") (JS.lit "new row violates row-level security policy").

(* ================================================================== *)
(** ** Triggers *)
(* ================================================================== *)

(** Tables with an [updated_at] column. *)
Class HasUpdatedAt (R : Type) : Type :=
  set_updated_at : option timestamptz -> R -> R.

#[export] Instance profiles_updated_at : HasUpdatedAt Profile.row :=
  Profile.set_updated_at.
#[export] Instance jobs_updated_at : HasUpdatedAt Job.row :=
  Job.set_updated_at.
#[export] Instance applications_updated_at : HasUpdatedAt Application.row :=
  Application.set_updated_at.

(** [update_updated_at_column()]: [NEW.updated_at = NOW(); RETURN NEW].
    Installed BEFORE UPDATE, FOR EACH ROW, on profiles, jobs and
    applications. *)
Definition update_updated_at_column {R : Type} `{HasUpdatedAt R}
    (rq : request) (NEW : R) : R :=
  set_updated_at (Some (NOW rq)) NEW.

(* ================================================================== *)
(** ** Row-level security policies *)
(* ================================================================== *)

(** "Users can view all profiles": [USING (true)] *)
Definition Users_can_view_all_profiles (rq : request) (p : Profile.row)
  : sqlbool := Some true.

(** "Users can update own profile": [USING (auth.uid() = id)] *)
Definition Users_can_update_own_profile (rq : request) (p : Profile.row)
  : sqlbool := sql_eq (auth_uid rq) (Some (Profile.id p)).

(** "Users can insert own profile": [WITH CHECK (auth.uid() = id)] *)
Definition Users_can_insert_own_profile (rq : request) (p : Profile.row)
  : sqlbool := sql_eq (auth_uid rq) (Some (Profile.id p)).

(** [SELECT * FROM profiles] as the caller sees it. *)
Definition select_profiles (rq : request) (d : db) : list Profile.row :=
  filter (fun p => holds (Users_can_view_all_profiles rq p)) (profiles d).

(** [EXISTS (SELECT 1 FROM profiles WHERE id = auth.uid() AND role = r)] *)
Definition caller_has_role (rq : request) (d : db) (r : user_role) : sqlbool :=
  Some (existsb
          (fun p => holds (sql_and (sql_eq (Some (Profile.id p)) (auth_uid rq))
                                   (Some (user_role_eqb (Profile.role p) r))))
          (select_profiles rq d)).

(** "Anyone can view open jobs":
    [USING (status = 'open' OR recruiter_id = auth.uid())] *)
Definition Anyone_can_view_open_jobs (rq : request) (j : Job.row) : sqlbool :=
  sql_or (Some (job_status_eqb (Job.status j) open))
         (sql_eq (Some (Job.recruiter_id j)) (auth_uid rq)).

(** "Recruiters can create jobs" *)
Definition Recruiters_can_create_jobs (rq : request) (d : db) (j : Job.row)
  : sqlbool :=
  sql_and (sql_eq (Some (Job.recruiter_id j)) (auth_uid rq))
          (caller_has_role rq d recruiter).

(** "Recruiters can update own jobs": [USING (recruiter_id = auth.uid())] *)
Definition Recruiters_can_update_own_jobs (rq : request) (j : Job.row)
  : sqlbool := sql_eq (Some (Job.recruiter_id j)) (auth_uid rq).

(** "Recruiters can delete own jobs": [USING (recruiter_id = auth.uid())] *)
Definition Recruiters_can_delete_own_jobs (rq : request) (j : Job.row)
  : sqlbool := sql_eq (Some (Job.recruiter_id j)) (auth_uid rq).

(** [SELECT * FROM jobs] as the caller sees it. *)
Definition select_jobs (rq : request) (d : db) : list Job.row :=
  filter (fun j => holds (Anyone_can_view_open_jobs rq j)) (jobs d).

(** [EXISTS (SELECT 1 FROM jobs WHERE jobs.id = applications.job_id
                               AND jobs.recruiter_id = auth.uid())];
    the subquery runs as the caller, hence over [select_jobs]. *)
Definition caller_owns_job (rq : request) (d : db) (job_id : uuid) : sqlbool :=
  Some (existsb
          (fun j => holds (sql_and (sql_eq (Some (Job.id j)) (Some job_id))
                                   (sql_eq (Some (Job.recruiter_id j))
                                           (auth_uid rq))))
          (select_jobs rq d)).

(** "Users can view own applications" *)
Definition Users_can_view_own_applications (rq : request) (d : db)
    (a : Application.row) : sqlbool :=
  sql_or (sql_eq (Some (Application.applicant_id a)) (auth_uid rq))
         (caller_owns_job rq d (Application.job_id a)).

(** "Job seekers can create applications" *)
Definition Job_seekers_can_create_applications (rq : request) (d : db)
    (a : Application.row) : sqlbool :=
  sql_and (sql_eq (Some (Application.applicant_id a)) (auth_uid rq))
          (caller_has_role rq d job_seeker).

(** "Recruiters can update application status" *)
Definition Recruiters_can_update_application_status (rq : request) (d : db)
    (a : Application.row) : sqlbool :=
  caller_owns_job rq d (Application.job_id a).

(** "Users can view own saved jobs": [USING (user_id = auth.uid())] *)
Definition Users_can_view_own_saved_jobs (rq : request) (s : SavedJob.row)
  : sqlbool := sql_eq (Some (SavedJob.user_id s)) (auth_uid rq).

(** "Users can save jobs": [WITH CHECK (user_id = auth.uid())] *)
Definition Users_can_save_jobs (rq : request) (s : SavedJob.row)
  : sqlbool := sql_eq (Some (SavedJob.user_id s)) (auth_uid rq).

(** "Users can unsave jobs": [USING (user_id = auth.uid())] *)
Definition Users_can_unsave_jobs (rq : request) (s : SavedJob.row)
  : sqlbool := sql_eq (Some (SavedJob.user_id s)) (auth_uid rq).

Definition select_saved_jobs (rq : request) (d : db) : list SavedJob.row :=
  filter (fun s => holds (Users_can_view_own_saved_jobs rq s)) (saved_jobs d).

Definition select_applications (rq : request) (d : db)
  : list Application.row :=
  filter (fun a => holds (Users_can_view_own_applications rq d a))
         (applications d).

(** [ORDER BY key DESC]: NULL sorts before every timestamp, later
    timestamps before earlier ones.  [desc_nulls_first a b]: a row with
    key [a] may stand before a row with key [b]. *)
Definition desc_nulls_first (a b : option timestamptz) : bool :=
  match a, b with
  | None, _ => true
  | Some _, None => false
  | Some x, Some y => Z.leb y x
  end.

Fixpoint insert_desc {A : Type} (key : A -> option timestamptz)
    (r : A) (l : list A) : list A :=
  match l with
  | [] => [r]
  | x :: l' =>
      if desc_nulls_first (key r) (key x)
      then r :: l
      else x :: insert_desc key r l'
  end.

(** PostgreSQL leaves the order of rows with equal keys open; here they
    keep the order they had. *)
Definition order_by_desc {A : Type} (key : A -> option timestamptz)
    (l : list A) : list A :=
  fold_right (insert_desc key) [] l.

(** [applications ... jobs!inner(...)] with
    [.eq("jobs.recruiter_id", userId)]: the jobs, as the caller sees
    them, that an application row is joined with.  [jobs.id] is the
    primary key, so a table that respects it gives at most one. *)
Definition joined_jobs (rq : request) (d : db) (userId : uuid)
    (a : Application.row) : list Job.row :=
  filter (fun j => JS.eqb (Job.id j) (Application.job_id a)
                   && JS.eqb (Job.recruiter_id j) userId)
         (select_jobs rq d).


(** [storage.foldername(name)]: the path segments before the last one. *)
Definition storage_foldername (name : text) : list text :=
  removelast (JS.split JS.slash name).

(** The four policies on the resumes bucket share one expression:
    [bucket_id = 'resumes' AND auth.uid()::text = (storage.foldername(name))[1]] *)
Definition Users_can_upload_their_own_resume (rq : request)
    (o : StorageObject.row) : sqlbool :=
  sql_and (Some (JS.eqb (StorageObject.bucket_id o) (JS.lit "resumes")))
          (sql_eq (auth_uid rq)
                  (hd_error (storage_foldername (StorageObject.name o)))).

(* ================================================================== *)
(** ** Statements *)
(* ================================================================== *)

(** A statement first admits rows through the policies (a row failing a
    USING expression is skipped in silence, a new row failing a WITH CHECK
    expression aborts the statement), then the constraints of the table are
    checked, keys before references.  An aborted statement changes nothing. *)

Definition count_if {A : Type} (f : A -> bool) (l : list A) : nat :=
  length (filter f l).

(** An updated row collides on a key when the key changed and the table
    after the statement holds the new key more than once. *)
Definition key_conflict {A : Type} (same_key : A -> A -> bool)
    (table_after : list A) (change : A * A) : bool :=
  negb (same_key (fst change) (snd change))
  && Nat.ltb 1 (count_if (same_key (snd change)) table_after).

Definition has_profile (d : db) (i : uuid) : bool :=
  existsb (fun p => JS.eqb (Profile.id p) i) (profiles d).

Definition has_job (d : db) (i : uuid) : bool :=
  existsb (fun j => JS.eqb (Job.id j) i) (jobs d).

Definition has_auth_user (d : db) (i : uuid) : bool :=
  existsb (fun u => JS.eqb (AuthUser.id u) i) (auth_users d).

(* ------------------------------------------------------------------ *)
(** *** applications *)

Definition same_application_id (a b : Application.row) : bool :=
  JS.eqb (Application.id a) (Application.id b).

(** [UNIQUE(job_id, applicant_id)] *)
Definition same_application_pair (a b : Application.row) : bool :=
  JS.eqb (Application.job_id a) (Application.job_id b)
  && JS.eqb (Application.applicant_id a) (Application.applicant_id b).

(** The new row of an INSERT, defaults filled in. *)
Definition new_application (rq : request) (i : Application.Insert)
  : Application.row :=
  Application.mk
    (COALESCE (Application.i_id i) (gen_random_uuid rq))
    (Application.i_job_id i)
    (Application.i_applicant_id i)
    (COALESCE (Application.i_status i) applied)
    (Application.i_cover_letter i)
    (Application.i_resume_url i)
    (COALESCE (Application.i_applied_at i) (Some (NOW rq)))
    (COALESCE (Application.i_updated_at i) (Some (NOW rq))).

(** [INSERT INTO applications] *)
Definition insert_applications (rq : request) (i : Application.Insert)
    (d : db) : result db :=
  let r := new_application rq i in
  if negb (holds (Job_seekers_can_create_applications rq d r)) then
    Err (rls_violation "applications")
  else if existsb (same_application_id r) (applications d) then
    Err (unique_violation "applications_pkey")
  else if existsb (same_application_pair r) (applications d) then
    Err (unique_violation "applications_job_id_applicant_id_key")
  else if negb (has_job d (Application.job_id r)) then
    Err (foreign_key_violation "applications_job_id_fkey")
  else if negb (has_profile d (Application.applicant_id r)) then
    Err (foreign_key_violation "applications_applicant_id_fkey")
  else Ok (with_applications d (applications d ++ [r])).

(** The rows an UPDATE of applications reaches: its filter, the SELECT
    policy (the filter reads the row) and the UPDATE policy. *)
Definition application_update_target (rq : request) (d : db)
    (whr : Application.row -> bool) (a : Application.row) : bool :=
  whr a
  && holds (Users_can_view_own_applications rq d a)
  && holds (Recruiters_can_update_application_status rq d a).

(** The new version of a row: the patch, then the BEFORE UPDATE trigger. *)
Definition application_update_row (rq : request) (u : Application.Update)
    (a : Application.row) : Application.row :=
  update_updated_at_column rq (Application.patch u a).

(** [UPDATE applications SET ... WHERE whr].  The UPDATE policy has no
    WITH CHECK of its own, so its USING expression is applied to the new
    rows as well. *)
Definition update_applications (rq : request)
    (whr : Application.row -> bool) (u : Application.Update) (d : db)
  : result db :=
  let target := application_update_target rq d whr in
  let new := application_update_row rq u in
  let changes := map (fun a => (a, new a)) (filter target (applications d)) in
  let table_after :=
    map (fun a => if target a then new a else a) (applications d) in
  if negb (forallb
             (fun c =>
                holds (Recruiters_can_update_application_status rq d (snd c))
                && holds (Users_can_view_own_applications rq d (snd c)))
             changes) then
    Err (rls_violation "applications")
  else if existsb (key_conflict same_application_id table_after) changes then
    Err (unique_violation "applications_pkey")
  else if existsb (key_conflict same_application_pair table_after) changes then
    Err (unique_violation "applications_job_id_applicant_id_key")
  else if existsb
            (fun c =>
               negb (JS.eqb (Application.job_id (fst c))
                            (Application.job_id (snd c)))
               && negb (has_job d (Application.job_id (snd c))))
            changes then
    Err (foreign_key_violation "applications_job_id_fkey")
  else if existsb
            (fun c =>
               negb (JS.eqb (Application.applicant_id (fst c))
                            (Application.applicant_id (snd c)))
               && negb (has_profile d (Application.applicant_id (snd c))))
            changes then
    Err (foreign_key_violation "applications_applicant_id_fkey")
  else Ok (with_applications d table_after).

(* ------------------------------------------------------------------ *)
(** *** saved_jobs *)

Definition same_saved_job_id (a b : SavedJob.row) : bool :=
  JS.eqb (SavedJob.id a) (SavedJob.id b).

(** [UNIQUE(job_id, user_id)] *)
Definition same_saved_job_pair (a b : SavedJob.row) : bool :=
  JS.eqb (SavedJob.job_id a) (SavedJob.job_id b)
  && JS.eqb (SavedJob.user_id a) (SavedJob.user_id b).

Definition new_saved_job (rq : request) (i : SavedJob.Insert) : SavedJob.row :=
  SavedJob.mk
    (COALESCE (SavedJob.i_id i) (gen_random_uuid rq))
    (SavedJob.i_job_id i)
    (SavedJob.i_user_id i)
    (COALESCE (SavedJob.i_saved_at i) (Some (NOW rq))).

(** [INSERT INTO saved_jobs] *)
Definition insert_saved_jobs (rq : request) (i : SavedJob.Insert) (d : db)
  : result db :=
  let r := new_saved_job rq i in
  if negb (holds (Users_can_save_jobs rq r)) then
    Err (rls_violation "saved_jobs")
  else if existsb (same_saved_job_id r) (saved_jobs d) then
    Err (unique_violation "saved_jobs_pkey")
  else if existsb (same_saved_job_pair r) (saved_jobs d) then
    Err (unique_violation "saved_jobs_job_id_user_id_key")
  else if negb (has_job d (SavedJob.job_id r)) then
    Err (foreign_key_violation "saved_jobs_job_id_fkey")
  else if negb (has_profile d (SavedJob.user_id r)) then
    Err (foreign_key_violation "saved_jobs_user_id_fkey")
  else Ok (with_saved_jobs d (saved_jobs d ++ [r])).

Definition saved_job_delete_target (rq : request)
    (whr : SavedJob.row -> bool) (s : SavedJob.row) : bool :=
  whr s
  && holds (Users_can_view_own_saved_jobs rq s)
  && holds (Users_can_unsave_jobs rq s).

(** [DELETE FROM saved_jobs WHERE whr]; nothing references the table, so
    the statement cannot fail. *)
Definition delete_saved_jobs (rq : request) (whr : SavedJob.row -> bool)
    (d : db) : db :=
  with_saved_jobs d
    (filter (fun s => negb (saved_job_delete_target rq whr s)) (saved_jobs d)).

(* ------------------------------------------------------------------ *)
(** *** jobs *)

Definition same_job_id (a b : Job.row) : bool :=
  JS.eqb (Job.id a) (Job.id b).

Definition new_job (rq : request) (i : Job.Insert) : Job.row :=
  Job.mk
    (COALESCE (Job.i_id i) (gen_random_uuid rq))
    (Job.i_recruiter_id i)
    (Job.i_title i)
    (Job.i_description i)
    (Job.i_company_name i)
    (Job.i_location i)
    (Job.i_job_type i)
    (Job.i_salary_min i)
    (Job.i_salary_max i)
    (Job.i_required_skills i)
    (Job.i_experience_required i)
    (COALESCE (Job.i_status i) open)
    (COALESCE (Job.i_views_count i) (Some 0%Z))
    (COALESCE (Job.i_applications_count i) (Some 0%Z))
    (COALESCE (Job.i_created_at i) (Some (NOW rq)))
    (COALESCE (Job.i_updated_at i) (Some (NOW rq))).

Definition job_integers_ok (j : Job.row) : bool :=
  int4_ok (Job.salary_min j) && int4_ok (Job.salary_max j)
  && int4_ok (Job.experience_required j)
  && int4_ok (Job.views_count j) && int4_ok (Job.applications_count j).

(** [INSERT INTO jobs] *)
Definition insert_jobs (rq : request) (i : Job.Insert) (d : db) : result db :=
  let r := new_job rq i in
  if negb (job_integers_ok r) then Err numeric_value_out_of_range
  else if negb (holds (Recruiters_can_create_jobs rq d r)) then
    Err (rls_violation "jobs")
  else if existsb (same_job_id r) (jobs d) then
    Err (unique_violation "jobs_pkey")
  else if negb (has_profile d (Job.recruiter_id r)) then
    Err (foreign_key_violation "jobs_recruiter_id_fkey")
  else Ok (with_jobs d (jobs d ++ [r])).

Definition job_update_target (rq : request) (whr : Job.row -> bool)
    (j : Job.row) : bool :=
  whr j
  && holds (Anyone_can_view_open_jobs rq j)
  && holds (Recruiters_can_update_own_jobs rq j).

Definition job_update_row (rq : request) (u : Job.Update) (j : Job.row)
  : Job.row :=
  update_updated_at_column rq (Job.patch u j).

(** A key some application or saved job still refers to, and no job of
    the table carries any more (references to jobs are ON UPDATE NO ACTION). *)
Definition dangling_job_reference (d : db) (table_after : list Job.row)
    (i : uuid) : bool :=
  (existsb (fun a => JS.eqb (Application.job_id a) i) (applications d)
   || existsb (fun s => JS.eqb (SavedJob.job_id s) i) (saved_jobs d))
  && negb (existsb (fun j => JS.eqb (Job.id j) i) table_after).

(** [UPDATE jobs SET ... WHERE whr] *)
Definition update_jobs (rq : request) (whr : Job.row -> bool)
    (u : Job.Update) (d : db) : result db :=
  let target := job_update_target rq whr in
  let new := job_update_row rq u in
  let changes := map (fun j => (j, new j)) (filter target (jobs d)) in
  let table_after := map (fun j => if target j then new j else j) (jobs d) in
  if negb (forallb (fun c => job_integers_ok (snd c)) changes) then
    Err numeric_value_out_of_range
  else if negb (forallb
                  (fun c => holds (Recruiters_can_update_own_jobs rq (snd c))
                            && holds (Anyone_can_view_open_jobs rq (snd c)))
                  changes) then
    Err (rls_violation "jobs")
  else if existsb (key_conflict same_job_id table_after) changes then
    Err (unique_violation "jobs_pkey")
  else if existsb
            (fun c =>
               negb (JS.eqb (Job.recruiter_id (fst c))
                            (Job.recruiter_id (snd c)))
               && negb (has_profile d (Job.recruiter_id (snd c))))
            changes then
    Err (foreign_key_violation "jobs_recruiter_id_fkey")
  else if existsb
            (fun c => dangling_job_reference d table_after (Job.id (fst c)))
            changes then
    Err (foreign_key_violation "applications_job_id_fkey")
  else Ok (with_jobs d table_after).

Definition job_delete_target (rq : request) (whr : Job.row -> bool)
    (j : Job.row) : bool :=
  whr j
  && holds (Anyone_can_view_open_jobs rq j)
  && holds (Recruiters_can_delete_own_jobs rq j).

(** [DELETE FROM jobs WHERE whr].  [applications.job_id] and
    [saved_jobs.job_id] are declared [REFERENCES jobs(id) ON DELETE CASCADE]:
    the rows referring to a deleted job go with it, whoever owns them. *)
Definition delete_jobs (rq : request) (whr : Job.row -> bool) (d : db) : db :=
  let target := job_delete_target rq whr in
  let deleted := filter target (jobs d) in
  let gone (i : uuid) := existsb (fun j => JS.eqb (Job.id j) i) deleted in
  mkdb (auth_users d)
       (profiles d)
       (filter (fun j => negb (target j)) (jobs d))
       (filter (fun a => negb (gone (Application.job_id a))) (applications d))
       (filter (fun s => negb (gone (SavedJob.job_id s))) (saved_jobs d))
       (storage_objects d).

(* ------------------------------------------------------------------ *)
(** *** profiles *)

Definition profile_update_target (rq : request) (whr : Profile.row -> bool)
    (p : Profile.row) : bool :=
  whr p
  && holds (Users_can_view_all_profiles rq p)
  && holds (Users_can_update_own_profile rq p).

Definition profile_update_row (rq : request) (u : Profile.Update)
    (p : Profile.row) : Profile.row :=
  update_updated_at_column rq (Profile.patch u p).

(** [UPDATE profiles SET ... WHERE whr].  USING and the WITH CHECK it
    implies both equate [id] with [auth.uid()], so an admitted update
    never changes the key and no key or reference is checked again. *)
Definition update_profiles (rq : request) (whr : Profile.row -> bool)
    (u : Profile.Update) (d : db) : result db :=
  let target := profile_update_target rq whr in
  let new := profile_update_row rq u in
  let changes := map (fun p => (p, new p)) (filter target (profiles d)) in
  let table_after :=
    map (fun p => if target p then new p else p) (profiles d) in
  if negb (forallb (fun c => int4_ok (Profile.experience_years (snd c)))
                   changes) then
    Err numeric_value_out_of_range
  else if negb (forallb
                  (fun c => holds (Users_can_update_own_profile rq (snd c))
                            && holds (Users_can_view_all_profiles rq (snd c)))
                  changes) then
    Err (rls_violation "profiles")
  else Ok (with_profiles d table_after).

(** The new row of an INSERT into profiles, defaults filled in. *)
Definition new_profile (rq : request) (i : Profile.Insert) : Profile.row :=
  Profile.mk
    (Profile.i_id i)
    (Profile.i_email i)
    (Profile.i_full_name i)
    (COALESCE (Profile.i_role i) job_seeker)
    (Profile.i_phone i)
    (Profile.i_location i)
    (Profile.i_bio i)
    (Profile.i_company_name i)
    (Profile.i_resume_url i)
    (Profile.i_profile_image_url i)
    (Profile.i_skills i)
    (Profile.i_experience_years i)
    (COALESCE (Profile.i_created_at i) (Some (NOW rq)))
    (COALESCE (Profile.i_updated_at i) (Some (NOW rq))).

(** The keys of profiles: [id UUID PRIMARY KEY REFERENCES auth.users(id)]. *)
Definition profile_constraints (r : Profile.row) (d : db) : result db :=
  if has_profile d (Profile.id r) then Err (unique_violation "profiles_pkey")
  else if negb (has_auth_user d (Profile.id r)) then
    Err (foreign_key_violation "profiles_id_fkey")
  else Ok (with_profiles d (profiles d ++ [r])).

(** [INSERT INTO profiles] sent by a client. *)
Definition insert_profiles (rq : request) (i : Profile.Insert) (d : db)
  : result db :=
  let r := new_profile rq i in
  if negb (int4_ok (Profile.experience_years r)) then
    Err numeric_value_out_of_range
  else if negb (holds (Users_can_insert_own_profile rq r)) then
    Err (rls_violation "profiles")
  else profile_constraints r d.

(** [handle_new_user()], SECURITY DEFINER: the INSERT runs as the owner of
    the table and no policy applies.
    [INSERT INTO public.profiles (id, email, full_name) VALUES (NEW.id,
     NEW.email, COALESCE(NEW.raw_user_meta_data->>'full_name', 'User'))] *)
Definition handle_new_user (rq : request) (NEW : AuthUser.row) (d : db)
  : result db :=
  profile_constraints
    (new_profile rq
       (Profile.mkInsert
          (AuthUser.id NEW)
          (AuthUser.email NEW)
          (COALESCE (json_get_text (AuthUser.raw_user_meta_data NEW)
                                   (JS.lit "full_name"))
                    (JS.lit "User"))
          None None None None None None None None None None None))
    d.

(** Creating an identity: the row enters [auth.users], then the trigger
    [on_auth_user_created] (AFTER INSERT, FOR EACH ROW) runs
    [handle_new_user]; if the trigger fails the identity is not created. *)
Definition create_identity (rq : request) (NEW : AuthUser.row) (d : db)
  : result db :=
  if has_auth_user d (AuthUser.id NEW) then
    Err (unique_violation "users_pkey")
  else handle_new_user rq NEW (with_auth_users d (auth_users d ++ [NEW])).

(* ------------------------------------------------------------------ *)
(** *** storage *)

Definition same_object (o : StorageObject.row) (b n : text) : bool :=
  JS.eqb (StorageObject.bucket_id o) b && JS.eqb (StorageObject.name o) n.

(** [storage.from(bucket).upload(path, file, { upsert: true })] *)
Definition storage_upload (rq : request) (bucket path : text) (size : Z)
    (d : db) : result db :=
  let o := StorageObject.mk bucket path size in
  if negb (holds (Users_can_upload_their_own_resume rq o)) then
    Err storage_unauthorized
  else if existsb (fun x => same_object x bucket path) (storage_objects d) then
    Ok (with_storage_objects d
          (map (fun x => if same_object x bucket path then o else x)
               (storage_objects d)))
  else Ok (with_storage_objects d (storage_objects d ++ [o])).

(** [storage.from(bucket).getPublicUrl(path)] *)
Definition getPublicUrl (supabaseUrl bucket path : text) : text :=
  supabaseUrl ++ JS.lit "/storage/v1/object/public/" ++ bucket
  ++ [JS.slash] ++ path.

(* ================================================================== *)
(** ** The client *)
(* ================================================================== *)

(** What a handler does besides talking to the store. *)
Inductive effect : Type :=
| toast_error (m : text)
| toast_success (m : text)
| toast (title description : text) (destructive : bool)
| navigate (to : text).

(** The [error] member of a response. *)
Definition error_of {A : Type} (r : result A) : option PostgrestError :=
  match r with
  | Ok _ => None
  | Err e => Some e
  end.

(** A request made with the session of [user]: [auth.uid()] is the id of the
    signed-in user, NULL without a session. *)
Definition request_of (user : option uuid) (t : timestamptz) (g : uuid)
  : request := mkrequest user t g.

(** [.single()]: the row when the response has exactly one row, otherwise
    (with an error) null. *)
Definition single {A : Type} (rows : list A) : option A :=
  match rows with
  | [r] => Some r
  | _ => None
  end.

(** [.from("profiles").select(...).eq("id", session.user.id).single()] *)
Definition own_profile (u : uuid) (t : timestamptz) (g : uuid) (d : db)
  : option Profile.row :=
  single (filter (fun p => JS.eqb (Profile.id p) u)
                 (select_profiles (request_of (Some u) t g) d)).

Definition application_status_eqb (a b : application_status) : bool :=
  match a, b with
  | applied, applied | viewed, viewed | shortlisted, shortlisted
  | rejected, rejected | hired, hired => true
  | _, _ => false
  end.

(* ------------------------------------------------------------------ *)
(** *** JobDetails page *)
Module JobDetails.

(** The branch of [handleApply] on the response of the INSERT. *)
Definition report (error : option PostgrestError) : list effect :=
  match error with
  | Some e =>
      if JS.eqb (code e) (JS.lit "23505")
      then [toast_error (JS.lit "You've already applied to this job")]
      else [toast_error (JS.lit "Failed to submit application")]
  | None => [toast_success (JS.lit "Application submitted successfully!")]
  end.

Section Address.
(** The input function of the UUID type.  The [id] of [useParams] is text
    taken from the address of the page; where it meets a UUID column the
    database reads it with this function, in whatever spelling the
    function accepts, and answers 22P02 when it is no UUID.  (The ids
    the client got from the service, such as [session.user.id] or the id
    of a row it fetched, are in the form the database prints.) *)
Variable uuid_in : text -> option uuid.

Definition handleApply (user : option uuid) (id : text)
    (t : timestamptz) (g : uuid) (d : db) : db * list effect :=
  match user with
  | None =>
      (d, [toast_error (JS.lit "Please sign in to apply");
           navigate (JS.lit "/auth")])
  | Some u =>
      let r :=
        match uuid_in id with
        | None => Err (invalid_text_representation id)
        | Some job_id =>
            insert_applications (request_of user t g)
              (Application.mkInsert None job_id u (Some applied)
                                    None None None None)
              d
        end in
      (after d r, report (error_of r))
  end.

(** [fetchJobDetails]: [.from("jobs").select("*").eq("id", id).single()];
    anything but exactly one visible row is an error.  Only reads. *)
Definition fetchJobDetails (user : option uuid) (id : text)
    (t : timestamptz) (g : uuid) (d : db) : option Job.row * list effect :=
  match option_map
          (fun job_id =>
             filter (fun j => JS.eqb (Job.id j) job_id)
                    (select_jobs (request_of user t g) d))
          (uuid_in id) with
  | Some [j] => (Some j, [])
  | _ => (None, [toast_error (JS.lit "Failed to load job details");
                 navigate (JS.lit "/jobs")])
  end.

End Address.

(** [!n] for [n: number | null]: null and 0 are falsy. *)
Definition falsy (n : option Z) : bool :=
  match n with
  | None => true
  | Some v => Z.eqb v 0%Z
  end.

Section Display.
(** [(n / 1000).toFixed(0)] *)
Variable thousands : Z -> text.

(** [formatSalary]; [null / 1000] is 0. *)
Definition formatSalary (min max : option Z) : text :=
  if falsy min && falsy max then JS.lit "Salary not specified"
  else if negb (falsy min) && negb (falsy max) then
    JS.lit "$" ++ thousands (COALESCE min 0%Z) ++ JS.lit "k - $"
    ++ thousands (COALESCE max 0%Z) ++ JS.lit "k"
  else if negb (falsy min) then
    JS.lit "From $" ++ thousands (COALESCE min 0%Z) ++ JS.lit "k"
  else JS.lit "Up to $" ++ thousands (COALESCE max 0%Z) ++ JS.lit "k".

End Display.

End JobDetails.

(* ------------------------------------------------------------------ *)
(** *** Jobs page *)
Module Jobs.

(** [Set<string>], in insertion order. *)
Definition has (s : list uuid) (x : uuid) : bool :=
  existsb (JS.eqb x) s.
Definition add (s : list uuid) (x : uuid) : list uuid :=
  if has s x then s else s ++ [x].
Definition delete (s : list uuid) (x : uuid) : list uuid :=
  filter (fun y => negb (JS.eqb x y)) s.

(** [fetchJobs]: [.from("jobs").select("*").eq("status", "open")
                  .order("created_at", { ascending: false })] *)
Definition fetchJobs (user : option uuid) (t : timestamptz) (g : uuid)
    (d : db) : list Job.row :=
  order_by_desc Job.created_at
    (filter (fun j => job_status_eqb (Job.status j) open)
            (select_jobs (request_of user t g) d)).

(** The filter of the DELETE in [toggleSaveJob]:
    [.eq("user_id", user.id).eq("job_id", jobId)] *)
Definition saved_by (u jobId : uuid) (s : SavedJob.row) : bool :=
  JS.eqb (SavedJob.user_id s) u && JS.eqb (SavedJob.job_id s) jobId.

Definition toggleSaveJob (user : option uuid) (savedJobIds : list uuid)
    (jobId : uuid) (t : timestamptz) (g : uuid) (d : db)
  : db * list uuid * list effect :=
  match user with
  | None =>
      (d, savedJobIds, [toast_error (JS.lit "Please sign in to save jobs")])
  | Some u =>
      if has savedJobIds jobId then
        (delete_saved_jobs (request_of user t g) (saved_by u jobId) d,
         delete savedJobIds jobId,
         [toast_success (JS.lit "Job removed from saved")])
      else
        match insert_saved_jobs (request_of user t g)
                (SavedJob.mkInsert None jobId u None) d with
        | Err e =>
            (d, savedJobIds,
             [toast_error (JS.lit "Failed to save job: " ++ message e)])
        | Ok d' =>
            (d', add savedJobIds jobId,
             [toast_success (JS.lit "Job saved successfully")])
        end
  end.

(** [new Set(array)]: the elements in order of first occurrence. *)
Definition from_array (a : list uuid) : list uuid :=
  fold_left add a [].

(** The part of [checkUser] that fills [savedJobIds]: with a session,
    [.from("saved_jobs").select("job_id").eq("user_id", session.user.id)];
    without one the set stays empty. *)
Definition checkUser (session : option uuid) (t : timestamptz) (g : uuid)
    (d : db) : option uuid * list uuid :=
  match session with
  | None => (None, [])
  | Some u =>
      (Some u,
       from_array
         (map SavedJob.job_id
              (filter (fun s => JS.eqb (SavedJob.user_id s) u)
                      (select_saved_jobs (request_of session t g) d))))
  end.

Section Display.
(** [(n / 1000).toFixed(0)] *)
Variable thousands : Z -> text.
(** The built-in [String.prototype.toLowerCase]. *)
Variable toLowerCase : text -> text.

(** [formatSalary]; [null / 1000] is 0. *)
Definition formatSalary (min max : option Z) : text :=
  if JobDetails.falsy min && JobDetails.falsy max then
    JS.lit "Salary not specified"
  else if negb (JobDetails.falsy min) && negb (JobDetails.falsy max) then
    JS.lit "$" ++ thousands (COALESCE min 0%Z) ++ JS.lit "k - $"
    ++ thousands (COALESCE max 0%Z) ++ JS.lit "k"
  else if negb (JobDetails.falsy min) then
    JS.lit "From $" ++ thousands (COALESCE min 0%Z) ++ JS.lit "k"
  else JS.lit "Up to $" ++ thousands (COALESCE max 0%Z) ++ JS.lit "k".

Definition matchesSearch (searchTerm : text) (job : Job.row) : bool :=
  JS.includes (toLowerCase (Job.title job)) (toLowerCase searchTerm)
  || JS.includes (toLowerCase (Job.company_name job))
                 (toLowerCase searchTerm)
  || existsb (fun skill => JS.includes (toLowerCase skill)
                                       (toLowerCase searchTerm))
             (Job.required_skills job).

(** The empty string is falsy. *)
Definition matchesLocation (locationFilter : text) (job : Job.row) : bool :=
  match locationFilter with
  | [] => true
  | _ => JS.includes (toLowerCase (Job.location job))
                     (toLowerCase locationFilter)
  end.

(** [filteredJobs] *)
Definition filteredJobs (jobs : list Job.row)
    (searchTerm locationFilter : text) : list Job.row :=
  filter (fun job => matchesSearch searchTerm job
                     && matchesLocation locationFilter job)
         jobs.

End Display.

End Jobs.

(* ------------------------------------------------------------------ *)
(** *** Applicants page *)
Module Applicants.

(** [.from("applications").update({ status: newStatus }).eq("id", applicationId)] *)
Definition status_update (newStatus : application_status)
  : Application.Update :=
  Application.mkUpdate None None None (Some newStatus) None None None None.

Definition updateApplicationStatus (session : option uuid)
    (applicationId : uuid) (newStatus : application_status)
    (t : timestamptz) (g : uuid) (d : db) : db * list effect :=
  match update_applications (request_of session t g)
          (fun a => JS.eqb (Application.id a) applicationId)
          (status_update newStatus) d with
  | Err _ => (d, [toast_error (JS.lit "Failed to update status")])
  | Ok d' => (d', [toast_success (JS.lit "Application status updated")])
  end.








End Applicants.

(* ------------------------------------------------------------------ *)
(** *** PostJob page *)
Module PostJob.

Record formData : Type := mkForm {
  title : text;
  company_name : text;
  description : text;
  requirements : text;
  location : text;
  job_type : text;
  salary_min : text;
  salary_max : text;
  experience_level : text;
  required_skills : text
}.

(** [required_skills.split(",").map(s => s.trim()).filter(s => s.length > 0)] *)
Definition skillsArray (required_skills : text) : list text :=
  filter (fun s => Nat.ltb 0 (length s))
         (map JS.trim (JS.split JS.comma required_skills)).

Section Submit.
(** The built-in [parseInt]; [None] is NaN, which is sent as null. *)
Variable parseInt : text -> option Z.

(** [field ? parseInt(field) : null]: the empty string is falsy. *)
Definition int_or_null (field : text) : option Z :=
  match field with
  | [] => None
  | _ => parseInt field
  end.

Definition payload (u : uuid) (f : formData) : Job.Insert :=
  Job.mkInsert None u (title f) (description f) (company_name f)
    (location f) (job_type f)
    (int_or_null (salary_min f)) (int_or_null (salary_max f))
    (skillsArray (required_skills f))
    (int_or_null (experience_level f))
    None None None None None.

Definition handleSubmit (user : option uuid) (f : formData)
    (t : timestamptz) (g : uuid) (d : db) : db * list effect :=
  match user with
  | None =>
      (d, [toast (JS.lit "Authentication required")
                 (JS.lit "Please sign in to post a job") true;
           navigate (JS.lit "/auth")])
  | Some u =>
      match insert_jobs (request_of user t g) (payload u f) d with
      | Err e => (d, [toast (JS.lit "Error") (message e) true])
      | Ok d' =>
          (d', [toast (JS.lit "Success!")
                      (JS.lit "Job posted successfully") false;
                navigate (JS.lit "/dashboard")])
      end
  end.
End Submit.

End PostJob.

(* ------------------------------------------------------------------ *)
(** *** Profile page *)
Module ProfilePage.

(** The entries [handleSubmit] reads from the form; the last two inputs
    are rendered for one role only and read as null otherwise. *)
Record formData : Type := mkForm {
  full_name : text;
  phone : text;
  location : text;
  bio : text;
  company_name : option text;
  experience_years : option text
}.

(** A selected [File]. *)
Record File : Type := mkFile {
  name : text;
  size : Z
}.

(** [5 * 1024 * 1024] *)
Definition max_resume_size : Z := 5 * 1024 * 1024.

Section Handlers.
Variable parseInt : text -> option Z.
(** The project URL the client was created with. *)
Variable supabaseUrl : text.

(** [parseInt(v as string) || null]: NaN and 0 are falsy. *)
Definition years_or_null (v : option text) : option Z :=
  match parseInt (COALESCE v (JS.lit "null")) with
  | Some 0%Z => None
  | r => r
  end.

Definition updates (profile : Profile.row) (f : formData)
  : Profile.Update :=
  Profile.mkUpdate None None
    (Some (full_name f))
    None
    (Some (Some (phone f)))
    (Some (Some (location f)))
    (Some (Some (bio f)))
    (Some (if user_role_eqb (Profile.role profile) recruiter
           then company_name f else None))
    None None
    (Some (Profile.skills profile))
    (Some (if user_role_eqb (Profile.role profile) job_seeker
           then years_or_null (experience_years f) else None))
    None None.

Definition handleSubmit (user : option uuid)
    (profile : option Profile.row) (f : formData)
    (t : timestamptz) (g : uuid) (d : db) : db * list effect :=
  match profile, user with
  | Some p, Some u =>
      match update_profiles (request_of user t g)
              (fun r => JS.eqb (Profile.id r) u) (updates p f) d with
      | Err e =>
          (d, [toast_error
                 (JS.lit "Failed to update profile: " ++ message e)])
      | Ok d' => (d', [toast_success (JS.lit "Profile updated successfully")])
      end
  | _, _ => (d, [])
  end.

(** [`${user.id}/resume.${fileExt}`] with
    [fileExt = file.name.split('.').pop()] *)
Definition fileName (u : uuid) (file : File) : text :=
  u ++ JS.lit "/resume."
    ++ JS.template (JS.pop (JS.split JS.dot (name file))).

Definition resume_update (publicUrl : text) : Profile.Update :=
  Profile.mkUpdate None None None None None None None None
    (Some (Some publicUrl)) None None None None None.

Definition handleResumeUpload (user : option uuid) (file : option File)
    (t : timestamptz) (g : uuid) (d : db) : db * list effect :=
  match file, user with
  | Some fl, Some u =>
      if Z.ltb max_resume_size (size fl) then
        (d, [toast_error (JS.lit "File size must be less than 5MB")])
      else
        let rq := request_of user t g in
        let path := fileName u fl in
        match storage_upload rq (JS.lit "resumes") path (size fl) d with
        | Err e =>
            (d, [toast_error
                   (JS.lit "Failed to upload resume: " ++ message e)])
        | Ok d1 =>
            let publicUrl :=
              getPublicUrl supabaseUrl (JS.lit "resumes") path in
            match update_profiles rq (fun r => JS.eqb (Profile.id r) u)
                    (resume_update publicUrl) d1 with
            | Err e =>
                (d1, [toast_error
                        (JS.lit "Failed to upload resume: " ++ message e)])
            | Ok d2 =>
                (d2, [toast_success
                        (JS.lit "Resume uploaded successfully")])
            end
        end
  | _, _ => (d, [])
  end.
End Handlers.

(** [{ ...profile, skills: newSkills }] *)
Definition with_skills (p : Profile.row) (newSkills : list text)
  : Profile.row :=
  Profile.mk (Profile.id p) (Profile.email p) (Profile.full_name p)
             (Profile.role p) (Profile.phone p) (Profile.location p)
             (Profile.bio p) (Profile.company_name p) (Profile.resume_url p)
             (Profile.profile_image_url p) (Some newSkills)
             (Profile.experience_years p) (Profile.created_at p)
             (Profile.updated_at p).

(** [array.includes(s)] *)
Definition includes (a : list text) (s : text) : bool :=
  existsb (JS.eqb s) a.

(** [addSkill]: the page state is the profile and the text of the input;
    an empty string is falsy. *)
Definition addSkill (profile : option Profile.row) (skillInput : text)
  : option Profile.row * text * list effect :=
  match JS.trim skillInput, profile with
  | [], _ => (profile, skillInput, [])
  | _, None => (profile, skillInput, [])
  | s, Some p =>
      let currentSkills := COALESCE (Profile.skills p) [] in
      if includes currentSkills s then
        (profile, skillInput, [toast_error (JS.lit "Skill already added")])
      else (Some (with_skills p (currentSkills ++ [s])), [], [])
  end.

(** [removeSkill] *)
Definition removeSkill (profile : option Profile.row) (skillToRemove : text)
  : option Profile.row :=
  match profile with
  | None => None
  | Some p =>
      Some (with_skills p
              (filter (fun skill => negb (JS.eqb skill skillToRemove))
                      (COALESCE (Profile.skills p) [])))
  end.

End ProfilePage.

(* ------------------------------------------------------------------ *)
(** *** Analytics page *)
Module Analytics.

Record Stats : Type := mkStats {
  totalJobs : nat;
  activeJobs : nat;
  totalApplications : nat;
  appliedCount : nat;
  reviewingCount : nat;
  interviewCount : nat;
  acceptedCount : nat;
  rejectedCount : nat
}.

(** [useState({ totalJobs: 0, ... })] *)
Definition no_stats : Stats := mkStats 0 0 0 0 0 0 0 0.

(** [applications?.filter((app) => app.status === s).length || 0] *)
Definition with_status (s : application_status)
    (applications : list Application.row) : nat :=
  length (filter (fun app => application_status_eqb
                               (Application.status app) s)
                 applications).

(** [fetchAnalytics(userId)] *)
Definition fetchAnalytics (session : option uuid) (userId : uuid)
    (t : timestamptz) (g : uuid) (d : db) : Stats :=
  let rq := request_of session t g in
  let jobs := filter (fun j => JS.eqb (Job.recruiter_id j) userId)
                     (select_jobs rq d) in
  let applications :=
    flat_map (fun a => map (fun _ => a) (joined_jobs rq d userId a))
             (select_applications rq d) in
  mkStats (length jobs)
          (length (filter (fun job => job_status_eqb (Job.status job) open)
                          jobs))
          (length applications)
          (with_status applied applications)
          (with_status shortlisted applications)
          (with_status viewed applications)
          (with_status hired applications)
          (with_status rejected applications).

Definition checkUserAndFetchAnalytics (session : option uuid)
    (t : timestamptz) (g : uuid) (d : db) : Stats * list effect :=
  match session with
  | None => (no_stats, [navigate (JS.lit "/auth")])
  | Some u =>
      match option_map Profile.role (own_profile u t g d) with
      | Some recruiter => (fetchAnalytics session u t g d, [])
      | _ =>
          (no_stats,
           [toast_error (JS.lit "Only recruiters can access this page");
            navigate (JS.lit "/dashboard")])
      end
  end.

End Analytics.

(* ------------------------------------------------------------------ *)
(** *** Dashboard page *)
Module Dashboard.

(** The state [checkUser] sets; the counts start at 0. *)
Record state : Type := mkstate {
  user : option uuid;
  profile : option Profile.row;
  applicationsCount : nat;
  savedJobsCount : nat;
  activeJobsCount : nat;
  totalApplicants : nat
}.

Definition checkUser (session : option uuid) (t : timestamptz) (g : uuid)
    (d : db) : state * list effect :=
  match session with
  | None => (mkstate None None 0 0 0 0, [navigate (JS.lit "/auth")])
  | Some u =>
      let rq := request_of session t g in
      match own_profile u t g d with
      | None =>
          (mkstate (Some u) None 0 0 0 0,
           [toast_error (JS.lit "Failed to load profile");
            navigate (JS.lit "/auth")])
      | Some profileData =>
          match Profile.role profileData with
          | job_seeker =>
              (mkstate (Some u) (Some profileData)
                 (length (filter (fun a => JS.eqb (Application.applicant_id a)
                                                  u)
                                 (select_applications rq d)))
                 (length (filter (fun s => JS.eqb (SavedJob.user_id s) u)
                                 (select_saved_jobs rq d)))
                 0 0, [])
          | recruiter =>
              let recruiterJobs :=
                filter (fun j => JS.eqb (Job.recruiter_id j) u)
                       (select_jobs rq d) in
              let jobIds := map Job.id recruiterJobs in
              (mkstate (Some u) (Some profileData) 0 0
                 (length (filter (fun j => JS.eqb (Job.recruiter_id j) u
                                           && job_status_eqb (Job.status j)
                                                             open)
                                 (select_jobs rq d)))
                 (match recruiterJobs with
                  | [] => 0
                  | _ =>
                      length (filter
                                (fun a => existsb
                                            (JS.eqb (Application.job_id a))
                                            jobIds)
                                (select_applications rq d))
                  end), [])
          | admin => (mkstate (Some u) (Some profileData) 0 0 0 0, [])
          end
      end
  end.

End Dashboard.

(* ------------------------------------------------------------------ *)
(** *** Everything the application does to the store *)

(** One operation of the system: the creation of an identity (with its
    trigger) or one run of a handler of the client. *)
Inductive operation : Type :=
| op_create_identity (NEW : AuthUser.row)
| op_view_job (user : option uuid) (id : text)
| op_list_jobs (user : option uuid)
| op_apply (user : option uuid) (id : text)
| op_toggle_save (user : option uuid) (savedJobIds : list uuid) (jobId : uuid)
| op_update_status (session : option uuid) (applicationId : uuid)
                   (newStatus : application_status)
| op_post_job (user : option uuid) (f : PostJob.formData)
| op_save_profile (user : option uuid) (profile : option Profile.row)
                  (f : ProfilePage.formData)
| op_upload_resume (user : option uuid) (file : option ProfilePage.File).

Section Run.
Variable parseInt : text -> option Z.
Variable supabaseUrl : text.
Variable uuid_in : text -> option uuid.

(** The store after one operation run at time [t] with [g] the next
    generated key. *)
Definition step (d : db) (o : operation) (t : timestamptz) (g : uuid) : db :=
  match o with
  | op_create_identity NEW =>
      after d (create_identity (mkrequest None t g) NEW d)
  | op_view_job _ _ => d
  | op_list_jobs _ => d
  | op_apply user id => fst (JobDetails.handleApply uuid_in user id t g d)
  | op_toggle_save user saved jobId =>
      fst (fst (Jobs.toggleSaveJob user saved jobId t g d))
  | op_update_status session applicationId newStatus =>
      fst (Applicants.updateApplicationStatus session applicationId
             newStatus t g d)
  | op_post_job user f => fst (PostJob.handleSubmit parseInt user f t g d)
  | op_save_profile user profile f =>
      fst (ProfilePage.handleSubmit parseInt user profile f t g d)
  | op_upload_resume user file =>
      fst (ProfilePage.handleResumeUpload supabaseUrl user file t g d)
  end.

(** A history: operations with the time and key each one ran with. *)
Fixpoint run (d : db) (h : list (operation * timestamptz * uuid)) : db :=
  match h with
  | [] => d
  | (o, t, g) :: h' => run (step d o t g) h'
  end.
End Run.

(* ------------------------------------------------------------------ *)
(** *** Statements as data *)

(** The statements that can change the store: on each table the commands
    for which a policy exists (a command without a policy reaches no row),
    an upload, and the creation of an identity. *)
Inductive statement : Type :=
| INSERT_applications (i : Application.Insert)
| UPDATE_applications (whr : Application.row -> bool) (u : Application.Update)
| INSERT_saved_jobs (i : SavedJob.Insert)
| DELETE_saved_jobs (whr : SavedJob.row -> bool)
| INSERT_jobs (i : Job.Insert)
| UPDATE_jobs (whr : Job.row -> bool) (u : Job.Update)
| DELETE_jobs (whr : Job.row -> bool)
| INSERT_profiles (i : Profile.Insert)
| UPDATE_profiles (whr : Profile.row -> bool) (u : Profile.Update)
| CREATE_identity (NEW : AuthUser.row)
| UPLOAD_object (bucket path : text) (size : Z).

(** The store after a statement. *)
Definition execute (rq : request) (s : statement) (d : db) : db :=
  match s with
  | INSERT_applications i => after d (insert_applications rq i d)
  | UPDATE_applications whr u => after d (update_applications rq whr u d)
  | INSERT_saved_jobs i => after d (insert_saved_jobs rq i d)
  | DELETE_saved_jobs whr => delete_saved_jobs rq whr d
  | INSERT_jobs i => after d (insert_jobs rq i d)
  | UPDATE_jobs whr u => after d (update_jobs rq whr u d)
  | DELETE_jobs whr => delete_jobs rq whr d
  | INSERT_profiles i => after d (insert_profiles rq i d)
  | UPDATE_profiles whr u => after d (update_profiles rq whr u d)
  | CREATE_identity NEW => after d (create_identity rq NEW d)
  | UPLOAD_object bucket path size =>
      after d (storage_upload rq bucket path size d)
  end.

(* ------------------------------------------------------------------ *)
(** *** Vocabulary of the properties *)

(** Both denormalized counters of a job still hold their default. *)
Definition counters_untouched (j : Job.row) : Prop :=
  Job.views_count j = Some 0%Z /\ Job.applications_count j = Some 0%Z.

(** A skill as the posting form submits it: not empty, and neither its
    first nor its last code unit is white space. *)
Definition clean_skill (x : text) : Prop :=
  x <> []
  /\ (forall c, hd_error x = Some c -> JS.is_white_space c = false)
  /\ (forall c, last_unit x = Some c -> JS.is_white_space c = false).

(** The caller is the recruiter of the job an application refers to. *)
Definition owns_job_of (rq : request) (d : db) (A : Application.row) : Prop :=
  exists j, In j (jobs d) /\ Job.id j = Application.job_id A
            /\ auth_uid rq = Some (Job.recruiter_id j).

(** The application rows of one (job, applicant) pair. *)
Definition pair_is (job applicant : uuid) (a : Application.row) : bool :=
  JS.eqb job (Application.job_id a)
  && JS.eqb applicant (Application.applicant_id a).

Definition applications_of (d : db) (job applicant : uuid)
  : list Application.row :=
  filter (pair_is job applicant) (applications d).

Definition at_most_one_application (d : db) : Prop :=
  forall job applicant, length (applications_of d job applicant) <= 1.

(** The saved-job rows of one (job, user) pair. *)
Definition saved_pair_is (job user : uuid) (s : SavedJob.row) : bool :=
  JS.eqb job (SavedJob.job_id s) && JS.eqb user (SavedJob.user_id s).

Definition saved_jobs_of (d : db) (job user : uuid) : list SavedJob.row :=
  filter (saved_pair_is job user) (saved_jobs d).

(** Every profile belongs to an identity ([profiles.id REFERENCES
    auth.users(id)]). *)
Definition profiles_have_identity (d : db) : Prop :=
  forall p, In p (profiles d) -> has_auth_user d (Profile.id p) = true.

(** The two messages [handleApply] shows for a failed INSERT. *)
Definition already_applied : list effect :=
  [toast_error (JS.lit "You've already applied to this job")].
Definition failed_to_submit : list effect :=
  [toast_error (JS.lit "Failed to submit application")].

(* ------------------------------------------------------------------ *)
(** *** A small store *)

(** Three identities with their profiles (a job seeker and two recruiters),
    an open and a closed job of the first recruiter, one application and
    one saved job of the job seeker. *)
Module Sample.

Definition alice : uuid := JS.lit "a11ce".
Definition bob : uuid := JS.lit "b0b".
Definition carol : uuid := JS.lit "ca401".
Definition dave : uuid := JS.lit "da7e".
Definition job1 : uuid := JS.lit "job-1".
Definition job2 : uuid := JS.lit "job-2".

Definition identity (i : uuid) (name : option jsonb) : AuthUser.row :=
  AuthUser.mk i (i ++ JS.lit "@example.org") name.

Definition profile (i : uuid) (r : user_role) : Profile.row :=
  Profile.mk i (i ++ JS.lit "@example.org") (JS.lit "User") r
             None None None None None None None None (Some 1%Z) (Some 1%Z).

Definition job (i : uuid) (owner : uuid) (s : job_status) : Job.row :=
  Job.mk i owner (JS.lit "Developer") (JS.lit "Builds things")
         (JS.lit "TechCorp") (JS.lit "Remote") (JS.lit "full-time")
         None None [JS.lit "React"] None s (Some 0%Z) (Some 0%Z)
         (Some 2%Z) (Some 2%Z).

Definition application1 : Application.row :=
  Application.mk (JS.lit "app-1") job1 alice applied None None
                 (Some 3%Z) (Some 3%Z).

Definition saved1 : SavedJob.row :=
  SavedJob.mk (JS.lit "saved-1") job1 alice (Some 4%Z).

(** The store before anybody applied or saved. *)
Definition fresh : db :=
  mkdb [identity alice None; identity bob None; identity carol None]
       [profile alice job_seeker; profile bob recruiter;
        profile carol recruiter]
       [job job1 bob open; job job2 bob closed]
       [] [] [].

Definition store : db :=
  with_saved_jobs (with_applications fresh [application1]) [saved1].

Definition no_parseInt (s : text) : option Z := None.
Definition url : text := JS.lit "https://project.example".

(** An input function for the ids of the sample: upper-case letters read
    as lower-case ones, the empty text is no id. *)
Definition uuid_in (s : text) : option uuid :=
  match s with
  | [] => None
  | _ => Some (map (fun c => if (N.leb 65 c && N.leb c 90)%bool
                             then (c + 32)%N else c) s)
  end.

End Sample.


(* ------------------------------------------------------------------ *)
(** *** Integrity of the store *)

(** At most one row of a table per key. *)
Definition at_most_one {A : Type} (same : A -> A -> bool) (l : list A)
  : Prop :=
  forall x, count_if (same x) l <= 1.

Definition same_profile_id (a b : Profile.row) : bool :=
  JS.eqb (Profile.id a) (Profile.id b).

Definition same_auth_user_id (a b : AuthUser.row) : bool :=
  JS.eqb (AuthUser.id a) (AuthUser.id b).

(** Every PRIMARY KEY and the UNIQUE constraint of saved_jobs; the UNIQUE
    constraint of applications is [at_most_one_application]. *)
Definition keys_unique (d : db) : Prop :=
  at_most_one same_auth_user_id (auth_users d)
  /\ at_most_one same_profile_id (profiles d)
  /\ at_most_one same_job_id (jobs d)
  /\ at_most_one same_application_id (applications d)
  /\ at_most_one same_saved_job_id (saved_jobs d)
  /\ at_most_one same_saved_job_pair (saved_jobs d).

(** Every REFERENCES clause between the four tables. *)
Definition references_hold (d : db) : Prop :=
  (forall j, In j (jobs d) -> has_profile d (Job.recruiter_id j) = true)
  /\ (forall a, In a (applications d) ->
                has_job d (Application.job_id a) = true
                /\ has_profile d (Application.applicant_id a) = true)
  /\ (forall s, In s (saved_jobs d) ->
                has_job d (SavedJob.job_id s) = true
                /\ has_profile d (SavedJob.user_id s) = true).

(** The statements a client can send: all but the creation of an identity,
    which the authentication service performs. *)
Definition sent_by_client (s : statement) : bool :=
  match s with
  | CREATE_identity _ => false
  | _ => true
  end.


(** No two rows of a list share a key, as a test. *)
Fixpoint distinct_keys {A : Type} (same : A -> A -> bool) (l : list A)
  : bool :=
  match l with
  | [] => true
  | x :: r => negb (existsb (same x) r) && distinct_keys same r
  end.


(* ------------------------------------------------------------------ *)
(** *** Vocabulary of the further properties *)

(** The caller has a profile with a given role. *)
Definition has_role (d : db) (u : uuid) (r : user_role) : Prop :=
  exists p, In p (profiles d) /\ Profile.id p = u /\ Profile.role p = r.

(** The row [handleApply] stores. *)
Definition applied_row (g id u : uuid) (t : timestamptz) : Application.row :=
  Application.mk g id u applied None None (Some t) (Some t).

(** When [handleApply] of user [u] on job [id] goes through. *)
Definition can_apply (d : db) (u id g : uuid) : Prop :=
  has_role d u job_seeker
  /\ has_job d id = true
  /\ applications_of d id u = []
  /\ existsb (fun a => JS.eqb g (Application.id a)) (applications d) = false.

(** Every INTEGER column holds a 32-bit value. *)
Definition integers_in_range (d : db) : Prop :=
  (forall j, In j (jobs d) -> job_integers_ok j = true)
  /\ (forall p, In p (profiles d) ->
                int4_ok (Profile.experience_years p) = true).


(** The row [PostJob.handleSubmit] stores; the [requirements] entry of the
    form is not part of it. *)
Definition posted_row (parseInt : text -> option Z) (g u : uuid)
    (t : timestamptz) (f : PostJob.formData) : Job.row :=
  Job.mk g u (PostJob.title f) (PostJob.description f)
         (PostJob.company_name f) (PostJob.location f) (PostJob.job_type f)
         (PostJob.int_or_null parseInt (PostJob.salary_min f))
         (PostJob.int_or_null parseInt (PostJob.salary_max f))
         (PostJob.skillsArray (PostJob.required_skills f))
         (PostJob.int_or_null parseInt (PostJob.experience_level f))
         open (Some 0%Z) (Some 0%Z) (Some t) (Some t).

(** When [PostJob.handleSubmit] of user [u] goes through. *)
Definition can_post (parseInt : text -> option Z) (d : db) (u g : uuid)
    (f : PostJob.formData) : Prop :=
  has_role d u recruiter
  /\ existsb (fun j => JS.eqb g (Job.id j)) (jobs d) = false
  /\ int4_ok (PostJob.int_or_null parseInt (PostJob.salary_min f)) = true
  /\ int4_ok (PostJob.int_or_null parseInt (PostJob.salary_max f)) = true
  /\ int4_ok (PostJob.int_or_null parseInt (PostJob.experience_level f))
     = true.

Definition job_posted : list effect :=
  [toast (JS.lit "Success!") (JS.lit "Job posted successfully") false;
   navigate (JS.lit "/dashboard")].

(** [.update({ status: s })] on jobs. *)
Definition job_status_update (s : job_status) : Job.Update :=
  Job.mkUpdate None None None None None None None None None None None
               (Some s) None None None None.

(** [.update({ recruiter_id: r })] on jobs. *)
Definition job_owner_update (r : uuid) : Job.Update :=
  Job.mkUpdate None (Some r) None None None None None None None None None
               None None None None None.

Definition with_job_status (j : Job.row) (s : job_status)
    (t : timestamptz) : Job.row :=
  Job.mk (Job.id j) (Job.recruiter_id j) (Job.title j) (Job.description j)
         (Job.company_name j) (Job.location j) (Job.job_type j)
         (Job.salary_min j) (Job.salary_max j) (Job.required_skills j)
         (Job.experience_required j) s (Job.views_count j)
         (Job.applications_count j) (Job.created_at j) (Some t).


(** [.update({ role: r })] on profiles. *)
Definition role_update (r : user_role) : Profile.Update :=
  Profile.mkUpdate None None None (Some r) None None None None None None
                   None None None None.

Definition with_role (p : Profile.row) (r : user_role) (t : timestamptz)
  : Profile.row :=
  Profile.mk (Profile.id p) (Profile.email p) (Profile.full_name p) r
             (Profile.phone p) (Profile.location p) (Profile.bio p)
             (Profile.company_name p) (Profile.resume_url p)
             (Profile.profile_image_url p) (Profile.skills p)
             (Profile.experience_years p) (Profile.created_at p) (Some t).

(** The row of the user after [ProfilePage.handleSubmit]: [page] is the
    profile the page holds, [r] the stored row. *)
Definition saved_profile (parseInt : text -> option Z)
    (page : Profile.row) (f : ProfilePage.formData) (t : timestamptz)
    (r : Profile.row) : Profile.row :=
  Profile.mk (Profile.id r) (Profile.email r) (ProfilePage.full_name f)
             (Profile.role r)
             (Some (ProfilePage.phone f)) (Some (ProfilePage.location f))
             (Some (ProfilePage.bio f))
             (if user_role_eqb (Profile.role page) recruiter
              then ProfilePage.company_name f else None)
             (Profile.resume_url r) (Profile.profile_image_url r)
             (Profile.skills page)
             (if user_role_eqb (Profile.role page) job_seeker
              then ProfilePage.years_or_null parseInt
                     (ProfilePage.experience_years f)
              else None)
             (Profile.created_at r) (Some t).

(** The row of the user after a resume was uploaded. *)
Definition with_resume_url (p : Profile.row) (url : text) (t : timestamptz)
  : Profile.row :=
  Profile.mk (Profile.id p) (Profile.email p) (Profile.full_name p)
             (Profile.role p) (Profile.phone p) (Profile.location p)
             (Profile.bio p) (Profile.company_name p) (Some url)
             (Profile.profile_image_url p) (Profile.skills p)
             (Profile.experience_years p) (Profile.created_at p) (Some t).


(** The set of saved jobs the Jobs page holds for user [u] agrees with the
    store. *)
Definition in_sync (u : uuid) (savedJobIds : list uuid) (d : db) : Prop :=
  forall j, Jobs.has savedJobIds j = true <-> saved_jobs_of d j u <> [].


(* ------------------------------------------------------------------ *)
(** *** Reading stored objects *)

(** "Users can view their own resume": the expression of the upload
    policy, as a USING clause of SELECT. *)
Definition Users_can_view_their_own_resume (rq : request)
    (o : StorageObject.row) : sqlbool :=
  sql_and (Some (JS.eqb (StorageObject.bucket_id o) (JS.lit "resumes")))
          (sql_eq (auth_uid rq)
                  (hd_error (storage_foldername (StorageObject.name o)))).

(** "Recruiters can view applicant resumes":
    [bucket_id = 'resumes' AND EXISTS (SELECT 1 FROM applications
       JOIN jobs ON applications.job_id = jobs.id
       WHERE jobs.recruiter_id = auth.uid()
       AND applications.applicant_id::text = (storage.foldername(name))[1])];
    the subquery runs as the caller. *)
Definition Recruiters_can_view_applicant_resumes (rq : request) (d : db)
    (o : StorageObject.row) : sqlbool :=
  sql_and
    (Some (JS.eqb (StorageObject.bucket_id o) (JS.lit "resumes")))
    (Some (existsb
             (fun a =>
                existsb
                  (fun j =>
                     holds
                       (sql_and
                          (sql_and
                             (sql_eq (Some (Application.job_id a))
                                     (Some (Job.id j)))
                             (sql_eq (Some (Job.recruiter_id j))
                                     (auth_uid rq)))
                          (sql_eq (Some (Application.applicant_id a))
                                  (hd_error
                                     (storage_foldername
                                        (StorageObject.name o))))))
                  (select_jobs rq d))
             (select_applications rq d))).

(** [SELECT * FROM storage.objects] as the caller sees it: the two SELECT
    policies are permissive, one of them is enough. *)
Definition select_storage_objects (rq : request) (d : db)
  : list StorageObject.row :=
  filter (fun o => holds (sql_or (Users_can_view_their_own_resume rq o)
                                 (Recruiters_can_view_applicant_resumes
                                    rq d o)))
         (storage_objects d).

(** The caller is the recruiter of a job that user [a] applied to. *)
Definition received_application_from (rq : request) (d : db) (a : uuid)
  : Prop :=
  exists app j,
    In app (applications d) /\ In j (jobs d)
    /\ Application.job_id app = Job.id j
    /\ auth_uid rq = Some (Job.recruiter_id j)
    /\ Application.applicant_id app = a.

(** The object [handleResumeUpload] stores for a file. *)
Definition resume_object (u : uuid) (file : ProfilePage.File)
  : StorageObject.row :=
  StorageObject.mk (JS.lit "resumes") (ProfilePage.fileName u file)
                   (ProfilePage.size file).

(** The key of [storage.objects]: bucket and path. *)
Definition same_object_key (a b : StorageObject.row) : bool :=
  same_object b (StorageObject.bucket_id a) (StorageObject.name a).


(** The skills the profile page shows: [profile.skills || []]. *)
Definition skills_shown (profile : option Profile.row) : list text :=
  match profile with
  | Some p => COALESCE (Profile.skills p) []
  | None => []
  end.

(** No skill twice, none empty, none with white space around it. *)
Definition tidy_skills (l : list text) : Prop :=
  NoDup l /\ Forall clean_skill l.


(** The row [j] is listed no later than the row [k]. *)
Definition newest_first {A : Type} (key : A -> option timestamptz)
    (j k : A) : Prop :=
  desc_nulls_first (key j) (key k) = true.

(** The application refers to a job of recruiter [u]. *)
Definition on_job_of (d : db) (u : uuid) (a : Application.row) : bool :=
  existsb (fun j => JS.eqb (Job.id j) (Application.job_id a)
                    && JS.eqb (Job.recruiter_id j) u)
          (jobs d).

(** The jobs a caller may read: the open ones and the caller's own. *)
Definition readable_job (user : option uuid) (j : Job.row) : Prop :=
  Job.status j = open \/ user = Some (Job.recruiter_id j).

(* ================================================================== *)
(** * Properties *)
(* ================================================================== *)

(* ------------------------------------------------------------------ *)
(** ** Strings *)

Lemma JS_eqb_eq (a b : JS.str) : JS.eqb a b = true <-> a = b.
Proof.
  revert b; induction a as [|x a IH]; intros [|y b]; simpl;
    try (split; [discriminate | congruence]); try tauto.
  rewrite andb_true_iff, N.eqb_eq, IH. split.
  - intros [-> ->]; reflexivity.
  - intros H; injection H; auto.
Qed.

Lemma JS_eqb_refl (a : JS.str) : JS.eqb a a = true.
Proof. apply JS_eqb_eq; reflexivity. Qed.

Lemma JS_eqb_neq (a b : JS.str) : JS.eqb a b = false <-> a <> b.
Proof.
  rewrite <- JS_eqb_eq. destruct (JS.eqb a b); split; congruence.
Qed.

Lemma JS_eqb_sym (a b : JS.str) : JS.eqb a b = JS.eqb b a.
Proof.
  destruct (JS.eqb a b) eqn:E.
  - apply JS_eqb_eq in E; subst; symmetry; apply JS_eqb_refl.
  - symmetry; apply JS_eqb_neq; apply JS_eqb_neq in E; congruence.
Qed.

Lemma trimStart_head (s : JS.str) (c : N) :
  hd_error (JS.trimStart s) = Some c -> JS.is_white_space c = false.
Proof.
  induction s as [|x r IH]; simpl; [discriminate|].
  destruct (JS.is_white_space x) eqn:E; auto.
  simpl; intros H; injection H as <-; exact E.
Qed.

Lemma trimEnd_cons_nonempty (c : N) (r : JS.str) :
  JS.trimEnd r <> [] -> JS.trimEnd (c :: r) = c :: JS.trimEnd r.
Proof. simpl; destruct (JS.trimEnd r); congruence. Qed.

Lemma trimEnd_head (s : JS.str) (c : N) :
  hd_error (JS.trimEnd s) = Some c -> hd_error s = Some c.
Proof.
  destruct s as [|x r]; simpl; auto.
  destruct (JS.trimEnd r); [destruct (JS.is_white_space x)|]; simpl; auto.
  discriminate.
Qed.

Lemma last_unit_cons (x y : N) (r : JS.str) :
  last_unit (x :: y :: r) = last_unit (y :: r).
Proof.
  unfold last_unit; simpl.
  destruct (rev r ++ [y]) eqn:E; [|reflexivity].
  destruct (rev r); discriminate.
Qed.

Lemma trimEnd_last (s : JS.str) (c : N) :
  last_unit (JS.trimEnd s) = Some c -> JS.is_white_space c = false.
Proof.
  induction s as [|x r IH]; simpl; [discriminate|].
  destruct (JS.trimEnd r) as [|y r'] eqn:E.
  - destruct (JS.is_white_space x) eqn:W; [discriminate|].
    unfold last_unit; simpl; intros H; injection H as <-; exact W.
  - rewrite last_unit_cons. exact IH.
Qed.

Lemma trimEnd_idem (s : JS.str) : JS.trimEnd (JS.trimEnd s) = JS.trimEnd s.
Proof.
  induction s as [|x r IH]; simpl; auto.
  destruct (JS.trimEnd r) as [|y r'] eqn:E.
  - destruct (JS.is_white_space x) eqn:W; simpl; [reflexivity|].
    rewrite W; reflexivity.
  - rewrite trimEnd_cons_nonempty; rewrite IH; congruence.
Qed.

Lemma trimStart_fix (s : JS.str) :
  (forall c, hd_error s = Some c -> JS.is_white_space c = false) ->
  JS.trimStart s = s.
Proof.
  destruct s as [|x r]; simpl; auto.
  intros H; rewrite (H x eq_refl); reflexivity.
Qed.

Lemma trim_head (s : JS.str) (c : N) :
  hd_error (JS.trim s) = Some c -> JS.is_white_space c = false.
Proof.
  unfold JS.trim; intros H. apply trimEnd_head in H.
  eapply trimStart_head; eassumption.
Qed.

Lemma trim_idem (s : JS.str) : JS.trim (JS.trim s) = JS.trim s.
Proof.
  unfold JS.trim at 1. rewrite trimStart_fix.
  - unfold JS.trim; apply trimEnd_idem.
  - apply trim_head.
Qed.

Lemma trimStart_blank (s : JS.str) :
  Forall (fun c => JS.is_white_space c = true) s -> JS.trimStart s = [].
Proof.
  induction 1 as [|x r Hx _ IH]; simpl; auto. rewrite Hx; exact IH.
Qed.

Lemma split_blank (sep : N) (s : JS.str) :
  blank_or sep s ->
  Forall (Forall (fun c => JS.is_white_space c = true)) (JS.split sep s).
Proof.
  induction 1 as [|x r Hx _ IH]; simpl.
  - repeat constructor.
  - destruct (N.eqb x sep) eqn:E.
    + constructor; [constructor | exact IH].
    + destruct Hx as [->|Hx]; [rewrite N.eqb_refl in E; discriminate|].
      destruct (JS.split sep r) as [|seg segs].
      * repeat constructor; assumption.
      * inversion IH; subst. constructor; [constructor|]; assumption.
Qed.

Lemma trim_blank (s : JS.str) :
  Forall (fun c => JS.is_white_space c = true) s -> JS.trim s = [].
Proof. intros H; unfold JS.trim; rewrite trimStart_blank; auto. Qed.

Lemma skillsArray_In (s x : text) :
  In x (PostJob.skillsArray s) ->
  exists y, x = JS.trim y /\ x <> [].
Proof.
  unfold PostJob.skillsArray; intros H.
  apply filter_In in H as [H L]. apply in_map_iff in H as [y [<- _]].
  exists y; split; [reflexivity|].
  destruct (JS.trim y); [discriminate L | discriminate].
Qed.

(* ------------------------------------------------------------------ *)
(** ** The skills of a posting *)

Lemma skillsArray_blank (s : text) :
  blank_or JS.comma s -> PostJob.skillsArray s = [].
Proof.
  intros H. apply split_blank in H. unfold PostJob.skillsArray.
  induction H as [|seg segs Hseg _ IH]; simpl; auto.
  rewrite (trim_blank _ Hseg); simpl. exact IH.
Qed.

(** C9. For every input string the required-skills parser of the posting
    form returns only skills that are not empty and carry no leading or
    trailing white space; on an input made of commas and white space only
    it returns the empty list, and that empty list is the
    [required_skills] member of the row the form submits. *)
Theorem C9_required_skills_parser (s : text) :
  Forall clean_skill (PostJob.skillsArray s)
  /\ (blank_or JS.comma s ->
      PostJob.skillsArray s = []
      /\ (forall parseInt u f,
             PostJob.required_skills f = s ->
             Job.i_required_skills (PostJob.payload parseInt u f) = [])
      /\ (forall parseInt u f t g d d',
             PostJob.required_skills f = s ->
             insert_jobs (request_of (Some u) t g)
                         (PostJob.payload parseInt u f) d = Ok d' ->
             exists r, jobs d' = jobs d ++ [r]
                       /\ Job.required_skills r = [])).
Proof.
  split.
  - apply Forall_forall; intros x Hx.
    destruct (skillsArray_In _ _ Hx) as [y [-> Hne]].
    repeat split; auto.
    + apply trim_head.
    + unfold JS.trim; apply trimEnd_last.
  - intros Hb; split; [apply skillsArray_blank; exact Hb|]. split.
    + intros parseInt u f <-. simpl. apply skillsArray_blank; exact Hb.
    + intros parseInt u f t g d d' <- E.
      unfold insert_jobs in E; cbv zeta in E.
      repeat match type of E with
             | (if ?c then _ else _) = _ => destruct c; [discriminate E|]
             end.
      injection E as <-. eexists; split; [reflexivity|].
      simpl. apply skillsArray_blank; exact Hb.
Qed.

(* ------------------------------------------------------------------ *)
(** ** Policy expressions *)

Lemma holds_Some (b : bool) : holds (Some b) = b.
Proof. destruct b; reflexivity. Qed.

Lemma holds_sql_or (a b : sqlbool) :
  holds (sql_or a b) = holds a || holds b.
Proof. destruct a as [[|]|], b as [[|]|]; reflexivity. Qed.

Lemma holds_sql_and (a b : sqlbool) :
  holds (sql_and a b) = holds a && holds b.
Proof. destruct a as [[|]|], b as [[|]|]; reflexivity. Qed.

Lemma holds_sql_eq (a b : option text) :
  holds (sql_eq a b) = true <-> exists x, a = Some x /\ b = Some x.
Proof.
  destruct a as [x|], b as [y|]; simpl; split;
    try discriminate; try (intros [z [H1 H2]]; discriminate).
  - destruct (JS.eqb x y) eqn:E; [|discriminate].
    apply JS_eqb_eq in E; subst; eauto.
  - intros [z [H1 H2]]; injection H1 as <-; injection H2 as <-.
    rewrite JS_eqb_refl; reflexivity.
Qed.

Lemma holds_sql_eq_col (c : text) (u : option text) :
  holds (sql_eq (Some c) u) = true <-> u = Some c.
Proof.
  rewrite holds_sql_eq; split.
  - intros [x [H ->]]; congruence.
  - intros ->; eauto.
Qed.

Lemma job_status_eqb_eq (a b : job_status) :
  job_status_eqb a b = true <-> a = b.
Proof. destruct a, b; simpl; split; congruence. Qed.

Lemma user_role_eqb_eq (a b : user_role) :
  user_role_eqb a b = true <-> a = b.
Proof. destruct a, b; simpl; split; congruence. Qed.

(** The SELECT policy of jobs, read as a proposition. *)
Lemma view_job_iff (rq : request) (j : Job.row) :
  holds (Anyone_can_view_open_jobs rq j) = true <->
  Job.status j = open \/ auth_uid rq = Some (Job.recruiter_id j).
Proof.
  unfold Anyone_can_view_open_jobs.
  rewrite holds_sql_or, orb_true_iff, holds_sql_eq_col.
  rewrite holds_Some, job_status_eqb_eq. tauto.
Qed.

Lemma own_job_iff (rq : request) (j : Job.row) :
  holds (Recruiters_can_update_own_jobs rq j) = true <->
  auth_uid rq = Some (Job.recruiter_id j).
Proof. apply holds_sql_eq_col. Qed.

Lemma not_own_job (rq : request) (j : Job.row) :
  auth_uid rq <> Some (Job.recruiter_id j) ->
  holds (Recruiters_can_update_own_jobs rq j) = false.
Proof.
  intros H. destruct (holds _) eqn:E; auto.
  apply own_job_iff in E; contradiction.
Qed.

(* ------------------------------------------------------------------ *)
(** ** Visibility of jobs *)

(** C3. A SELECT returns a job exactly when the job is open or the caller
    is its recruiter: a job that is not open is returned to no caller but
    its recruiter, and its recruiter is returned it whatever its status. *)
Theorem C3_job_select_policy (rq : request) (d : db) (J : Job.row) :
  (In J (select_jobs rq d) <->
   In J (jobs d)
   /\ (Job.status J = open \/ auth_uid rq = Some (Job.recruiter_id J)))
  /\ (Job.status J <> open ->
      auth_uid rq <> Some (Job.recruiter_id J) ->
      ~ In J (select_jobs rq d))
  /\ (In J (jobs d) ->
      auth_uid rq = Some (Job.recruiter_id J) ->
      In J (select_jobs rq d)).
Proof.
  assert (E : In J (select_jobs rq d) <->
              In J (jobs d)
              /\ (Job.status J = open
                  \/ auth_uid rq = Some (Job.recruiter_id J))).
  { unfold select_jobs. rewrite filter_In, view_job_iff. tauto. }
  split; [exact E|]. split.
  - intros Hs Hc Hin. apply E in Hin. tauto.
  - intros Hin Hc. apply E. tauto.
Qed.

(* ------------------------------------------------------------------ *)
(** ** Writes to jobs *)

(** Case analysis on the guards of a statement. *)
Ltac guards :=
  cbv zeta;
  repeat match goal with
         | |- context [if ?c then _ else _] => destruct c eqn:?
         end.

Lemma update_jobs_shape (rq : request) (whr : Job.row -> bool)
    (u : Job.Update) (d : db) :
  after d (update_jobs rq whr u d) = d
  \/ update_jobs rq whr u d =
     Ok (with_jobs d
           (map (fun j => if job_update_target rq whr j
                          then job_update_row rq u j else j) (jobs d))).
Proof. unfold update_jobs; guards; simpl; auto. Qed.

Lemma job_update_target_owner (rq : request) (whr : Job.row -> bool)
    (j : Job.row) :
  job_update_target rq whr j = true -> auth_uid rq = Some (Job.recruiter_id j).
Proof.
  unfold job_update_target. rewrite !andb_true_iff.
  intros [_ H]. apply own_job_iff; exact H.
Qed.

Lemma job_delete_target_owner (rq : request) (whr : Job.row -> bool)
    (j : Job.row) :
  job_delete_target rq whr j = true -> auth_uid rq = Some (Job.recruiter_id j).
Proof.
  unfold job_delete_target. rewrite !andb_true_iff.
  intros [_ H]. apply (own_job_iff rq j); exact H.
Qed.

Lemma job_delete_target_of_owner (rq : request) (whr : Job.row -> bool)
    (j : Job.row) :
  whr j = true -> auth_uid rq = Some (Job.recruiter_id j) ->
  job_delete_target rq whr j = true.
Proof.
  intros Hw Ho. unfold job_delete_target. rewrite Hw; simpl.
  apply andb_true_iff; split.
  - apply view_job_iff; auto.
  - apply (own_job_iff rq j); exact Ho.
Qed.




Lemma with_applications_same (d : db) :
  with_applications d (applications d) = d.
Proof. destruct d; reflexivity. Qed.

Lemma map_unless {A : Type} (target : A -> bool) (new : A -> A)
    (l : list A) :
  (forall x, In x l -> target x = false) ->
  map (fun x => if target x then new x else x) l = l.
Proof.
  intros H. rewrite <- (map_id l) at 2. apply map_ext_in.
  intros x Hx. rewrite (H x Hx). reflexivity.
Qed.


Lemma filter_drop_all {A : Type} (p : A -> bool) (l : list A) :
  (forall x, In x l -> p x = false) -> filter p l = [].
Proof.
  induction l as [|x l IH]; simpl; intros H; auto.
  rewrite (H x (or_introl eq_refl)). apply IH; auto.
Qed.




(* ------------------------------------------------------------------ *)
(** ** Deleting a job *)

Lemma existsb_same_id (l : list Job.row) (J : Job.row) :
  In J l -> existsb (fun j => JS.eqb (Job.id j) (Job.id J)) l = true.
Proof.
  intros H. apply existsb_exists. exists J; split; [exact H|].
  apply JS_eqb_refl.
Qed.

(** C7. When a job J is deleted (the statement reaches it and the caller is
    its recruiter), the row of J is gone and so is every application and
    every saved job whose [job_id] is the id of J; the applications and
    saved jobs of the jobs that are not deleted stay. *)
Theorem C7_delete_job_cascades (rq : request) (whr : Job.row -> bool)
    (d : db) (J : Job.row) :
  In J (jobs d) ->
  whr J = true ->
  auth_uid rq = Some (Job.recruiter_id J) ->
  ~ In J (jobs (delete_jobs rq whr d))
  /\ (forall a, In a (applications (delete_jobs rq whr d)) ->
                Application.job_id a <> Job.id J)
  /\ (forall s, In s (saved_jobs (delete_jobs rq whr d)) ->
                SavedJob.job_id s <> Job.id J)
  /\ (forall a, In a (applications d) ->
                (forall j, In j (jobs d) ->
                           Job.id j = Application.job_id a ->
                           job_delete_target rq whr j = false) ->
                In a (applications (delete_jobs rq whr d)))
  /\ (forall s, In s (saved_jobs d) ->
                (forall j, In j (jobs d) ->
                           Job.id j = SavedJob.job_id s ->
                           job_delete_target rq whr j = false) ->
                In s (saved_jobs (delete_jobs rq whr d))).
Proof.
  intros Hin Hw Ho.
  pose proof (job_delete_target_of_owner rq whr J Hw Ho) as T.
  assert (G : existsb (fun j => JS.eqb (Job.id j) (Job.id J))
                      (filter (job_delete_target rq whr) (jobs d)) = true).
  { apply existsb_same_id. apply filter_In; auto. }
  assert (Kept : forall i,
             (forall j, In j (jobs d) -> Job.id j = i ->
                        job_delete_target rq whr j = false) ->
             existsb (fun j => JS.eqb (Job.id j) i)
                     (filter (job_delete_target rq whr) (jobs d)) = false).
  { intros i H.
    destruct (existsb (fun j => JS.eqb (Job.id j) i)
                      (filter (job_delete_target rq whr) (jobs d))) eqn:X;
      [|reflexivity].
    apply existsb_exists in X as [j [Hj Hi]].
    apply filter_In in Hj as [Hj Tj]. apply JS_eqb_eq in Hi.
    rewrite (H j Hj Hi) in Tj. discriminate. }
  simpl. split; [|split; [|split; [|split]]].
  - intros H. apply filter_In in H as [_ H]. rewrite T in H; discriminate.
  - intros a H E. apply filter_In in H as [_ H].
    rewrite E, G in H; discriminate.
  - intros s H E. apply filter_In in H as [_ H].
    rewrite E, G in H; discriminate.
  - intros a Ha H. apply filter_In; split; [exact Ha|].
    rewrite (Kept _ H). reflexivity.
  - intros s Hs H. apply filter_In; split; [exact Hs|].
    rewrite (Kept _ H). reflexivity.
Qed.

(* ------------------------------------------------------------------ *)
(** ** Updating applications *)

Lemma forallb_changes {A : Type} (target : A -> bool) (new : A -> A)
    (P : A * A -> bool) (l : list A) :
  (forall a, target a = true -> P (a, new a) = true) ->
  forallb P (map (fun a => (a, new a)) (filter target l)) = true.
Proof.
  intros H. apply forallb_forall. intros c Hc.
  apply in_map_iff in Hc as [a [<- Ha]]. apply filter_In in Ha as [_ Ha].
  auto.
Qed.

Lemma existsb_changes {A : Type} (target : A -> bool) (new : A -> A)
    (Q : A * A -> bool) (l : list A) :
  (forall a, target a = true -> Q (a, new a) = false) ->
  existsb Q (map (fun a => (a, new a)) (filter target l)) = false.
Proof.
  intros H. destruct (existsb Q _) eqn:E; [|reflexivity].
  apply existsb_exists in E as [c [Hc Qc]].
  apply in_map_iff in Hc as [a [<- Ha]]. apply filter_In in Ha as [_ Ha].
  rewrite (H a Ha) in Qc; discriminate.
Qed.

(** The caller owns the job with a given id. *)
Lemma caller_owns_job_iff (rq : request) (d : db) (i : uuid) :
  holds (caller_owns_job rq d i) = true <->
  exists j, In j (jobs d) /\ Job.id j = i
            /\ auth_uid rq = Some (Job.recruiter_id j).
Proof.
  unfold caller_owns_job. rewrite holds_Some, existsb_exists. split.
  - intros [j [Hj H]]. unfold select_jobs in Hj.
    apply filter_In in Hj as [Hj _].
    rewrite holds_sql_and, andb_true_iff in H. destruct H as [H1 H2].
    apply holds_sql_eq_col in H1. apply holds_sql_eq_col in H2.
    exists j; split; [exact Hj|]. split; congruence.
  - intros [j [Hj [<- Ho]]]. exists j; split.
    + unfold select_jobs. apply filter_In; split; [exact Hj|].
      apply view_job_iff; auto.
    + rewrite holds_sql_and, andb_true_iff; split;
        apply holds_sql_eq_col; congruence.
Qed.

Lemma application_update_target_owner (rq : request) (d : db)
    (whr : Application.row -> bool) (a : Application.row) :
  application_update_target rq d whr a = true ->
  holds (caller_owns_job rq d (Application.job_id a)) = true.
Proof.
  unfold application_update_target, Recruiters_can_update_application_status.
  rewrite !andb_true_iff. tauto.
Qed.

Lemma application_update_target_of_owner (rq : request) (d : db)
    (whr : Application.row -> bool) (a : Application.row) :
  whr a = true ->
  holds (caller_owns_job rq d (Application.job_id a)) = true ->
  application_update_target rq d whr a = true.
Proof.
  intros Hw Ho.
  unfold application_update_target, Recruiters_can_update_application_status,
    Users_can_view_own_applications.
  rewrite Hw, Ho, holds_sql_or, Ho, orb_true_r. reflexivity.
Qed.

Lemma update_applications_shape (rq : request)
    (whr : Application.row -> bool) (u : Application.Update) (d : db) :
  after d (update_applications rq whr u d) = d
  \/ update_applications rq whr u d =
     Ok (with_applications d
           (map (fun a => if application_update_target rq d whr a
                          then application_update_row rq u a else a)
                (applications d))).
Proof. unfold update_applications; guards; simpl; auto. Qed.

(** A patch that names none of [id], [job_id], [applicant_id] is always
    carried out. *)
Lemma update_applications_keys_kept (rq : request)
    (whr : Application.row -> bool) (u : Application.Update) (d : db) :
  Application.u_id u = None ->
  Application.u_job_id u = None ->
  Application.u_applicant_id u = None ->
  update_applications rq whr u d =
  Ok (with_applications d
        (map (fun a => if application_update_target rq d whr a
                       then application_update_row rq u a else a)
             (applications d))).
Proof.
  intros H1 H2 H3. unfold update_applications. cbv zeta.
  rewrite forallb_changes.
  2:{ intros a Ta. cbn [snd].
      pose proof (application_update_target_owner _ _ _ _ Ta) as Ho.
      unfold Recruiters_can_update_application_status,
        Users_can_view_own_applications.
      rewrite holds_sql_or.
      assert (E : Application.job_id (application_update_row rq u a)
                  = Application.job_id a).
      { unfold application_update_row; simpl. rewrite H2; reflexivity. }
      rewrite E, Ho, orb_true_r. reflexivity. }
  cbn [negb].
  rewrite existsb_changes.
  2:{ intros a _. unfold key_conflict, same_application_id,
        application_update_row; simpl.
      rewrite H1; simpl. rewrite JS_eqb_refl; reflexivity. }
  rewrite existsb_changes.
  2:{ intros a _. unfold key_conflict, same_application_pair,
        application_update_row; simpl.
      rewrite H2, H3; simpl. rewrite !JS_eqb_refl; reflexivity. }
  rewrite existsb_changes.
  2:{ intros a _. unfold application_update_row; simpl.
      rewrite H2; simpl. rewrite JS_eqb_refl; reflexivity. }
  rewrite existsb_changes.
  2:{ intros a _. unfold application_update_row; simpl.
      rewrite H3; simpl. rewrite JS_eqb_refl; reflexivity. }
  reflexivity.
Qed.

Lemma update_applications_keeps (rq : request)
    (whr : Application.row -> bool) (u : Application.Update) (d : db)
    (i : nat) (A : Application.row) :
  nth_error (applications d) i = Some A ->
  holds (caller_owns_job rq d (Application.job_id A)) = false ->
  nth_error (applications (after d (update_applications rq whr u d))) i
  = Some A.
Proof.
  intros Hi Hc.
  destruct (update_applications_shape rq whr u d) as [-> | ->]; [exact Hi|].
  simpl. rewrite nth_error_map, Hi; simpl.
  destruct (application_update_target rq d whr A) eqn:T; [|reflexivity].
  apply application_update_target_owner in T. congruence.
Qed.

Lemma update_applications_no_target (rq : request)
    (whr : Application.row -> bool) (u : Application.Update) (d : db) :
  (forall a, In a (applications d) ->
             application_update_target rq d whr a = false) ->
  update_applications rq whr u d = Ok d.
Proof.
  intros H. unfold update_applications. cbv zeta.
  rewrite (filter_drop_all _ _ H). simpl.
  rewrite (map_unless _ _ _ H), with_applications_same. reflexivity.
Qed.

(** C5. Only the recruiter of the job an application A refers to can
    UPDATE A: for any other caller, the applicant included, the row stays as
    it was whatever the filter and the new values.  When that recruiter
    updates the status, the statement is carried out, the row takes the new
    status, and [updated_at] becomes the time of the statement whatever
    value the client sent for it.  The other callers are not answered
    with an error: an UPDATE whose filter reaches only applications to
    jobs of others is carried out, affects no row and leaves the whole
    store as it was. *)
Theorem C5_application_update (rq : request) (d : db) (i : nat)
    (A : Application.row) :
  nth_error (applications d) i = Some A ->
  (~ owns_job_of rq d A ->
   forall whr u,
     nth_error (applications (after d (update_applications rq whr u d))) i
     = Some A)
  /\ (auth_uid rq = Some (Application.applicant_id A) ->
      (forall j, In j (jobs d) -> Job.id j = Application.job_id A ->
                 Job.recruiter_id j <> Application.applicant_id A) ->
      forall whr u,
        nth_error (applications (after d (update_applications rq whr u d))) i
        = Some A)
  /\ (owns_job_of rq d A ->
      forall (s : application_status)
             (cover resume : option (option text))
             (sent_applied_at sent_updated_at : option (option timestamptz)),
        let u := Application.mkUpdate None None None (Some s) cover resume
                   sent_applied_at sent_updated_at in
        exists d',
          update_applications rq
            (fun a => JS.eqb (Application.id a) (Application.id A)) u d
          = Ok d'
          /\ nth_error (applications d') i
             = Some (Application.mk
                       (Application.id A) (Application.job_id A)
                       (Application.applicant_id A) s
                       (COALESCE cover (Application.cover_letter A))
                       (COALESCE resume (Application.resume_url A))
                       (COALESCE sent_applied_at (Application.applied_at A))
                       (Some (NOW rq))))
  /\ (owns_job_of rq d A ->
      forall (s : application_status) (t : timestamptz) (g : uuid),
        exists d',
          Applicants.updateApplicationStatus (auth_uid rq)
            (Application.id A) s t g d
          = (d', [toast_success (JS.lit "Application status updated")])
          /\ option_map Application.status (nth_error (applications d') i)
             = Some s
          /\ option_map Application.updated_at
               (nth_error (applications d') i) = Some (Some t))
  /\ (forall whr u,
         (forall a, In a (applications d) -> whr a = true ->
                    ~ owns_job_of rq d a) ->
         update_applications rq whr u d = Ok d).
Proof.
  intros Hi.
  assert (NotOwner : ~ owns_job_of rq d A ->
                     holds (caller_owns_job rq d (Application.job_id A))
                     = false).
  { intros H. destruct (holds _) eqn:E; [|reflexivity].
    apply caller_owns_job_iff in E. contradiction. }
  assert (Upd : forall rq' whr u,
             owns_job_of rq' d A ->
             whr A = true ->
             Application.u_id u = None ->
             Application.u_job_id u = None ->
             Application.u_applicant_id u = None ->
             exists d',
               update_applications rq' whr u d = Ok d'
               /\ nth_error (applications d') i
                  = Some (application_update_row rq' u A)).
  { intros rq' whr u Ho Hw H1 H2 H3.
    rewrite (update_applications_keys_kept rq' whr u d H1 H2 H3).
    eexists; split; [reflexivity|].
    simpl. rewrite nth_error_map, Hi; simpl.
    rewrite application_update_target_of_owner; auto.
    apply caller_owns_job_iff; exact Ho. }
  split; [|split; [|split; [|split]]].
  - intros Hn whr u. apply update_applications_keeps; auto.
  - intros Hc Hr whr u. apply update_applications_keeps; auto.
    apply NotOwner. intros [j [Hj [Hid Ho]]].
    apply (Hr j Hj Hid). congruence.
  - intros Ho s cover resume sa su u.
    destruct (Upd rq (fun a => JS.eqb (Application.id a) (Application.id A))
                  u Ho (JS_eqb_refl _) eq_refl eq_refl eq_refl)
      as [d' [E N]].
    exists d'; split; [exact E|]. rewrite N. reflexivity.
  - intros Ho s t g.
    unfold Applicants.updateApplicationStatus.
    assert (Ho' : owns_job_of (request_of (auth_uid rq) t g) d A).
    { destruct Ho as [j H]; exists j; exact H. }
    destruct (Upd (request_of (auth_uid rq) t g)
                  (fun a => JS.eqb (Application.id a) (Application.id A))
                  (Applicants.status_update s) Ho' (JS_eqb_refl _)
                  eq_refl eq_refl eq_refl) as [d' [E N]].
    rewrite E. exists d'; split; [reflexivity|].
    rewrite N; split; reflexivity.
  - intros whr u Hn. apply update_applications_no_target. intros a Ha.
    destruct (application_update_target rq d whr a) eqn:T; [|reflexivity].
    exfalso. apply (Hn a Ha).
    + unfold application_update_target in T.
      rewrite !andb_true_iff in T. tauto.
    + apply caller_owns_job_iff.
      apply application_update_target_owner in T. exact T.
Qed.

(* ------------------------------------------------------------------ *)
(** ** One application per job and applicant *)

Lemma count_if_app {A : Type} (p : A -> bool) (l1 l2 : list A) :
  count_if p (l1 ++ l2) = count_if p l1 + count_if p l2.
Proof. unfold count_if. rewrite filter_app, length_app. reflexivity. Qed.

Lemma count_if_none {A : Type} (p : A -> bool) (l : list A) :
  existsb p l = false -> count_if p l = 0.
Proof.
  unfold count_if. induction l as [|x l IH]; simpl; auto.
  destruct (p x); simpl; [discriminate | exact IH].
Qed.

Lemma count_if_ext {A : Type} (p q : A -> bool) (l : list A) :
  (forall x, p x = q x) -> count_if p l = count_if q l.
Proof.
  intros H. unfold count_if. induction l as [|x l IH]; simpl; auto.
  rewrite H. destruct (q x); simpl; congruence.
Qed.

Lemma count_if_filter_le {A : Type} (p q : A -> bool) (l : list A) :
  count_if p (filter q l) <= count_if p l.
Proof.
  unfold count_if. induction l as [|x l IH]; simpl; auto.
  destruct (q x), (p x) eqn:E; simpl; rewrite ?E; simpl; lia.
Qed.

Lemma count_if_map_le {A : Type} (p q : A -> bool) (f : A -> A)
    (l : list A) :
  (forall a, In a l -> p (f a) = true -> q a = true) ->
  count_if p (map f l) <= count_if q l.
Proof.
  unfold count_if. induction l as [|x l IH]; simpl; intros H; auto.
  assert (IH' : length (filter p (map f l)) <= length (filter q l)).
  { apply IH. intros a Ha; apply H; auto. }
  destruct (p (f x)) eqn:E.
  - rewrite (H x (or_introl eq_refl) E). simpl; lia.
  - destruct (q x); simpl; lia.
Qed.

Lemma pair_is_eq (j a : uuid) (r : Application.row) :
  pair_is j a r = true <->
  j = Application.job_id r /\ a = Application.applicant_id r.
Proof. unfold pair_is. rewrite andb_true_iff, !JS_eqb_eq. tauto. Qed.

Lemma pair_is_same (j a : uuid) (r x : Application.row) :
  pair_is j a r = true -> pair_is j a x = same_application_pair r x.
Proof.
  intros H. apply pair_is_eq in H as [-> ->]. reflexivity.
Qed.

Lemma same_application_pair_refl (r : Application.row) :
  same_application_pair r r = true.
Proof. unfold same_application_pair. rewrite !JS_eqb_refl. reflexivity. Qed.

Lemma update_applications_Ok (rq : request)
    (whr : Application.row -> bool) (u : Application.Update) (d d' : db) :
  update_applications rq whr u d = Ok d' ->
  let target := application_update_target rq d whr in
  let new := application_update_row rq u in
  let f := fun a => if target a then new a else a in
  existsb (key_conflict same_application_pair (map f (applications d)))
          (map (fun a => (a, new a)) (filter target (applications d)))
  = false
  /\ d' = with_applications d (map f (applications d)).
Proof.
  unfold update_applications; guards; intros E; try discriminate.
  injection E as <-. split; reflexivity.
Qed.

Lemma update_applications_unique (rq : request)
    (whr : Application.row -> bool) (u : Application.Update) (d d' : db) :
  at_most_one_application d ->
  update_applications rq whr u d = Ok d' ->
  at_most_one_application d'.
Proof.
  intros Inv E. apply update_applications_Ok in E. cbv zeta in E.
  set (target := application_update_target rq d whr) in *.
  set (new := application_update_row rq u) in *.
  set (f := fun a => if target a then new a else a) in *.
  destruct E as [K ->].
  intros j a. unfold applications_of; simpl.
  fold (count_if (pair_is j a) (map f (applications d))).
  destruct (existsb (fun x => pair_is j a (f x)
                              && negb (same_application_pair x (f x)))
                    (applications d)) eqn:X.
  - apply existsb_exists in X as [x [Hx Px]].
    apply andb_true_iff in Px as [Px Nx].
    assert (T : target x = true).
    { destruct (target x) eqn:T; [reflexivity|]. unfold f in Nx.
      rewrite T, same_application_pair_refl in Nx; discriminate. }
    assert (F : f x = new x) by (unfold f; rewrite T; reflexivity).
    rewrite F in Px, Nx.
    assert (C : key_conflict same_application_pair (map f (applications d))
                  (x, new x) = false).
    { destruct (key_conflict _ _ _) eqn:C; [|reflexivity].
      assert (existsb (key_conflict same_application_pair
                         (map f (applications d)))
                (map (fun a => (a, new a))
                   (filter target (applications d))) = true) as K'.
      { apply existsb_exists. exists (x, new x); split; [|exact C].
        apply in_map_iff. exists x; split; [reflexivity|].
        apply filter_In; auto. }
      rewrite K' in K; discriminate. }
    unfold key_conflict in C; cbn [fst snd] in C. rewrite Nx in C.
    simpl in C. apply Nat.ltb_ge in C.
    rewrite (count_if_ext _ (same_application_pair (new x))); [exact C|].
    intros y. apply pair_is_same; exact Px.
  - transitivity (count_if (pair_is j a) (applications d)); [|apply Inv].
    apply count_if_map_le. intros x Hx Px.
    assert (S : same_application_pair x (f x) = true).
    { destruct (same_application_pair x (f x)) eqn:S; [reflexivity|].
      assert (existsb (fun x => pair_is j a (f x)
                                && negb (same_application_pair x (f x)))
                (applications d) = true) as X'.
      { apply existsb_exists. exists x; split; [exact Hx|].
        rewrite Px, S; reflexivity. }
      rewrite X' in X; discriminate. }
    apply pair_is_eq in Px as [-> ->].
    unfold same_application_pair in S. unfold pair_is.
    rewrite JS_eqb_sym, (JS_eqb_sym (Application.applicant_id (f x))).
    exact S.
Qed.

Lemma insert_applications_unique (rq : request) (i : Application.Insert)
    (d d' : db) :
  at_most_one_application d ->
  insert_applications rq i d = Ok d' ->
  at_most_one_application d'.
Proof.
  intros Inv. unfold insert_applications. cbv zeta.
  destruct (negb (holds _)); [discriminate|].
  destruct (existsb (same_application_id _) _); [discriminate|].
  destruct (existsb (same_application_pair _) _) eqn:K; [discriminate|].
  destruct (negb (has_job _ _)); [discriminate|].
  destruct (negb (has_profile _ _)); [discriminate|].
  intros E; injection E as <-. intros j a.
  unfold applications_of; simpl.
  fold (count_if (pair_is j a) (applications d ++ [new_application rq i])).
  rewrite count_if_app. unfold count_if at 2; simpl.
  destruct (pair_is j a (new_application rq i)) eqn:P; simpl.
  - rewrite (count_if_ext _ (same_application_pair (new_application rq i))).
    + rewrite (count_if_none _ _ K). lia.
    + intros y. apply pair_is_same; exact P.
  - specialize (Inv j a). unfold applications_of in Inv.
    unfold count_if. lia.
Qed.

Lemma execute_unique (rq : request) (s : statement) (d : db) :
  at_most_one_application d -> at_most_one_application (execute rq s d).
Proof.
  intros Inv.
  assert (Frame : forall d', applications d' = applications d ->
                             at_most_one_application d').
  { intros d' E j a. unfold applications_of. rewrite E. apply Inv. }
  destruct s; simpl.
  - destruct (insert_applications rq i d) eqn:E; simpl; auto.
    eapply insert_applications_unique; eassumption.
  - destruct (update_applications rq whr u d) eqn:E; simpl; auto.
    eapply update_applications_unique; eassumption.
  - apply Frame. unfold insert_saved_jobs; guards; reflexivity.
  - apply Frame. reflexivity.
  - apply Frame. unfold insert_jobs; guards; reflexivity.
  - apply Frame. unfold update_jobs; guards; reflexivity.
  - intros j a. unfold applications_of; simpl.
    etransitivity; [apply (count_if_filter_le (pair_is j a))|apply Inv].
  - apply Frame.
    unfold insert_profiles, profile_constraints; guards; reflexivity.
  - apply Frame. unfold update_profiles; guards; reflexivity.
  - apply Frame.
    unfold create_identity, handle_new_user, profile_constraints; guards;
      reflexivity.
  - apply Frame. unfold storage_upload; guards; reflexivity.
Qed.

Lemma existsb_filter_nonempty {A : Type} (p : A -> bool) (l : list A) :
  filter p l <> [] -> existsb p l = true.
Proof.
  induction l as [|x l IH]; simpl; [congruence|].
  destruct (p x); simpl; auto.
Qed.

Lemma insert_applications_Ok (rq : request) (i : Application.Insert)
    (d d' : db) :
  insert_applications rq i d = Ok d' ->
  holds (Job_seekers_can_create_applications rq d (new_application rq i))
  = true
  /\ d' = with_applications d (applications d ++ [new_application rq i]).
Proof.
  unfold insert_applications; guards; intros E; try discriminate.
  injection E as <-. split; [|reflexivity].
  match goal with H : negb _ = false |- _ =>
    apply negb_false_iff in H; exact H end.
Qed.

(** An INSERT that passes the policy while a row of its pair exists is
    refused with a unique violation; which of the two keys is named
    depends on whether the new [id] is taken as well. *)
Lemma insert_applications_duplicate (rq : request) (i : Application.Insert)
    (d : db) :
  applications_of d (Application.i_job_id i) (Application.i_applicant_id i)
  <> [] ->
  holds (Job_seekers_can_create_applications rq d (new_application rq i))
  = true ->
  (insert_applications rq i d = Err (unique_violation "applications_pkey")
   /\ existsb (same_application_id (new_application rq i)) (applications d)
      = true)
  \/ insert_applications rq i d
     = Err (unique_violation "applications_job_id_applicant_id_key").
Proof.
  intros Hex Hp. apply existsb_filter_nonempty in Hex.
  unfold insert_applications. cbv zeta. rewrite Hp. cbn [negb].
  destruct (existsb (same_application_id _) _); [left; auto|right].
  unfold same_application_pair; simpl.
  unfold pair_is in Hex. rewrite Hex. reflexivity.
Qed.

Lemma insert_applications_duplicate_fails (rq : request)
    (i : Application.Insert) (d : db) :
  applications_of d (Application.i_job_id i) (Application.i_applicant_id i)
  <> [] ->
  exists e, insert_applications rq i d = Err e.
Proof.
  intros Hex. apply existsb_filter_nonempty in Hex.
  unfold insert_applications. cbv zeta.
  destruct (negb (holds _)); [eauto|].
  destruct (existsb (same_application_id _) _); [eauto|].
  unfold same_application_pair; simpl.
  unfold pair_is in Hex. rewrite Hex. eauto.
Qed.

(** C1. No statement ever leaves two applications of one (job, applicant)
    pair.  After an application was inserted, a second INSERT of the same
    pair by the same caller is refused with error code 23505 and changes
    nothing; more generally an INSERT of an existing pair never succeeds,
    and it fails with code 23505 whenever it passes the insert policy.
    [handleApply] answers "already applied" exactly for code 23505 and
    "failed to submit" for every other error, an address that holds no
    UUID included. *)
Theorem C1_one_application_per_pair :
  at_most_one_application empty_db
  /\ (forall rq s d,
         at_most_one_application d ->
         at_most_one_application (execute rq s d))
  /\ (forall rq i d d1,
         insert_applications rq i d = Ok d1 ->
         forall t g i',
           Application.i_job_id i' = Application.i_job_id i ->
           Application.i_applicant_id i' = Application.i_applicant_id i ->
           exists e,
             insert_applications (mkrequest (auth_uid rq) t g) i' d1 = Err e
             /\ code e = JS.lit "23505"
             /\ (existsb (same_application_id
                            (new_application (mkrequest (auth_uid rq) t g) i'))
                         (applications d1) = false ->
                 e = unique_violation "applications_job_id_applicant_id_key"))
  /\ (forall rq i d,
         applications_of d (Application.i_job_id i)
                         (Application.i_applicant_id i) <> [] ->
         (exists e, insert_applications rq i d = Err e)
         /\ (holds (Job_seekers_can_create_applications rq d
                      (new_application rq i)) = true ->
             exists e, insert_applications rq i d = Err e
                       /\ code e = JS.lit "23505"))
  /\ (forall e,
         (code e = JS.lit "23505" ->
          JobDetails.report (Some e) = already_applied)
         /\ (code e <> JS.lit "23505" ->
             JobDetails.report (Some e) = failed_to_submit))
  /\ (forall uuid_in u id job_id t g d e,
         uuid_in id = Some job_id ->
         insert_applications (request_of (Some u) t g)
           (Application.mkInsert None job_id u (Some applied)
                                 None None None None)
           d = Err e ->
         JobDetails.handleApply uuid_in (Some u) id t g d
         = (d, JobDetails.report (Some e)))
  /\ (forall uuid_in u id t g d,
         uuid_in id = None ->
         JobDetails.handleApply uuid_in (Some u) id t g d
         = (d, failed_to_submit)).
Proof.
  split; [|split; [|split; [|split; [|split; [|split]]]]].
  - intros j a; simpl; lia.
  - apply execute_unique.
  - intros rq i d d1 E t g i' Hj Ha.
    apply insert_applications_Ok in E as [Hp ->].
    set (rq' := mkrequest (auth_uid rq) t g).
    assert (Hex : applications_of
                    (with_applications d
                       (applications d ++ [new_application rq i]))
                    (Application.i_job_id i') (Application.i_applicant_id i')
                  <> []).
    { unfold applications_of; simpl. rewrite filter_app; simpl.
      rewrite Hj, Ha. unfold pair_is at 2; simpl. rewrite !JS_eqb_refl.
      simpl. intros H. apply app_eq_nil in H as [_ H]; discriminate. }
    assert (Hp' : holds (Job_seekers_can_create_applications rq'
                           (with_applications d
                              (applications d ++ [new_application rq i]))
                           (new_application rq' i')) = true).
    { unfold Job_seekers_can_create_applications in *. simpl in *.
      rewrite Ha. exact Hp. }
    destruct (insert_applications_duplicate rq' i' _ Hex Hp')
      as [[E X] | E]; rewrite E; eexists; split; try reflexivity.
    + split; [reflexivity|]. intros X'. rewrite X' in X; discriminate.
    + split; reflexivity.
  - intros rq i d Hex. split.
    + apply insert_applications_duplicate_fails; exact Hex.
    + intros Hp.
      destruct (insert_applications_duplicate rq i d Hex Hp) as [[E _] | E];
        rewrite E; eexists; split; reflexivity.
  - intros e. unfold JobDetails.report. split; intros H.
    + rewrite H, JS_eqb_refl. reflexivity.
    + apply JS_eqb_neq in H. rewrite H. reflexivity.
  - intros uuid_in u id job_id t g d e U E.
    unfold JobDetails.handleApply. rewrite U, E. reflexivity.
  - intros uuid_in u id t g d U.
    unfold JobDetails.handleApply. rewrite U. reflexivity.
Qed.

(* ------------------------------------------------------------------ *)
(** ** Saving and unsaving a job *)

Lemma filter_none {A : Type} (p : A -> bool) (l : list A) :
  filter p l = [] -> existsb p l = false.
Proof.
  induction l as [|x l IH]; simpl; auto.
  destruct (p x); simpl; [discriminate | exact IH].
Qed.

Lemma filter_none_forall {A : Type} (p : A -> bool) (l : list A) :
  filter p l = [] -> forall x, In x l -> p x = false.
Proof.
  intros H x Hx. destruct (p x) eqn:E; [|reflexivity].
  assert (In x (filter p l)) as Hin by (apply filter_In; auto).
  rewrite H in Hin; destruct Hin.
Qed.

Lemma filter_all {A : Type} (p : A -> bool) (l : list A) :
  (forall x, In x l -> p x = true) -> filter p l = l.
Proof.
  induction l as [|x l IH]; simpl; intros H; auto.
  rewrite (H x (or_introl eq_refl)). f_equal. apply IH; auto.
Qed.

Lemma filter_nil_all {A : Type} (p : A -> bool) (l : list A) :
  (forall x, In x l -> p x = false) -> filter p l = [].
Proof.
  induction l as [|x l IH]; simpl; intros H; auto.
  rewrite (H x (or_introl eq_refl)). apply IH; auto.
Qed.

Lemma saved_by_pair (u j : uuid) (s : SavedJob.row) :
  Jobs.saved_by u j s = saved_pair_is j u s.
Proof.
  unfold Jobs.saved_by, saved_pair_is.
  rewrite (JS_eqb_sym j), (JS_eqb_sym u). apply andb_comm.
Qed.

Lemma saved_job_delete_target_own (u j : uuid) (t : timestamptz) (g : uuid)
    (s : SavedJob.row) :
  saved_job_delete_target (request_of (Some u) t g) (Jobs.saved_by u j) s
  = saved_pair_is j u s.
Proof.
  unfold saved_job_delete_target, Users_can_view_own_saved_jobs,
    Users_can_unsave_jobs; simpl.
  rewrite saved_by_pair. unfold saved_pair_is.
  destruct (JS.eqb j (SavedJob.job_id s)); simpl; auto.
  rewrite (JS_eqb_sym u). destruct (JS.eqb (SavedJob.user_id s) u); auto.
Qed.

(** After the owner's DELETE no row of the pair is left, and the other
    rows are all kept. *)
Lemma delete_saved_jobs_own (u j : uuid) (t : timestamptz) (g : uuid)
    (d : db) :
  saved_jobs (delete_saved_jobs (request_of (Some u) t g) (Jobs.saved_by u j) d)
  = filter (fun s => negb (saved_pair_is j u s)) (saved_jobs d).
Proof.
  simpl. apply filter_ext. intros s.
  rewrite saved_job_delete_target_own. reflexivity.
Qed.

Lemma insert_saved_jobs_duplicate (rq : request) (i : SavedJob.Insert)
    (d : db) :
  saved_jobs_of d (SavedJob.i_job_id i) (SavedJob.i_user_id i) <> [] ->
  (exists e, insert_saved_jobs rq i d = Err e)
  /\ (auth_uid rq = Some (SavedJob.i_user_id i) ->
      (insert_saved_jobs rq i d = Err (unique_violation "saved_jobs_pkey")
       /\ existsb (same_saved_job_id (new_saved_job rq i)) (saved_jobs d)
          = true)
      \/ insert_saved_jobs rq i d
         = Err (unique_violation "saved_jobs_job_id_user_id_key")).
Proof.
  intros Hex. apply existsb_filter_nonempty in Hex.
  assert (P : existsb (same_saved_job_pair (new_saved_job rq i))
                      (saved_jobs d) = true) by exact Hex.
  unfold insert_saved_jobs. cbv zeta. rewrite P. split.
  - guards; eauto.
  - intros Hu.
    assert (H : holds (Users_can_save_jobs rq (new_saved_job rq i)) = true).
    { apply holds_sql_eq_col. exact Hu. }
    rewrite H. cbn [negb].
    destruct (existsb (same_saved_job_id _) _); auto.
Qed.

Lemma insert_saved_jobs_new (rq : request) (i : SavedJob.Insert) (d : db) :
  auth_uid rq = Some (SavedJob.i_user_id i) ->
  existsb (same_saved_job_id (new_saved_job rq i)) (saved_jobs d) = false ->
  saved_jobs_of d (SavedJob.i_job_id i) (SavedJob.i_user_id i) = [] ->
  has_job d (SavedJob.i_job_id i) = true ->
  has_profile d (SavedJob.i_user_id i) = true ->
  insert_saved_jobs rq i d
  = Ok (with_saved_jobs d (saved_jobs d ++ [new_saved_job rq i])).
Proof.
  intros Hu Hid Hp Hj Hpr. apply filter_none in Hp.
  assert (P : existsb (same_saved_job_pair (new_saved_job rq i))
                      (saved_jobs d) = false) by exact Hp.
  assert (H : holds (Users_can_save_jobs rq (new_saved_job rq i)) = true).
  { apply holds_sql_eq_col. exact Hu. }
  unfold insert_saved_jobs. cbv zeta. rewrite H, Hid, P. simpl.
  rewrite Hj, Hpr. reflexivity.
Qed.

Lemma insert_saved_jobs_Ok (rq : request) (i : SavedJob.Insert)
    (d d' : db) :
  insert_saved_jobs rq i d = Ok d' ->
  d' = with_saved_jobs d (saved_jobs d ++ [new_saved_job rq i]).
Proof.
  unfold insert_saved_jobs; guards; intros E; try discriminate.
  injection E as <-. reflexivity.
Qed.

(** The owner's DELETE of a pair that has no row changes nothing. *)
Lemma delete_saved_jobs_absent (u j : uuid) (t : timestamptz) (g : uuid)
    (d : db) :
  saved_jobs_of d j u = [] ->
  saved_jobs
    (delete_saved_jobs (request_of (Some u) t g) (Jobs.saved_by u j) d)
  = saved_jobs d.
Proof.
  intros Hnone. rewrite delete_saved_jobs_own. apply filter_all.
  intros s Hs. rewrite (filter_none_forall _ _ Hnone s Hs). reflexivity.
Qed.

(** C6. Starting without a saved-job row for (job, user): an add followed
    by the user's remove gives back the saved_jobs table as it was, so the
    row is absent again.  When the job and the profile exist and the
    generated id is unused, the add does create the row, and adding again
    while the row exists fails with a unique violation (code 23505), on
    (job_id, user_id) when the second generated id is not taken too. *)
Theorem C6_saved_job_add_remove (u j : uuid) (t t1 t2 : timestamptz)
    (g g1 g2 : uuid) (i : SavedJob.Insert) (d : db) :
  SavedJob.i_job_id i = j ->
  SavedJob.i_user_id i = u ->
  saved_jobs_of d j u = [] ->
  (saved_jobs
     (delete_saved_jobs (request_of (Some u) t1 g1) (Jobs.saved_by u j)
        (after d (insert_saved_jobs (request_of (Some u) t g) i d)))
   = saved_jobs d
   /\ saved_jobs_of
        (delete_saved_jobs (request_of (Some u) t1 g1) (Jobs.saved_by u j)
           (after d (insert_saved_jobs (request_of (Some u) t g) i d)))
        j u = [])
  /\ (has_job d j = true ->
      has_profile d u = true ->
      existsb (same_saved_job_id (new_saved_job (request_of (Some u) t g) i))
              (saved_jobs d) = false ->
      exists d1,
    insert_saved_jobs (request_of (Some u) t g) i d = Ok d1
    /\ saved_jobs_of d1 j u = [new_saved_job (request_of (Some u) t g) i]
    /\ saved_jobs_of
         (delete_saved_jobs (request_of (Some u) t1 g1) (Jobs.saved_by u j) d1)
         j u = []
    /\ saved_jobs
         (delete_saved_jobs (request_of (Some u) t1 g1) (Jobs.saved_by u j) d1)
       = saved_jobs d
    /\ (exists e,
         insert_saved_jobs (request_of (Some u) t2 g2) i d1 = Err e
         /\ code e = JS.lit "23505"
         /\ (existsb
               (same_saved_job_id
                  (new_saved_job (request_of (Some u) t2 g2) i))
               (saved_jobs d1) = false ->
             e = unique_violation "saved_jobs_job_id_user_id_key"))
    /\ (forall saved,
           i = SavedJob.mkInsert None j u None ->
           Jobs.has saved j = false ->
           Jobs.toggleSaveJob (Some u) saved j t g d
           = (d1, Jobs.add saved j,
              [toast_success (JS.lit "Job saved successfully")])
           /\ Jobs.toggleSaveJob (Some u) (Jobs.add saved j) j t1 g1 d1
              = (delete_saved_jobs (request_of (Some u) t1 g1)
                   (Jobs.saved_by u j) d1,
                 Jobs.delete (Jobs.add saved j) j,
                 [toast_success (JS.lit "Job removed from saved")]))).
Proof.
  intros Hj Hu Hnone. subst j u.
  set (r := new_saved_job (request_of (Some (SavedJob.i_user_id i)) t g) i).
  assert (Back : saved_jobs
                   (delete_saved_jobs
                      (request_of (Some (SavedJob.i_user_id i)) t1 g1)
                      (Jobs.saved_by (SavedJob.i_user_id i)
                                     (SavedJob.i_job_id i))
                      (with_saved_jobs d (saved_jobs d ++ [r])))
                 = saved_jobs d).
  { rewrite delete_saved_jobs_own; simpl. rewrite filter_app; simpl.
    assert (Pr : saved_pair_is (SavedJob.i_job_id i) (SavedJob.i_user_id i) r
                 = true).
    { unfold saved_pair_is; simpl. rewrite !JS_eqb_refl; reflexivity. }
    rewrite Pr; simpl. rewrite app_nil_r. apply filter_all.
    intros s Hs. rewrite (filter_none_forall _ _ Hnone s Hs). reflexivity. }
  split.
  { assert (E : saved_jobs
                  (delete_saved_jobs
                     (request_of (Some (SavedJob.i_user_id i)) t1 g1)
                     (Jobs.saved_by (SavedJob.i_user_id i)
                                    (SavedJob.i_job_id i))
                     (after d
                        (insert_saved_jobs
                           (request_of (Some (SavedJob.i_user_id i)) t g)
                           i d)))
                = saved_jobs d).
    { destruct (insert_saved_jobs _ i d) eqn:Ins; simpl after.
      - apply insert_saved_jobs_Ok in Ins. subst a. exact Back.
      - apply delete_saved_jobs_absent. exact Hnone. }
    split; [exact E|]. unfold saved_jobs_of. rewrite E. exact Hnone. }
  intros Hjob Hprof Hid.
  exists (with_saved_jobs d (saved_jobs d ++ [r])).
  assert (Pr : saved_pair_is (SavedJob.i_job_id i) (SavedJob.i_user_id i) r
               = true).
  { unfold saved_pair_is; simpl. rewrite !JS_eqb_refl; reflexivity. }
  assert (Of1 : saved_jobs_of (with_saved_jobs d (saved_jobs d ++ [r]))
                  (SavedJob.i_job_id i) (SavedJob.i_user_id i) = [r]).
  { unfold saved_jobs_of in *; simpl. rewrite filter_app, Hnone; simpl.
    rewrite Pr. reflexivity. }
  assert (Ins : insert_saved_jobs
                  (request_of (Some (SavedJob.i_user_id i)) t g) i d
                = Ok (with_saved_jobs d (saved_jobs d ++ [r]))).
  { apply insert_saved_jobs_new; auto. }
  split; [|split; [|split; [|split; [|split]]]].
  - exact Ins.
  - exact Of1.
  - unfold saved_jobs_of. rewrite delete_saved_jobs_own.
    apply filter_nil_all.
    intros s Hs. apply filter_In in Hs as [_ Hs].
    apply negb_true_iff in Hs. exact Hs.
  - exact Back.
  - assert (Hex : saved_jobs_of (with_saved_jobs d (saved_jobs d ++ [r]))
                    (SavedJob.i_job_id i) (SavedJob.i_user_id i) <> []).
    { rewrite Of1; discriminate. }
    destruct (insert_saved_jobs_duplicate
                (request_of (Some (SavedJob.i_user_id i)) t2 g2) i _ Hex)
      as [_ H].
    destruct (H eq_refl) as [[E X] | E]; rewrite E; eexists;
      (split; [reflexivity|]); split; try reflexivity.
    intros X'. rewrite X' in X; discriminate.
  - intros saved Hi Hs. split.
    + unfold Jobs.toggleSaveJob. rewrite Hs.
      rewrite Hi in Ins; simpl in Ins. rewrite Hi; simpl.
      rewrite Ins. reflexivity.
    + unfold Jobs.toggleSaveJob.
      assert (Jobs.has (Jobs.add saved (SavedJob.i_job_id i))
                       (SavedJob.i_job_id i) = true) as ->.
      { unfold Jobs.add. rewrite Hs. unfold Jobs.has.
        rewrite existsb_app; simpl. rewrite JS_eqb_refl.
        apply orb_true_iff; right; reflexivity. }
      reflexivity.
Qed.

(* ------------------------------------------------------------------ *)
(** ** Provisioning of profiles *)

Lemma has_auth_user_app (d : db) (l : list AuthUser.row) (i : uuid) :
  has_auth_user (with_auth_users d (auth_users d ++ l)) i
  = has_auth_user d i || existsb (fun u => JS.eqb (AuthUser.id u) i) l.
Proof. unfold has_auth_user; simpl. apply existsb_app. Qed.

Lemma no_profile_without_identity (d : db) (i : uuid) :
  profiles_have_identity d ->
  has_auth_user d i = false ->
  has_profile d i = false.
Proof.
  intros Inv Hn. unfold has_profile.
  destruct (existsb _ _) eqn:E; [|reflexivity].
  apply existsb_exists in E as [p [Hp Hi]]. apply JS_eqb_eq in Hi.
  rewrite <- Hi, (Inv p Hp) in Hn. discriminate.
Qed.

Lemma update_profiles_Ok (rq : request) (whr : Profile.row -> bool)
    (u : Profile.Update) (d d' : db) :
  update_profiles rq whr u d = Ok d' ->
  let target := profile_update_target rq whr in
  let new := profile_update_row rq u in
  forallb (fun c => holds (Users_can_update_own_profile rq (snd c))
                    && holds (Users_can_view_all_profiles rq (snd c)))
          (map (fun p => (p, new p)) (filter target (profiles d))) = true
  /\ d' = with_profiles d
             (map (fun p => if target p then new p else p) (profiles d)).
Proof.
  unfold update_profiles; cbv zeta.
  destruct (negb (forallb (fun c => int4_ok _) _)); [discriminate|].
  destruct (forallb (fun c => holds _ && holds _) _); [|discriminate].
  intros E; injection E as <-. split; reflexivity.
Qed.

(** An UPDATE of profiles never changes an [id]. *)
Lemma update_profiles_keeps_id (rq : request) (whr : Profile.row -> bool)
    (u : Profile.Update) (d d' : db) :
  update_profiles rq whr u d = Ok d' ->
  auth_users d' = auth_users d
  /\ map Profile.id (profiles d') = map Profile.id (profiles d).
Proof.
  intros E. apply update_profiles_Ok in E. cbv zeta in E.
  destruct E as [C ->]. split; [reflexivity|]. simpl.
  rewrite map_map. apply map_ext_in. intros p Hp.
  destruct (profile_update_target rq whr p) eqn:T; [|reflexivity].
  assert (Hn : holds (Users_can_update_own_profile rq
                        (profile_update_row rq u p)) = true).
  { rewrite forallb_forall in C.
    specialize (C (p, profile_update_row rq u p)).
    cbn [snd] in C. apply andb_true_iff in C; [tauto|].
    apply in_map_iff. exists p; split; [reflexivity|].
    apply filter_In; auto. }
  unfold profile_update_target in T. rewrite !andb_true_iff in T.
  destruct T as [_ To].
  apply holds_sql_eq in Hn as [x [Hx Hn]].
  apply holds_sql_eq in To as [y [Hy To]]. congruence.
Qed.

Lemma has_auth_user_mono (d d' : db) (l : list AuthUser.row) (i : uuid) :
  auth_users d' = auth_users d ++ l ->
  has_auth_user d i = true -> has_auth_user d' i = true.
Proof.
  unfold has_auth_user. intros -> H. rewrite existsb_app, H. reflexivity.
Qed.

Lemma profile_constraints_identity (r : Profile.row) (d d' : db) :
  profiles_have_identity d ->
  profile_constraints r d = Ok d' ->
  profiles_have_identity d'.
Proof.
  intros Inv. unfold profile_constraints.
  destruct (has_profile d (Profile.id r)); [discriminate|].
  destruct (has_auth_user d (Profile.id r)) eqn:F; [|discriminate].
  intros E; injection E as <-. intros p Hp. simpl in Hp.
  apply in_app_iff in Hp as [Hp | [<- | []]].
  - exact (Inv p Hp).
  - exact F.
Qed.

(** Every statement keeps each profile attached to an identity. *)
Lemma execute_profiles_have_identity (rq : request) (s : statement)
    (d : db) :
  profiles_have_identity d -> profiles_have_identity (execute rq s d).
Proof.
  intros Inv.
  assert (Frame : forall d', profiles d' = profiles d ->
                             auth_users d' = auth_users d ->
                             profiles_have_identity d').
  { intros d' Ep Ea p Hp. rewrite Ep in Hp. unfold has_auth_user.
    rewrite Ea. exact (Inv p Hp). }
  destruct s; simpl.
  - apply Frame; unfold insert_applications; guards; reflexivity.
  - apply Frame; unfold update_applications; guards; reflexivity.
  - apply Frame; unfold insert_saved_jobs; guards; reflexivity.
  - apply Frame; reflexivity.
  - apply Frame; unfold insert_jobs; guards; reflexivity.
  - apply Frame; unfold update_jobs; guards; reflexivity.
  - apply Frame; reflexivity.
  - destruct (insert_profiles rq i d) eqn:E; simpl; [|exact Inv].
    unfold insert_profiles in E; cbv zeta in E.
    destruct (negb (int4_ok _)); [discriminate|].
    destruct (negb (holds _)); [discriminate|].
    eapply profile_constraints_identity; eassumption.
  - destruct (update_profiles rq whr u d) eqn:E; simpl; [|exact Inv].
    apply update_profiles_keeps_id in E as [Ea Ei].
    intros p Hp. unfold has_auth_user. rewrite Ea.
    assert (Hin : In (Profile.id p) (map Profile.id (profiles d))).
    { rewrite <- Ei. apply in_map; exact Hp. }
    apply in_map_iff in Hin as [q [Hq Hin]]. rewrite <- Hq.
    exact (Inv q Hin).
  - destruct (create_identity rq NEW d) eqn:E; simpl; [|exact Inv].
    unfold create_identity in E.
    destruct (has_auth_user d (AuthUser.id NEW)); [discriminate|].
    unfold handle_new_user in E.
    eapply profile_constraints_identity; [|eassumption].
    intros p Hp. eapply has_auth_user_mono; [reflexivity|].
    exact (Inv p Hp).
  - apply Frame; unfold storage_upload; guards; reflexivity.
Qed.

(** C2. Creating an identity I that does not exist yet succeeds and adds
    exactly one profile for it: the only profile whose id is the id of I,
    with the email of I, the role job_seeker, and as full name the
    [full_name] member of the metadata of I, or "User" when the metadata
    has none. *)
Theorem C2_identity_gets_one_profile (rq : request) (NEW : AuthUser.row)
    (d : db) :
  has_auth_user d (AuthUser.id NEW) = false ->
  profiles_have_identity d ->
  exists d' p,
    create_identity rq NEW d = Ok d'
    /\ auth_users d' = auth_users d ++ [NEW]
    /\ profiles d' = profiles d ++ [p]
    /\ filter (fun q => JS.eqb (Profile.id q) (AuthUser.id NEW)) (profiles d')
       = [p]
    /\ Profile.id p = AuthUser.id NEW
    /\ Profile.email p = AuthUser.email NEW
    /\ Profile.role p = job_seeker
    /\ (forall s,
           json_get_text (AuthUser.raw_user_meta_data NEW)
                         (JS.lit "full_name") = Some s ->
           Profile.full_name p = s)
    /\ (json_get_text (AuthUser.raw_user_meta_data NEW) (JS.lit "full_name")
        = None ->
        Profile.full_name p = JS.lit "User").
Proof.
  intros Hnew Inv.
  pose proof (@no_profile_without_identity d _ Inv Hnew) as Hnp.
  unfold create_identity. rewrite Hnew.
  unfold handle_new_user, profile_constraints.
  assert (E1 : has_profile (with_auth_users d (auth_users d ++ [NEW]))
                 (AuthUser.id NEW) = false) by exact Hnp.
  assert (E2 : has_auth_user (with_auth_users d (auth_users d ++ [NEW]))
                 (AuthUser.id NEW) = true).
  { rewrite has_auth_user_app; simpl. rewrite JS_eqb_refl.
    rewrite orb_true_r. reflexivity. }
  cbn [Profile.id new_profile Profile.i_id]. rewrite E1, E2. cbn [negb].
  eexists; eexists. split; [reflexivity|].
  split; [reflexivity|]. split; [reflexivity|]. split.
  { simpl. rewrite filter_app; simpl. rewrite JS_eqb_refl.
    rewrite filter_nil_all; [reflexivity|].
    intros q Hq. destruct (JS.eqb (Profile.id q) (AuthUser.id NEW)) eqn:E;
      [|reflexivity].
    apply JS_eqb_eq in E. rewrite <- E, (Inv q Hq) in Hnew. discriminate. }
  split; [reflexivity|]. split; [reflexivity|]. split; [reflexivity|].
  split; simpl.
  - intros s ->. reflexivity.
  - intros ->. reflexivity.
Qed.

(* ------------------------------------------------------------------ *)
(** ** The counters of a job *)

(** A successful statement on another table leaves [jobs] alone. *)
Ltac frame_Ok stmt :=
  unfold stmt; guards; intros E; try discriminate; injection E as <-;
  reflexivity.

Lemma insert_applications_jobs (rq : request) (i : Application.Insert)
    (d d' : db) :
  insert_applications rq i d = Ok d' -> jobs d' = jobs d.
Proof. frame_Ok insert_applications. Qed.

Lemma update_applications_jobs (rq : request)
    (whr : Application.row -> bool) (u : Application.Update) (d d' : db) :
  update_applications rq whr u d = Ok d' -> jobs d' = jobs d.
Proof. frame_Ok update_applications. Qed.

Lemma insert_saved_jobs_jobs (rq : request) (i : SavedJob.Insert)
    (d d' : db) :
  insert_saved_jobs rq i d = Ok d' -> jobs d' = jobs d.
Proof. frame_Ok insert_saved_jobs. Qed.

Lemma update_profiles_jobs (rq : request) (whr : Profile.row -> bool)
    (u : Profile.Update) (d d' : db) :
  update_profiles rq whr u d = Ok d' -> jobs d' = jobs d.
Proof. frame_Ok update_profiles. Qed.

Lemma storage_upload_jobs (rq : request) (bucket path : text) (size : Z)
    (d d' : db) :
  storage_upload rq bucket path size d = Ok d' -> jobs d' = jobs d.
Proof. frame_Ok storage_upload. Qed.

Lemma create_identity_jobs (rq : request) (NEW : AuthUser.row) (d d' : db) :
  create_identity rq NEW d = Ok d' -> jobs d' = jobs d.
Proof.
  unfold create_identity, handle_new_user. frame_Ok profile_constraints.
Qed.

Lemma insert_jobs_jobs (rq : request) (i : Job.Insert) (d d' : db) :
  insert_jobs rq i d = Ok d' -> jobs d' = jobs d ++ [new_job rq i].
Proof. frame_Ok insert_jobs. Qed.

Lemma after_jobs (d : db) (r : result db) :
  (forall d', r = Ok d' -> jobs d' = jobs d) ->
  jobs (after d r) = jobs d.
Proof. destruct r; simpl; auto. Qed.

(** An operation of the application changes the table of jobs in one way
    only: posting a job appends a row, whose counters are the defaults. *)
Lemma step_jobs (parseInt : text -> option Z) (supabaseUrl : text)
    (uuid_in : text -> option uuid) (d : db) (o : operation) (t : timestamptz) (g : uuid) :
  jobs (step parseInt supabaseUrl uuid_in d o t g) = jobs d
  \/ exists r, jobs (step parseInt supabaseUrl uuid_in d o t g) = jobs d ++ [r]
               /\ counters_untouched r.
Proof.
  destruct o; simpl.
  - left. apply after_jobs. intros d'. apply create_identity_jobs.
  - left; reflexivity.
  - left; reflexivity.
  - left. unfold JobDetails.handleApply. destruct user; simpl; auto.
    destruct (uuid_in id); [|reflexivity].
    apply after_jobs. intros d'. apply insert_applications_jobs.
  - left. unfold Jobs.toggleSaveJob. destruct user; simpl; auto.
    destruct (Jobs.has savedJobIds jobId); simpl; auto.
    destruct (insert_saved_jobs _ _ _) eqn:E; simpl; auto.
    eapply insert_saved_jobs_jobs; eassumption.
  - left. unfold Applicants.updateApplicationStatus.
    destruct (update_applications _ _ _ _) eqn:E; simpl; auto.
    eapply update_applications_jobs; eassumption.
  - unfold PostJob.handleSubmit. destruct user; simpl; auto.
    destruct (insert_jobs _ _ _) eqn:E; simpl; auto.
    right. eexists; split.
    + eapply insert_jobs_jobs; eassumption.
    + split; reflexivity.
  - left. unfold ProfilePage.handleSubmit.
    destruct profile; simpl; auto. destruct user; simpl; auto.
    destruct (update_profiles _ _ _ _) eqn:E; simpl; auto.
    eapply update_profiles_jobs; eassumption.
  - left. unfold ProfilePage.handleResumeUpload.
    destruct file; simpl; auto. destruct user; simpl; auto.
    destruct (Z.ltb _ _); simpl; auto.
    destruct (storage_upload _ _ _ _ _) eqn:E1; simpl; auto.
    apply storage_upload_jobs in E1.
    destruct (update_profiles _ _ _ _) eqn:E2; simpl; auto.
    apply update_profiles_jobs in E2. congruence.
Qed.

(** C8. No operation of the system changes [views_count] or
    [applications_count]: every operation leaves each existing job row as it
    is, the timestamp trigger leaves both counters alone, a job that is
    posted starts with both counters 0, and so along any history of
    operations every job row stays as it was and, if the counters of all
    jobs were 0 at the start, they are 0 at the end. *)
Theorem C8_counters_unmaintained (parseInt : text -> option Z)
    (supabaseUrl : text) (uuid_in : text -> option uuid) :
  (forall d o t g i j,
      nth_error (jobs d) i = Some j ->
      nth_error (jobs (step parseInt supabaseUrl uuid_in d o t g)) i = Some j)
  /\ (forall rq (j : Job.row),
         Job.views_count (update_updated_at_column rq j) = Job.views_count j
         /\ Job.applications_count (update_updated_at_column rq j)
            = Job.applications_count j)
  /\ (forall d o t g,
         Forall counters_untouched (jobs d) ->
         Forall counters_untouched (jobs (step parseInt supabaseUrl uuid_in d o t g)))
  /\ (forall h d,
         Forall counters_untouched (jobs d) ->
         Forall counters_untouched (jobs (run parseInt supabaseUrl uuid_in d h)))
  /\ (forall h d i j,
         nth_error (jobs d) i = Some j ->
         nth_error (jobs (run parseInt supabaseUrl uuid_in d h)) i = Some j).
Proof.
  assert (Step : forall d o t g,
             Forall counters_untouched (jobs d) ->
             Forall counters_untouched
                    (jobs (step parseInt supabaseUrl uuid_in d o t g))).
  { intros d o t g H.
    destruct (step_jobs parseInt supabaseUrl uuid_in d o t g) as [-> | [r [-> Hr]]];
      [exact H|].
    apply Forall_app; split; [exact H|]. constructor; [exact Hr|constructor]. }
  assert (Keep : forall d o t g i j,
             nth_error (jobs d) i = Some j ->
             nth_error (jobs (step parseInt supabaseUrl uuid_in d o t g)) i = Some j).
  { intros d o t g i j Hi.
    destruct (step_jobs parseInt supabaseUrl uuid_in d o t g) as [-> | [r [-> _]]];
      [exact Hi|].
    rewrite nth_error_app1; [exact Hi|].
    apply nth_error_Some. congruence. }
  split; [|split; [|split; [|split]]].
  - exact Keep.
  - intros rq j; split; reflexivity.
  - exact Step.
  - induction h as [|[[o t] g] h IH]; intros d H; simpl; auto.
  - induction h as [|[[o t] g] h IH]; intros d i j H; simpl; auto.
Qed.

(* ------------------------------------------------------------------ *)
(** ** The size limit of a resume *)

(** C10. A selected file of more than 5 * 1024 * 1024 bytes is turned away
    before anything is sent: the handler returns the store it was given,
    so neither the stored objects nor any profile (its [resume_url]
    included) change, and a signed-in user is shown the size message. *)
Theorem C10_oversized_resume_rejected (supabaseUrl : text)
    (user : option uuid) (file : ProfilePage.File) (t : timestamptz)
    (g : uuid) (d : db) :
  (5 * 1024 * 1024 < ProfilePage.size file)%Z ->
  fst (ProfilePage.handleResumeUpload supabaseUrl user (Some file) t g d) = d
  /\ storage_objects
       (fst (ProfilePage.handleResumeUpload supabaseUrl user (Some file)
               t g d))
     = storage_objects d
  /\ profiles
       (fst (ProfilePage.handleResumeUpload supabaseUrl user (Some file)
               t g d))
     = profiles d
  /\ (forall u, user = Some u ->
                ProfilePage.handleResumeUpload supabaseUrl user (Some file)
                  t g d
                = (d, [toast_error
                         (JS.lit "File size must be less than 5MB")])).
Proof.
  intros H.
  assert (L : Z.ltb ProfilePage.max_resume_size (ProfilePage.size file)
              = true).
  { apply Z.ltb_lt. unfold ProfilePage.max_resume_size. exact H. }
  assert (E : fst (ProfilePage.handleResumeUpload supabaseUrl user
                     (Some file) t g d) = d).
  { unfold ProfilePage.handleResumeUpload. destruct user; [|reflexivity].
    rewrite L. reflexivity. }
  split; [exact E|]. rewrite E. split; [reflexivity|].
  split; [reflexivity|].
  intros u ->. unfold ProfilePage.handleResumeUpload. rewrite L.
  reflexivity.
Qed.

(* ================================================================== *)
(** * The properties at work on the sample store *)
(* ================================================================== *)

Lemma sample_profiles_have_identity : profiles_have_identity Sample.store.
Proof.
  intros p [<-|[<-|[<-|[]]]]; reflexivity.
Defined.

Lemma C1_one_application_per_pair_witness :
  let i := Application.mkInsert None Sample.job1 Sample.alice (Some applied)
             None None None None in
  insert_applications (request_of (Some Sample.alice) 3 (JS.lit "app-1")) i
    Sample.fresh
  = Ok (with_applications Sample.fresh [Sample.application1])
  /\ exists e,
       insert_applications (mkrequest (Some Sample.alice) 9 (JS.lit "app-2"))
         i (with_applications Sample.fresh [Sample.application1]) = Err e
       /\ code e = JS.lit "23505"
       /\ JobDetails.handleApply Sample.uuid_in (Some Sample.alice)
            (JS.lit "JOB-1") 9 (JS.lit "app-2")
            (with_applications Sample.fresh [Sample.application1])
          = (with_applications Sample.fresh [Sample.application1],
             already_applied).
Proof.
  intros i.
  assert (E : insert_applications
                (request_of (Some Sample.alice) 3 (JS.lit "app-1")) i
                Sample.fresh
              = Ok (with_applications Sample.fresh [Sample.application1]))
    by reflexivity.
  split; [exact E|].
  destruct (proj1 (proj2 (proj2 C1_one_application_per_pair))
              _ _ _ _ E 9%Z (JS.lit "app-2") i eq_refl eq_refl)
    as [e [He [Hc _]]].
  exists e; split; [exact He|]. split; [exact Hc|].
  rewrite (proj1 (proj2 (proj2 (proj2 (proj2 (proj2
             C1_one_application_per_pair)))))
             Sample.uuid_in Sample.alice (JS.lit "JOB-1") Sample.job1 9%Z
             (JS.lit "app-2") _ e eq_refl He).
  rewrite (proj1 (proj1 (proj2 (proj2 (proj2 (proj2
             C1_one_application_per_pair)))) e) Hc).
  reflexivity.
Defined.

Lemma C2_identity_gets_one_profile_witness :
  let NEW := Sample.identity Sample.dave
               (Some [(JS.lit "full_name", Some (JS.lit "Dave"))]) in
  has_auth_user Sample.store Sample.dave = false
  /\ exists d' p,
       create_identity (mkrequest None 7 (JS.lit "unused")) NEW Sample.store
       = Ok d'
       /\ profiles d' = profiles Sample.store ++ [p]
       /\ Profile.role p = job_seeker
       /\ Profile.full_name p = JS.lit "Dave".
Proof.
  intros NEW. split; [reflexivity|].
  destruct (C2_identity_gets_one_profile
              (mkrequest None 7 (JS.lit "unused")) NEW Sample.store
              eq_refl sample_profiles_have_identity)
    as [d' [p [E [_ [P [_ [_ [_ [R [F _]]]]]]]]]].
  exists d', p. repeat split; try assumption.
  apply F. reflexivity.
Defined.

Lemma C3_job_select_policy_witness :
  ~ In (Sample.job Sample.job2 Sample.bob closed)
       (select_jobs (mkrequest (Some Sample.alice) 5 (JS.lit "x"))
                    Sample.store)
  /\ In (Sample.job Sample.job2 Sample.bob closed)
        (select_jobs (mkrequest (Some Sample.bob) 5 (JS.lit "x"))
                     Sample.store).
Proof.
  split.
  - apply (proj1 (proj2 (C3_job_select_policy
                           (mkrequest (Some Sample.alice) 5 (JS.lit "x"))
                           Sample.store
                           (Sample.job Sample.job2 Sample.bob closed)))).
    + simpl; discriminate.
    + vm_compute; discriminate.
  - apply (proj2 (proj2 (C3_job_select_policy
                           (mkrequest (Some Sample.bob) 5 (JS.lit "x"))
                           Sample.store
                           (Sample.job Sample.job2 Sample.bob closed)))).
    + simpl; auto.
    + reflexivity.
Defined.



Lemma C5_application_update_witness :
  let alice := mkrequest (Some Sample.alice) 8 (JS.lit "x") in
  let bob := mkrequest (Some Sample.bob) 8 (JS.lit "x") in
  let A := Sample.application1 in
  let u := Application.mkUpdate None None None (Some shortlisted) None None
             None (Some (Some 0%Z)) in
  nth_error
    (applications
       (after Sample.store
          (update_applications alice (fun _ => true) u Sample.store))) 0
  = Some A
  /\ (exists d',
       update_applications bob
         (fun a => JS.eqb (Application.id a) (Application.id A)) u
         Sample.store = Ok d'
       /\ nth_error (applications d') 0
          = Some (Application.mk (JS.lit "app-1") Sample.job1 Sample.alice
                    shortlisted None None (Some 3%Z) (Some 8%Z)))
  /\ update_applications alice (fun _ => true) u Sample.store
     = Ok Sample.store.
Proof.
  intros alice bob A u.
  assert (H0 : nth_error (applications Sample.store) 0 = Some A)
    by reflexivity.
  split; [|split].
  - apply (proj1 (proj2 (C5_application_update alice Sample.store 0 A H0)));
      [reflexivity|].
    intros j [<-|[<-|[]]] Hid; vm_compute; discriminate.
  - assert (Ho : owns_job_of bob Sample.store A).
    { exists (Sample.job Sample.job1 Sample.bob open).
      split; [simpl; auto|]. split; reflexivity. }
    destruct (proj1 (proj2 (proj2
                (C5_application_update bob Sample.store 0 A H0)))
                Ho shortlisted None None None (Some (Some 0%Z)))
      as [d' [E N]].
    exists d'; split; [exact E|exact N].
  - apply (proj2 (proj2 (proj2 (proj2
             (C5_application_update alice Sample.store 0 A H0))))).
    intros a [<-|[]] _ [j [[<-|[<-|[]]] [_ Ho]]];
      vm_compute in Ho; discriminate Ho.
Defined.

(** C5, the claim as written: the applicant's own UPDATE is not answered
    with an error.  Alice's UPDATE of her application comes back without
    an error and the row is as it was; sent through the Applicants page
    it is reported as a success. *)
Lemma C5_applicant_update_not_rejected :
  let alice := mkrequest (Some Sample.alice) 8 (JS.lit "x") in
  let A := Sample.application1 in
  In A (applications Sample.store)
  /\ auth_uid alice = Some (Application.applicant_id A)
  /\ update_applications alice
       (fun a => JS.eqb (Application.id a) (Application.id A))
       (Applicants.status_update shortlisted) Sample.store
     = Ok Sample.store
  /\ Applicants.updateApplicationStatus (Some Sample.alice)
       (Application.id A) shortlisted 8 (JS.lit "x") Sample.store
     = (Sample.store,
        [toast_success (JS.lit "Application status updated")])
  /\ ~ (forall rq whr u d a,
          In a (applications d) -> whr a = true ->
          auth_uid rq = Some (Application.applicant_id a) ->
          ~ owns_job_of rq d a ->
          exists e, update_applications rq whr u d = Err e).
Proof.
  intros alice A.
  split; [left; reflexivity|]. split; [reflexivity|].
  split; [reflexivity|]. split; [reflexivity|].
  intros H.
  destruct (H alice (fun a => JS.eqb (Application.id a) (Application.id A))
              (Applicants.status_update shortlisted) Sample.store A
              (or_introl eq_refl) eq_refl eq_refl)
    as [e E].
  - intros [j [[<-|[<-|[]]] [_ Ho]]]; vm_compute in Ho; discriminate Ho.
  - vm_compute in E. discriminate E.
Qed.


Lemma C6_saved_job_add_remove_witness :
  let i := SavedJob.mkInsert None Sample.job1 Sample.alice None in
  exists d1,
    insert_saved_jobs
      (request_of (Some Sample.alice) 4 (JS.lit "saved-1")) i Sample.fresh
    = Ok d1
    /\ saved_jobs d1 = [Sample.saved1]
    /\ saved_jobs
         (delete_saved_jobs
            (request_of (Some Sample.alice) 5 (JS.lit "y"))
            (Jobs.saved_by Sample.alice Sample.job1) d1)
       = saved_jobs Sample.fresh.
Proof.
  intros i.
  destruct (C6_saved_job_add_remove Sample.alice Sample.job1
              4%Z 5%Z 6%Z (JS.lit "saved-1") (JS.lit "y") (JS.lit "z")
              i Sample.fresh
              (eq_refl : SavedJob.i_job_id i = Sample.job1)
              (eq_refl : SavedJob.i_user_id i = Sample.alice)
              eq_refl)
    as [_ H].
  destruct (H eq_refl eq_refl eq_refl) as [d1 [E [_ [_ [R _]]]]].
  exists d1. split; [exact E|]. split; [|exact R].
  assert (E' : insert_saved_jobs
                 (request_of (Some Sample.alice) 4 (JS.lit "saved-1")) i
                 Sample.fresh
               = Ok (with_saved_jobs Sample.fresh [Sample.saved1]))
    by reflexivity.
  rewrite E' in E. injection E as <-. reflexivity.
Defined.

Lemma C7_delete_job_cascades_witness :
  let bob := mkrequest (Some Sample.bob) 9 (JS.lit "x") in
  let whr := fun j => JS.eqb (Job.id j) Sample.job1 in
  applications (delete_jobs bob whr Sample.store) = []
  /\ (forall a, In a (applications (delete_jobs bob whr Sample.store)) ->
                Application.job_id a <> Sample.job1)
  /\ (forall s, In s (saved_jobs (delete_jobs bob whr Sample.store)) ->
                SavedJob.job_id s <> Sample.job1).
Proof.
  intros bob whr. split; [reflexivity|].
  destruct (C7_delete_job_cascades bob whr Sample.store
              (Sample.job Sample.job1 Sample.bob open)
              (or_introl eq_refl) eq_refl eq_refl)
    as [_ [Ha [Hs _]]].
  split; [exact Ha | exact Hs].
Defined.

Lemma C8_counters_unmaintained_witness :
  let f := PostJob.mkForm (JS.lit "Tester") (JS.lit "TechCorp")
             (JS.lit "Tests things") [] (JS.lit "Remote")
             (JS.lit "full-time") [] [] [] (JS.lit "Coq, OCaml") in
  let h := [(op_post_job (Some Sample.bob) f, 10%Z, JS.lit "job-3");
            (op_view_job (Some Sample.alice) (JS.lit "job-3"), 11%Z,
             JS.lit "x");
            (op_apply (Some Sample.alice) (JS.lit "job-3"), 12%Z,
             JS.lit "app-3")] in
  length (jobs (run Sample.no_parseInt Sample.url Sample.uuid_in Sample.store h)) = 3
  /\ length (applications (run Sample.no_parseInt Sample.url Sample.uuid_in Sample.store h))
     = 2
  /\ Forall counters_untouched
            (jobs (run Sample.no_parseInt Sample.url Sample.uuid_in Sample.store h)).
Proof.
  intros f h. split; [reflexivity|]. split; [reflexivity|].
  apply (proj1 (proj2 (proj2 (proj2
           (C8_counters_unmaintained Sample.no_parseInt Sample.url Sample.uuid_in))))).
  repeat constructor.
Defined.

Lemma C9_required_skills_parser_witness :
  let f := PostJob.mkForm (JS.lit "Tester") (JS.lit "TechCorp")
             (JS.lit "Tests things") [] (JS.lit "Remote")
             (JS.lit "full-time") [] [] [] (JS.lit " , ,") in
  blank_or JS.comma (JS.lit " , ,")
  /\ PostJob.skillsArray (JS.lit " , ,") = []
  /\ PostJob.skillsArray (JS.lit " React,, Node.js ,") =
     [JS.lit "React"; JS.lit "Node.js"]
  /\ exists d' r,
       insert_jobs (request_of (Some Sample.bob) 10 (JS.lit "job-3"))
                   (PostJob.payload Sample.no_parseInt Sample.bob f)
                   Sample.store = Ok d'
       /\ jobs d' = jobs Sample.store ++ [r]
       /\ Job.required_skills r = [].
Proof.
  intros f.
  assert (Hb : blank_or JS.comma (JS.lit " , ,")).
  { unfold blank_or; cbn.
    repeat (apply Forall_cons;
            [(left; reflexivity) || (right; reflexivity)|]).
    apply Forall_nil. }
  destruct (proj2 (C9_required_skills_parser (JS.lit " , ,")) Hb)
    as [E [_ Ins]].
  split; [exact Hb|]. split; [exact E|]. split; [reflexivity|].
  eexists.
  destruct (Ins Sample.no_parseInt Sample.bob f 10%Z (JS.lit "job-3")
                Sample.store _ eq_refl eq_refl) as [r [J R]].
  exists r. split; [reflexivity|]. split; [exact J|exact R].
Defined.

Lemma C10_oversized_resume_rejected_witness :
  let file := ProfilePage.mkFile (JS.lit "cv.pdf") (6 * 1024 * 1024) in
  let ok := ProfilePage.mkFile (JS.lit "cv.pdf") (5 * 1024 * 1024) in
  fst (ProfilePage.handleResumeUpload Sample.url (Some Sample.alice)
         (Some file) 9 (JS.lit "x") Sample.store) = Sample.store
  /\ storage_objects
       (fst (ProfilePage.handleResumeUpload Sample.url (Some Sample.alice)
               (Some ok) 9 (JS.lit "x") Sample.store))
     = [StorageObject.mk (JS.lit "resumes") (JS.lit "a11ce/resume.pdf")
                         (5 * 1024 * 1024)].
Proof.
  intros file ok. split; [|reflexivity].
  apply (C10_oversized_resume_rejected Sample.url (Some Sample.alice) file
           9%Z (JS.lit "x") Sample.store).
  vm_compute. reflexivity.
Defined.

(* ================================================================== *)
(** * Further properties of the store *)
(* ================================================================== *)

(* ------------------------------------------------------------------ *)
(** ** Requests without a session *)

Lemma store_eta (d : db) :
  mkdb (auth_users d) (profiles d) (jobs d) (applications d) (saved_jobs d)
       (storage_objects d) = d.
Proof. destruct d; reflexivity. Qed.

Lemma update_profiles_shape (rq : request) (whr : Profile.row -> bool)
    (u : Profile.Update) (d : db) :
  after d (update_profiles rq whr u d) = d
  \/ update_profiles rq whr u d =
     Ok (with_profiles d
           (map (fun p => if profile_update_target rq whr p
                          then profile_update_row rq u p else p)
                (profiles d))).
Proof. unfold update_profiles; guards; simpl; auto. Qed.

Lemma anonymous_eq (t : timestamptz) (g : uuid) (x : option text) :
  holds (sql_eq x (auth_uid (mkrequest None t g))) = false
  /\ holds (sql_eq (auth_uid (mkrequest None t g)) x) = false.
Proof. destruct x; split; reflexivity. Qed.

Lemma anonymous_owns_no_job (t : timestamptz) (g : uuid) (d : db)
    (i : uuid) :
  holds (caller_owns_job (mkrequest None t g) d i) = false.
Proof.
  unfold caller_owns_job. rewrite holds_Some.
  destruct (existsb _ _) eqn:E; [|reflexivity].
  apply existsb_exists in E as [j [_ H]].
  rewrite holds_sql_and, (proj1 (anonymous_eq t g _)), andb_false_r in H.
  discriminate.
Qed.

(** X1. Without a session nothing can be written: every statement a client
    can send leaves the whole store as it was when [auth.uid()] is NULL. *)
Theorem anonymous_request_changes_nothing (t : timestamptz) (g : uuid)
    (s : statement) (d : db) :
  sent_by_client s = true ->
  execute (mkrequest None t g) s d = d.
Proof.
  destruct s; simpl; intros Hs; try discriminate.
  - unfold insert_applications, Job_seekers_can_create_applications.
    cbv zeta. rewrite ?holds_sql_and, ?(proj1 (anonymous_eq t g _)).
    reflexivity.
  - destruct (update_applications_shape (mkrequest None t g) whr u d) as [E | E];
      [exact E | rewrite E; simpl].
    rewrite map_unless; [destruct d; reflexivity|].
    intros a _. unfold application_update_target,
      Recruiters_can_update_application_status.
    rewrite anonymous_owns_no_job. apply andb_false_r.
  - unfold insert_saved_jobs, Users_can_save_jobs. cbv zeta.
    rewrite ?(proj1 (anonymous_eq t g _)). reflexivity.
  - unfold delete_saved_jobs. rewrite filter_all; [destruct d; reflexivity|].
    intros x _. unfold saved_job_delete_target, Users_can_unsave_jobs.
    rewrite ?(proj1 (anonymous_eq t g _)), ?andb_false_r. reflexivity.
  - unfold insert_jobs, Recruiters_can_create_jobs. cbv zeta.
    destruct (negb (job_integers_ok _)); [reflexivity|].
    rewrite ?holds_sql_and, ?(proj1 (anonymous_eq t g _)). reflexivity.
  - destruct (update_jobs_shape (mkrequest None t g) whr u d) as [E | E];
      [exact E | rewrite E; simpl].
    rewrite map_unless; [destruct d; reflexivity|].
    intros j _. unfold job_update_target, Recruiters_can_update_own_jobs.
    rewrite ?(proj1 (anonymous_eq t g _)). apply andb_false_r.
  - assert (T : forall j, job_delete_target (mkrequest None t g) whr j = false).
    { intros j. unfold job_delete_target, Recruiters_can_delete_own_jobs.
      rewrite ?(proj1 (anonymous_eq t g _)). apply andb_false_r. }
    unfold delete_jobs. cbv zeta.
    rewrite (filter_nil_all (job_delete_target (mkrequest None t g) whr) (jobs d));
      [|intros; apply T].
    simpl. rewrite !filter_all; [apply store_eta | | |]; intros; auto.
    rewrite T; reflexivity.
  - unfold insert_profiles, Users_can_insert_own_profile. cbv zeta.
    destruct (negb (int4_ok _)); [reflexivity|].
    rewrite ?(proj2 (anonymous_eq t g _)). reflexivity.
  - destruct (update_profiles_shape (mkrequest None t g) whr u d) as [E | E];
      [exact E | rewrite E; simpl].
    rewrite map_unless; [destruct d; reflexivity|].
    intros p _. unfold profile_update_target, Users_can_update_own_profile.
    rewrite ?(proj2 (anonymous_eq t g _)). apply andb_false_r.
  - unfold storage_upload, Users_can_upload_their_own_resume. cbv zeta.
    rewrite ?holds_sql_and, ?(proj2 (anonymous_eq t g _)), ?andb_false_r.
    reflexivity.
Qed.

Lemma anonymous_request_changes_nothing_witness :
  execute (mkrequest None 9 (JS.lit "x"))
          (DELETE_jobs (fun _ => true)) Sample.store = Sample.store
  /\ execute (mkrequest (Some Sample.bob) 9 (JS.lit "x"))
             (DELETE_jobs (fun _ => true)) Sample.store <> Sample.store.
Proof.
  split.
  - apply (anonymous_request_changes_nothing 9%Z (JS.lit "x")
             (DELETE_jobs (fun _ => true)) Sample.store).
    reflexivity.
  - vm_compute. discriminate.
Defined.

(* ------------------------------------------------------------------ *)
(** ** What a successful statement went through *)

(** Reads the guards off a statement that returned [Ok]. *)
Ltac passed E :=
  cbv zeta in E;
  repeat match type of E with
         | (if ?c then _ else _) = _ =>
             let G := fresh "G" in destruct c eqn:G; [discriminate E|]
         end;
  injection E as <-;
  repeat split; try reflexivity; try assumption;
  try (apply negb_false_iff; assumption).

Lemma insert_applications_inv (rq : request) (i : Application.Insert)
    (d d' : db) :
  insert_applications rq i d = Ok d' ->
  holds (Job_seekers_can_create_applications rq d (new_application rq i))
  = true
  /\ existsb (same_application_id (new_application rq i)) (applications d)
     = false
  /\ existsb (same_application_pair (new_application rq i)) (applications d)
     = false
  /\ has_job d (Application.job_id (new_application rq i)) = true
  /\ has_profile d (Application.applicant_id (new_application rq i)) = true
  /\ d' = with_applications d (applications d ++ [new_application rq i]).
Proof. unfold insert_applications. intros E. passed E. Qed.

Lemma insert_saved_jobs_inv (rq : request) (i : SavedJob.Insert)
    (d d' : db) :
  insert_saved_jobs rq i d = Ok d' ->
  holds (Users_can_save_jobs rq (new_saved_job rq i)) = true
  /\ existsb (same_saved_job_id (new_saved_job rq i)) (saved_jobs d) = false
  /\ existsb (same_saved_job_pair (new_saved_job rq i)) (saved_jobs d) = false
  /\ has_job d (SavedJob.job_id (new_saved_job rq i)) = true
  /\ has_profile d (SavedJob.user_id (new_saved_job rq i)) = true
  /\ d' = with_saved_jobs d (saved_jobs d ++ [new_saved_job rq i]).
Proof. unfold insert_saved_jobs. intros E. passed E. Qed.

Lemma insert_jobs_inv (rq : request) (i : Job.Insert) (d d' : db) :
  insert_jobs rq i d = Ok d' ->
  job_integers_ok (new_job rq i) = true
  /\ holds (Recruiters_can_create_jobs rq d (new_job rq i)) = true
  /\ existsb (same_job_id (new_job rq i)) (jobs d) = false
  /\ has_profile d (Job.recruiter_id (new_job rq i)) = true
  /\ d' = with_jobs d (jobs d ++ [new_job rq i]).
Proof. unfold insert_jobs. intros E. passed E. Qed.

Lemma profile_constraints_inv (r : Profile.row) (d d' : db) :
  profile_constraints r d = Ok d' ->
  has_profile d (Profile.id r) = false
  /\ has_auth_user d (Profile.id r) = true
  /\ d' = with_profiles d (profiles d ++ [r]).
Proof. unfold profile_constraints. intros E. passed E. Qed.

Lemma insert_profiles_inv (rq : request) (i : Profile.Insert) (d d' : db) :
  insert_profiles rq i d = Ok d' ->
  holds (Users_can_insert_own_profile rq (new_profile rq i)) = true
  /\ profile_constraints (new_profile rq i) d = Ok d'.
Proof.
  unfold insert_profiles. cbv zeta.
  destruct (negb (int4_ok _)); [discriminate|].
  destruct (holds _); simpl; [auto | discriminate].
Qed.

Lemma create_identity_inv (rq : request) (NEW : AuthUser.row) (d d' : db) :
  create_identity rq NEW d = Ok d' ->
  has_auth_user d (AuthUser.id NEW) = false
  /\ exists r,
       Profile.id r = AuthUser.id NEW
       /\ has_profile d (Profile.id r) = false
       /\ d' = with_profiles (with_auth_users d (auth_users d ++ [NEW]))
                             (profiles d ++ [r]).
Proof.
  unfold create_identity.
  destruct (has_auth_user d (AuthUser.id NEW)) eqn:F; [discriminate|].
  unfold handle_new_user. intros E.
  apply profile_constraints_inv in E as [P [_ ->]].
  split; [reflexivity|]. eexists; split; [|split; [exact P|reflexivity]].
  reflexivity.
Qed.

Lemma update_jobs_inv (rq : request) (whr : Job.row -> bool)
    (u : Job.Update) (d d' : db) :
  update_jobs rq whr u d = Ok d' ->
  let target := job_update_target rq whr in
  let new := job_update_row rq u in
  let changes := map (fun j => (j, new j)) (filter target (jobs d)) in
  let table_after := map (fun j => if target j then new j else j) (jobs d) in
  forallb (fun c => holds (Recruiters_can_update_own_jobs rq (snd c))
                    && holds (Anyone_can_view_open_jobs rq (snd c)))
          changes = true
  /\ existsb (key_conflict same_job_id table_after) changes = false
  /\ existsb (fun c =>
                negb (JS.eqb (Job.recruiter_id (fst c))
                             (Job.recruiter_id (snd c)))
                && negb (has_profile d (Job.recruiter_id (snd c))))
             changes = false
  /\ existsb (fun c => dangling_job_reference d table_after (Job.id (fst c)))
             changes = false
  /\ d' = with_jobs d table_after.
Proof. unfold update_jobs. intros E. passed E. Qed.

Lemma update_applications_inv (rq : request)
    (whr : Application.row -> bool) (u : Application.Update) (d d' : db) :
  update_applications rq whr u d = Ok d' ->
  let target := application_update_target rq d whr in
  let new := application_update_row rq u in
  let changes := map (fun a => (a, new a)) (filter target (applications d)) in
  let table_after :=
    map (fun a => if target a then new a else a) (applications d) in
  existsb (key_conflict same_application_id table_after) changes = false
  /\ existsb (fun c =>
                negb (JS.eqb (Application.job_id (fst c))
                             (Application.job_id (snd c)))
                && negb (has_job d (Application.job_id (snd c))))
             changes = false
  /\ existsb (fun c =>
                negb (JS.eqb (Application.applicant_id (fst c))
                             (Application.applicant_id (snd c)))
                && negb (has_profile d (Application.applicant_id (snd c))))
             changes = false
  /\ d' = with_applications d table_after.
Proof. unfold update_applications. intros E. passed E. Qed.

(** What a guard over the changed rows says of one of them. *)
Lemma changes_none {A : Type} (target : A -> bool) (new : A -> A)
    (Q : A * A -> bool) (l : list A) (a : A) :
  existsb Q (map (fun a => (a, new a)) (filter target l)) = false ->
  In a l -> target a = true -> Q (a, new a) = false.
Proof.
  intros H Ha Ta. destruct (Q (a, new a)) eqn:E; [|reflexivity].
  assert (X : existsb Q (map (fun a => (a, new a)) (filter target l))
              = true).
  { apply existsb_exists. exists (a, new a); split; [|exact E].
    apply in_map_iff. exists a; split; [reflexivity|].
    apply filter_In; auto. }
  rewrite X in H; discriminate.
Qed.

Lemma changes_all {A : Type} (target : A -> bool) (new : A -> A)
    (P : A * A -> bool) (l : list A) (a : A) :
  forallb P (map (fun a => (a, new a)) (filter target l)) = true ->
  In a l -> target a = true -> P (a, new a) = true.
Proof.
  intros H Ha Ta. rewrite forallb_forall in H. apply H.
  apply in_map_iff. exists a; split; [reflexivity|].
  apply filter_In; auto.
Qed.

(* ------------------------------------------------------------------ *)
(** ** References between the tables *)

Lemma has_job_iff (d : db) (i : uuid) :
  has_job d i = true <-> exists j, In j (jobs d) /\ Job.id j = i.
Proof.
  unfold has_job. rewrite existsb_exists. split; intros [j [Hj H]];
    exists j; split; auto; apply JS_eqb_eq; exact H.
Qed.

Lemma has_profile_iff (d : db) (i : uuid) :
  has_profile d i = true <-> exists p, In p (profiles d) /\ Profile.id p = i.
Proof.
  unfold has_profile. rewrite existsb_exists. split; intros [p [Hp H]];
    exists p; split; auto; apply JS_eqb_eq; exact H.
Qed.

(** References survive when no job and no profile goes away and the new
    rows refer to rows that are there. *)
Lemma references_grow (d d' : db) :
  (forall i, has_job d i = true -> has_job d' i = true) ->
  (forall i, has_profile d i = true -> has_profile d' i = true) ->
  (forall j, In j (jobs d') ->
             In j (jobs d) \/ has_profile d' (Job.recruiter_id j) = true) ->
  (forall a, In a (applications d') ->
             In a (applications d)
             \/ (has_job d' (Application.job_id a) = true
                 /\ has_profile d' (Application.applicant_id a) = true)) ->
  (forall s, In s (saved_jobs d') ->
             In s (saved_jobs d)
             \/ (has_job d' (SavedJob.job_id s) = true
                 /\ has_profile d' (SavedJob.user_id s) = true)) ->
  references_hold d -> references_hold d'.
Proof.
  intros Hj Hp Nj Na Ns [Rj [Ra Rs]]. split; [|split].
  - intros j H. destruct (Nj j H) as [H'|H']; auto.
  - intros a H. destruct (Na a H) as [H'|H']; auto.
    destruct (Ra a H'); auto.
  - intros s H. destruct (Ns s H) as [H'|H']; auto.
    destruct (Rs s H'); auto.
Qed.

Lemma update_jobs_references (rq : request) (whr : Job.row -> bool)
    (u : Job.Update) (d d' : db) :
  references_hold d ->
  update_jobs rq whr u d = Ok d' ->
  references_hold d'.
Proof.
  intros [Rj [Ra Rs]] E. apply update_jobs_inv in E. cbv zeta in E.
  destruct E as [_ [_ [Fk [Dg ->]]]].
  set (target := job_update_target rq whr) in *.
  set (new := job_update_row rq u) in *.
  set (f := fun j => if target j then new j else j) in *.
  assert (Still : forall i,
             (existsb (fun a => JS.eqb (Application.job_id a) i)
                      (applications d)
              || existsb (fun s => JS.eqb (SavedJob.job_id s) i)
                         (saved_jobs d)) = true ->
             has_job d i = true ->
             has_job (with_jobs d (map f (jobs d))) i = true).
  { intros i Ref H. apply has_job_iff in H as [j [Hj <-]].
    destruct (target j) eqn:T.
    - pose proof (changes_none target new _ (jobs d) j Dg Hj T) as D.
      unfold dangling_job_reference in D. cbn [fst] in D.
      rewrite Ref in D. simpl in D. apply negb_false_iff in D. exact D.
    - apply has_job_iff. exists j; split; [|reflexivity]. simpl.
      apply in_map_iff. exists j; split; [|exact Hj].
      unfold f; rewrite T; reflexivity. }
  split; [|split].
  - intros j' H. simpl in H. apply in_map_iff in H as [j [<- Hj]].
    change (has_profile d (Job.recruiter_id (f j)) = true).
    unfold f. destruct (target j) eqn:T; [|exact (Rj j Hj)].
    pose proof (changes_none target new _ (jobs d) j Fk Hj T) as F.
    cbn [fst snd] in F.
    destruct (JS.eqb (Job.recruiter_id j) (Job.recruiter_id (new j))) eqn:Q.
    + apply JS_eqb_eq in Q. rewrite <- Q. exact (Rj j Hj).
    + simpl in F. apply negb_false_iff in F. exact F.
  - intros a H. change (In a (applications d)) in H.
    destruct (Ra a H) as [J P]. split; [|exact P].
    apply Still; [|exact J]. apply orb_true_iff; left.
    apply existsb_exists. exists a; split; [exact H|apply JS_eqb_refl].
  - intros s H. change (In s (saved_jobs d)) in H.
    destruct (Rs s H) as [J P]. split; [|exact P].
    apply Still; [|exact J]. apply orb_true_iff; right.
    apply existsb_exists. exists s; split; [exact H|apply JS_eqb_refl].
Qed.

Lemma update_applications_references (rq : request)
    (whr : Application.row -> bool) (u : Application.Update) (d d' : db) :
  references_hold d ->
  update_applications rq whr u d = Ok d' ->
  references_hold d'.
Proof.
  intros [Rj [Ra Rs]] E. apply update_applications_inv in E. cbv zeta in E.
  destruct E as [_ [Fj [Fp ->]]].
  set (target := application_update_target rq d whr) in *.
  set (new := application_update_row rq u) in *.
  split; [exact Rj|]. split; [|exact Rs].
  intros a' H. simpl in H. apply in_map_iff in H as [a [<- Ha]].
  change (has_job d (Application.job_id (if target a then new a else a))
          = true
          /\ has_profile d
               (Application.applicant_id (if target a then new a else a))
             = true).
  destruct (Ra a Ha) as [J P].
  destruct (target a) eqn:T; [|split; assumption].
  pose proof (changes_none target new _ (applications d) a Fj Ha T) as F1.
  pose proof (changes_none target new _ (applications d) a Fp Ha T) as F2.
  cbn [fst snd] in F1, F2. split.
  - destruct (JS.eqb (Application.job_id a) (Application.job_id (new a)))
      eqn:Q.
    + apply JS_eqb_eq in Q. rewrite <- Q. exact J.
    + simpl in F1. apply negb_false_iff in F1. exact F1.
  - destruct (JS.eqb (Application.applicant_id a)
                     (Application.applicant_id (new a))) eqn:Q.
    + apply JS_eqb_eq in Q. rewrite <- Q. exact P.
    + simpl in F2. apply negb_false_iff in F2. exact F2.
Qed.

Lemma delete_jobs_references (rq : request) (whr : Job.row -> bool)
    (d : db) :
  references_hold d -> references_hold (delete_jobs rq whr d).
Proof.
  intros [Rj [Ra Rs]].
  assert (Kept : forall i,
             has_job d i = true ->
             existsb (fun j => JS.eqb (Job.id j) i)
                     (filter (job_delete_target rq whr) (jobs d)) = false ->
             has_job (delete_jobs rq whr d) i = true).
  { intros i H G. apply has_job_iff in H as [j [Hj <-]].
    apply has_job_iff. exists j; split; [|reflexivity]. simpl.
    apply filter_In; split; [exact Hj|].
    destruct (job_delete_target rq whr j) eqn:T; [|reflexivity].
    assert (X : existsb (fun x => JS.eqb (Job.id x) (Job.id j))
                        (filter (job_delete_target rq whr) (jobs d)) = true).
    { apply existsb_same_id. apply filter_In; auto. }
    rewrite X in G; discriminate. }
  split; [|split].
  - intros j H. simpl in H. apply filter_In in H as [H _]. exact (Rj j H).
  - intros a H. simpl in H. apply filter_In in H as [H G].
    apply negb_true_iff in G. destruct (Ra a H) as [J P].
    split; [apply Kept; assumption | exact P].
  - intros s H. simpl in H. apply filter_In in H as [H G].
    apply negb_true_iff in G. destruct (Rs s H) as [J P].
    split; [apply Kept; assumption | exact P].
Qed.

Lemma has_profile_same_ids (d d' : db) (i : uuid) :
  map Profile.id (profiles d') = map Profile.id (profiles d) ->
  has_profile d' i = has_profile d i.
Proof.
  intros E. unfold has_profile.
  assert (H : forall l : list Profile.row,
             existsb (fun p => JS.eqb (Profile.id p) i) l
             = existsb (fun x => JS.eqb x i) (map Profile.id l)).
  { induction l as [|x l IH]; simpl; congruence. }
  rewrite !H, E. reflexivity.
Qed.

(** X2. No statement breaks a reference: if every job refers to an existing
    profile and every application and saved job to an existing job and
    profile, the same holds after any statement, deletions (which cascade)
    and changes of keys (which are refused while referred to) included. *)
Theorem references_kept (rq : request) (s : statement) (d : db) :
  references_hold d -> references_hold (execute rq s d).
Proof.
  intros R. destruct s; simpl.
  - destruct (insert_applications rq i d) eqn:E; simpl; [|exact R].
    apply insert_applications_inv in E as [_ [_ [_ [J [P ->]]]]].
    apply (references_grow d); auto.
    intros a H. simpl in H. apply in_app_iff in H as [H|[<-|[]]]; auto.
  - destruct (update_applications rq whr u d) eqn:E; simpl; [|exact R].
    eapply update_applications_references; eassumption.
  - destruct (insert_saved_jobs rq i d) eqn:E; simpl; [|exact R].
    apply insert_saved_jobs_inv in E as [_ [_ [_ [J [P ->]]]]].
    apply (references_grow d); auto.
    intros x H. simpl in H. apply in_app_iff in H as [H|[<-|[]]]; auto.
  - apply (references_grow d); auto.
    intros x H. simpl in H. apply filter_In in H as [H _]. auto.
  - destruct (insert_jobs rq i d) eqn:E; simpl; [|exact R].
    apply insert_jobs_inv in E as [_ [_ [_ [P ->]]]].
    apply (references_grow d); auto.
    + intros k H. unfold has_job; simpl. rewrite existsb_app.
      unfold has_job in H. rewrite H. reflexivity.
    + intros j H. simpl in H. apply in_app_iff in H as [H|[<-|[]]]; auto.
  - destruct (update_jobs rq whr u d) eqn:E; simpl; [|exact R].
    eapply update_jobs_references; eassumption.
  - apply delete_jobs_references; exact R.
  - destruct (insert_profiles rq i d) eqn:E; simpl; [|exact R].
    apply insert_profiles_inv in E as [_ E].
    apply profile_constraints_inv in E as [_ [_ ->]].
    apply (references_grow d); auto.
    intros k H. unfold has_profile; simpl. rewrite existsb_app.
    unfold has_profile in H. rewrite H. reflexivity.
  - destruct (update_profiles rq whr u d) eqn:E; simpl; [|exact R].
    pose proof (update_profiles_keeps_id _ _ _ _ _ E) as [_ Ids].
    assert (Ej : jobs a = jobs d /\ applications a = applications d
                 /\ saved_jobs a = saved_jobs d).
    { apply update_profiles_Ok in E. cbv zeta in E. destruct E as [_ ->].
      repeat split. }
    destruct Ej as [Ej [Ea Es]].
    apply (references_grow d); auto.
    + intros k. unfold has_job. rewrite Ej. auto.
    + intros k. rewrite (has_profile_same_ids d a k Ids). auto.
    + intros j. rewrite Ej. auto.
    + intros x. rewrite Ea. auto.
    + intros x. rewrite Es. auto.
  - destruct (create_identity rq NEW d) eqn:E; simpl; [|exact R].
    apply create_identity_inv in E as [_ [r [_ [_ ->]]]].
    apply (references_grow d); auto.
    intros k H. unfold has_profile; simpl. rewrite existsb_app.
    unfold has_profile in H. rewrite H. reflexivity.
  - assert (E : forall d', storage_upload rq bucket path size d = Ok d' ->
                           jobs d' = jobs d /\ profiles d' = profiles d
                           /\ applications d' = applications d
                           /\ saved_jobs d' = saved_jobs d).
    { unfold storage_upload; guards; intros d' E; try discriminate;
        injection E as <-; repeat split. }
    destruct (storage_upload rq bucket path size d) eqn:U; simpl; [|exact R].
    destruct (E a eq_refl) as [Ej [Ep [Ea Es]]].
    apply (references_grow d); auto.
    + intros k. unfold has_job. rewrite Ej. auto.
    + intros k. unfold has_profile. rewrite Ep. auto.
    + intros j. rewrite Ej. auto.
    + intros x. rewrite Ea. auto.
    + intros x. rewrite Es. auto.
Qed.

(* ------------------------------------------------------------------ *)
(** ** Keys *)

Section AtMostOne.
Context {A : Type} (same : A -> A -> bool).
Hypothesis same_refl : forall x, same x x = true.
Hypothesis same_trans : forall x y, same x y = true ->
                                    forall z, same x z = same y z.

Lemma at_most_one_add (l : list A) (r : A) :
  at_most_one same l -> existsb (same r) l = false ->
  at_most_one same (l ++ [r]).
Proof.
  intros Inv New x. rewrite count_if_app. unfold count_if at 2; simpl.
  destruct (same x r) eqn:S; simpl; [|specialize (Inv x); lia].
  rewrite (count_if_ext _ (same r)); [|apply same_trans; exact S].
  rewrite (count_if_none _ _ New). lia.
Qed.

Lemma at_most_one_filter (l : list A) (q : A -> bool) :
  at_most_one same l -> at_most_one same (filter q l).
Proof.
  intros Inv x. etransitivity; [apply count_if_filter_le | apply Inv].
Qed.

Lemma at_most_one_update (target : A -> bool) (new : A -> A) (l : list A) :
  at_most_one same l ->
  existsb (key_conflict same
             (map (fun a => if target a then new a else a) l))
          (map (fun a => (a, new a)) (filter target l)) = false ->
  at_most_one same (map (fun a => if target a then new a else a) l).
Proof.
  intros Inv K x.
  set (f := fun a => if target a then new a else a) in *.
  destruct (existsb (fun a => same x (f a) && negb (same a (f a))) l) eqn:X.
  - apply existsb_exists in X as [a [Ha Pa]].
    apply andb_true_iff in Pa as [Pa Na].
    assert (T : target a = true).
    { destruct (target a) eqn:T; [reflexivity|]. unfold f in Na.
      rewrite T, same_refl in Na; discriminate. }
    assert (F : f a = new a) by (unfold f; rewrite T; reflexivity).
    rewrite F in Pa, Na.
    pose proof (changes_none target new _ l a K Ha T) as C.
    unfold key_conflict in C; cbn [fst snd] in C. rewrite Na in C.
    simpl in C. apply Nat.ltb_ge in C.
    rewrite (count_if_ext _ (same (new a))); [exact C|].
    apply same_trans; exact Pa.
  - transitivity (count_if (same x) l); [|apply Inv].
    apply count_if_map_le. intros a Ha Pa.
    assert (S : same a (f a) = true).
    { destruct (same a (f a)) eqn:S; [reflexivity|].
      assert (existsb (fun a => same x (f a) && negb (same a (f a))) l
              = true) as X'.
      { apply existsb_exists. exists a; split; [exact Ha|].
        rewrite Pa, S; reflexivity. }
      rewrite X' in X; discriminate. }
    rewrite (same_trans _ _ Pa a), <- (same_trans _ _ S a).
    apply same_refl.
Qed.

End AtMostOne.

Lemma same_job_id_trans (x y : Job.row) :
  same_job_id x y = true -> forall z, same_job_id x z = same_job_id y z.
Proof.
  unfold same_job_id. intros H z. apply JS_eqb_eq in H. rewrite H.
  reflexivity.
Qed.

Lemma same_application_id_trans (x y : Application.row) :
  same_application_id x y = true ->
  forall z, same_application_id x z = same_application_id y z.
Proof.
  unfold same_application_id. intros H z. apply JS_eqb_eq in H.
  rewrite H. reflexivity.
Qed.

Lemma same_saved_job_id_trans (x y : SavedJob.row) :
  same_saved_job_id x y = true ->
  forall z, same_saved_job_id x z = same_saved_job_id y z.
Proof.
  unfold same_saved_job_id. intros H z. apply JS_eqb_eq in H.
  rewrite H. reflexivity.
Qed.

Lemma same_saved_job_pair_trans (x y : SavedJob.row) :
  same_saved_job_pair x y = true ->
  forall z, same_saved_job_pair x z = same_saved_job_pair y z.
Proof.
  unfold same_saved_job_pair. intros H z. apply andb_true_iff in H as [H1 H2].
  apply JS_eqb_eq in H1, H2. rewrite H1, H2. reflexivity.
Qed.

Lemma same_profile_id_trans (x y : Profile.row) :
  same_profile_id x y = true ->
  forall z, same_profile_id x z = same_profile_id y z.
Proof.
  unfold same_profile_id. intros H z. apply JS_eqb_eq in H. rewrite H.
  reflexivity.
Qed.

Lemma same_auth_user_id_trans (x y : AuthUser.row) :
  same_auth_user_id x y = true ->
  forall z, same_auth_user_id x z = same_auth_user_id y z.
Proof.
  unfold same_auth_user_id. intros H z. apply JS_eqb_eq in H. rewrite H.
  reflexivity.
Qed.

Lemma existsb_pointwise {A : Type} (p q : A -> bool) (l : list A) :
  (forall x, p x = q x) -> existsb p l = existsb q l.
Proof.
  intros H. induction l as [|x l IH]; simpl; [reflexivity|].
  rewrite H, IH. reflexivity.
Qed.

Lemma existsb_same_profile (d : db) (r : Profile.row) :
  existsb (same_profile_id r) (profiles d) = has_profile d (Profile.id r).
Proof.
  unfold has_profile. apply existsb_pointwise. intros p. apply JS_eqb_sym.
Qed.

Lemma existsb_same_auth_user (d : db) (r : AuthUser.row) :
  existsb (same_auth_user_id r) (auth_users d)
  = has_auth_user d (AuthUser.id r).
Proof.
  unfold has_auth_user. apply existsb_pointwise. intros p.
  apply JS_eqb_sym.
Qed.

Lemma at_most_one_same_ids (l l' : list Profile.row) :
  map Profile.id l' = map Profile.id l ->
  at_most_one same_profile_id l -> at_most_one same_profile_id l'.
Proof.
  intros E Inv x.
  assert (H : forall k : list Profile.row,
             count_if (same_profile_id x) k
             = count_if (JS.eqb (Profile.id x)) (map Profile.id k)).
  { unfold count_if, same_profile_id.
    induction k as [|y k IH]; simpl; auto.
    destruct (JS.eqb (Profile.id x) (Profile.id y)); simpl; congruence. }
  rewrite H, E, <- H. apply Inv.
Qed.

(** X3. No statement creates a second row with the key of another: the
    primary keys of the four tables and of the identities, and the
    (job_id, user_id) key of saved_jobs, stay unique under every statement. *)
Theorem keys_kept (rq : request) (s : statement) (d : db) :
  keys_unique d -> keys_unique (execute rq s d).
Proof.
  intros K. pose proof K as [Ku [Kp [Kj [Ka [Ks Kq]]]]].
  unfold keys_unique. destruct s; simpl.
  - destruct (insert_applications rq i d) eqn:E; simpl; [|exact K].
    apply insert_applications_inv in E as [_ [N [_ [_ [_ ->]]]]]. simpl.
    repeat split; auto.
    apply at_most_one_add; auto using same_application_id_trans.
  - destruct (update_applications rq whr u d) eqn:E; simpl; [|exact K].
    apply update_applications_inv in E. cbv zeta in E.
    destruct E as [N [_ [_ ->]]]. simpl. repeat split; auto.
    apply at_most_one_update; auto using same_application_id_trans.
    intros x; apply JS_eqb_refl.
  - destruct (insert_saved_jobs rq i d) eqn:E; simpl; [|exact K].
    apply insert_saved_jobs_inv in E as [_ [N [P [_ [_ ->]]]]]. simpl.
    repeat split; auto.
    + apply at_most_one_add; auto using same_saved_job_id_trans.
    + apply at_most_one_add; auto using same_saved_job_pair_trans.
  - repeat split; auto; apply at_most_one_filter; assumption.
  - destruct (insert_jobs rq i d) eqn:E; simpl; [|exact K].
    apply insert_jobs_inv in E as [_ [_ [N [_ ->]]]]. simpl.
    repeat split; auto.
    apply at_most_one_add; auto using same_job_id_trans.
  - destruct (update_jobs rq whr u d) eqn:E; simpl; [|exact K].
    apply update_jobs_inv in E. cbv zeta in E.
    destruct E as [_ [N [_ [_ ->]]]]. simpl. repeat split; auto.
    apply at_most_one_update; auto using same_job_id_trans.
    intros x; apply JS_eqb_refl.
  - repeat split; auto; apply at_most_one_filter; assumption.
  - destruct (insert_profiles rq i d) eqn:E; simpl; [|exact K].
    apply insert_profiles_inv in E as [_ E].
    apply profile_constraints_inv in E as [N [_ ->]]. simpl.
    repeat split; auto.
    apply at_most_one_add; auto using same_profile_id_trans.
    rewrite existsb_same_profile. exact N.
  - destruct (update_profiles rq whr u d) eqn:E; simpl; [|exact K].
    pose proof (update_profiles_keeps_id _ _ _ _ _ E) as [_ Ids].
    apply update_profiles_Ok in E. cbv zeta in E. destruct E as [_ E].
    rewrite E in Ids |- *. simpl in Ids |- *. repeat split; auto.
    eapply at_most_one_same_ids; eassumption.
  - destruct (create_identity rq NEW d) eqn:E; simpl; [|exact K].
    apply create_identity_inv in E as [N [r [_ [P ->]]]]. simpl.
    repeat split; auto.
    + apply at_most_one_add; auto using same_auth_user_id_trans.
      rewrite existsb_same_auth_user. exact N.
    + apply at_most_one_add; auto using same_profile_id_trans.
      rewrite existsb_same_profile. exact P.
  - assert (E : forall d', storage_upload rq bucket path size d = Ok d' ->
                           keys_unique d').
    { unfold storage_upload; guards; intros d' E; try discriminate;
        injection E as <-; exact K. }
    destruct (storage_upload rq bucket path size d) eqn:U; simpl;
      [apply E; reflexivity | exact K].
Qed.

Lemma at_most_one_distinct {A : Type} (same : A -> A -> bool)
    (l : list A) :
  (forall x y, same x y = true -> forall z, same x z = same y z) ->
  distinct_keys same l = true -> at_most_one same l.
Proof.
  intros Tr. induction l as [|a r IH]; simpl; intros H x.
  - unfold count_if; simpl; lia.
  - apply andb_true_iff in H as [Ha Hr]. apply negb_true_iff in Ha.
    change (count_if (same x) (a :: r))
      with (count_if (same x) ([a] ++ r)).
    rewrite count_if_app. unfold count_if at 1; simpl.
    destruct (same x a) eqn:S; simpl; [|apply IH; exact Hr].
    rewrite (count_if_ext _ (same a)); [|apply Tr; exact S].
    rewrite (count_if_none _ _ Ha). lia.
Qed.

Lemma sample_references_hold : references_hold Sample.store.
Proof.
  split; [|split].
  - intros j [<-|[<-|[]]]; reflexivity.
  - intros a [<-|[]]; split; reflexivity.
  - intros s [<-|[]]; split; reflexivity.
Defined.

Lemma sample_keys_unique : keys_unique Sample.store.
Proof.
  repeat split.
  - apply at_most_one_distinct; [apply same_auth_user_id_trans|reflexivity].
  - apply at_most_one_distinct; [apply same_profile_id_trans|reflexivity].
  - apply at_most_one_distinct; [apply same_job_id_trans|reflexivity].
  - apply at_most_one_distinct;
      [apply same_application_id_trans|reflexivity].
  - apply at_most_one_distinct; [apply same_saved_job_id_trans|reflexivity].
  - apply at_most_one_distinct;
      [apply same_saved_job_pair_trans|reflexivity].
Defined.

Lemma references_kept_witness :
  let bob := mkrequest (Some Sample.bob) 9 (JS.lit "x") in
  let drop := DELETE_jobs (fun j => JS.eqb (Job.id j) Sample.job1) in
  length (jobs (execute bob drop Sample.store)) = 1
  /\ references_hold (execute bob drop Sample.store).
Proof.
  intros bob drop. split; [reflexivity|].
  apply (references_kept bob drop Sample.store sample_references_hold).
Defined.

Lemma keys_kept_witness :
  let bob := mkrequest (Some Sample.bob) 9 (JS.lit "x") in
  let rename :=
    UPDATE_jobs (fun _ => true)
      (Job.mkUpdate (Some (JS.lit "job-9")) None None None None None None
                    None None None None None None None None None) in
  execute bob rename Sample.store = Sample.store
  /\ keys_unique (execute bob rename Sample.store).
Proof.
  intros bob rename. split; [reflexivity|].
  apply (keys_kept bob rename Sample.store sample_keys_unique).
Defined.

(* ------------------------------------------------------------------ *)
(** ** Who may apply *)

Lemma caller_has_role_iff (rq : request) (d : db) (r : user_role) :
  holds (caller_has_role rq d r) = true <->
  exists u, auth_uid rq = Some u /\ has_role d u r.
Proof.
  unfold caller_has_role, select_profiles, has_role.
  rewrite holds_Some, existsb_exists. split.
  - intros [p [Hp H]]. apply filter_In in Hp as [Hp _].
    rewrite holds_sql_and, andb_true_iff, holds_Some in H.
    destruct H as [H1 H2]. apply holds_sql_eq_col in H1.
    apply user_role_eqb_eq in H2.
    exists (Profile.id p); split; [exact H1|]. exists p; auto.
  - intros [u [Hu [p [Hp [Hi Hr]]]]]. exists p; split.
    + apply filter_In; split; [exact Hp|reflexivity].
    + rewrite holds_sql_and, andb_true_iff, holds_Some; split.
      * apply holds_sql_eq_col. congruence.
      * apply user_role_eqb_eq; exact Hr.
Qed.

Lemma has_role_has_profile (d : db) (u : uuid) (r : user_role) :
  has_role d u r -> has_profile d u = true.
Proof.
  intros [p [Hp [Hi _]]]. apply has_profile_iff. exists p; auto.
Qed.

Lemma report_success (error : option PostgrestError) :
  JobDetails.report error
  = [toast_success (JS.lit "Application submitted successfully!")] ->
  error = None.
Proof.
  destruct error as [e|]; [|reflexivity]. unfold JobDetails.report.
  destruct (JS.eqb _ _); discriminate.
Qed.

Lemma apply_insert_outcome (u id g : uuid) (t : timestamptz) (d : db) :
  let r := insert_applications (request_of (Some u) t g)
             (Application.mkInsert None id u (Some applied)
                                   None None None None) d in
  (can_apply d u id g ->
   r = Ok (with_applications d (applications d ++ [applied_row g id u t])))
  /\ (forall d', r = Ok d' -> can_apply d u id g).
Proof.
  cbv zeta.
  set (rq := request_of (Some u) t g).
  set (i := Application.mkInsert None id u (Some applied) None None None None).
  split.
  - intros [Hr [Hj [Hn Hg]]].
    unfold insert_applications. cbv zeta.
    assert (P : holds (Job_seekers_can_create_applications rq d
                         (new_application rq i)) = true).
    { unfold Job_seekers_can_create_applications.
      rewrite holds_sql_and, andb_true_iff; split.
      - apply holds_sql_eq_col. reflexivity.
      - apply caller_has_role_iff. exists u; split; [reflexivity|exact Hr]. }
    rewrite P. cbn [negb].
    change (existsb (same_application_id (new_application rq i))
                    (applications d))
      with (existsb (fun a => JS.eqb g (Application.id a))
                    (applications d)).
    rewrite Hg.
    change (existsb (same_application_pair (new_application rq i))
                    (applications d))
      with (existsb (pair_is id u) (applications d)).
    rewrite (filter_none _ _ Hn).
    change (Application.job_id (new_application rq i)) with id.
    change (Application.applicant_id (new_application rq i)) with u.
    rewrite Hj, (has_role_has_profile d u job_seeker Hr). reflexivity.
  - intros d' E.
    apply insert_applications_inv in E as [P [Ni [Np [J [_ _]]]]].
    unfold Job_seekers_can_create_applications in P.
    rewrite holds_sql_and, andb_true_iff in P. destruct P as [_ P].
    apply caller_has_role_iff in P as [u' [Hu Hr]].
    injection Hu as <-. repeat split.
    + exact Hr.
    + exact J.
    + apply filter_nil_all. intros a Ha.
      destruct (pair_is id u a) eqn:Q; [|reflexivity].
      assert (X : existsb (pair_is id u) (applications d) = true).
      { apply existsb_exists. exists a; auto. }
      change (existsb (same_application_pair (new_application rq i))
                      (applications d))
        with (existsb (pair_is id u) (applications d)) in Np.
      rewrite X in Np; discriminate.
    + exact Ni.
Qed.

(** X4. [handleApply] of a signed-in user stores an application and reports
    success exactly when the id in the address of the page reads, in
    whatever spelling the database accepts, as the id of a job that
    exists, the user has a job-seeker profile and no application for that
    job yet, and the generated id is unused; the status of the job plays
    no part.  The stored row has the id of the job as the database reads
    it, status "applied" and both timestamps at the time of the request;
    without success nothing is stored, and an address that holds no UUID
    gives "Failed to submit application". *)
Theorem handleApply_outcome (uuid_in : text -> option uuid) (u : uuid)
    (id : text) (g : uuid) (t : timestamptz) (d : db) :
  (forall job_id,
      uuid_in id = Some job_id ->
      can_apply d u job_id g ->
      JobDetails.handleApply uuid_in (Some u) id t g d
      = (with_applications d (applications d ++ [applied_row g job_id u t]),
         [toast_success (JS.lit "Application submitted successfully!")]))
  /\ (snd (JobDetails.handleApply uuid_in (Some u) id t g d)
      = [toast_success (JS.lit "Application submitted successfully!")] ->
      exists job_id, uuid_in id = Some job_id /\ can_apply d u job_id g)
  /\ (snd (JobDetails.handleApply uuid_in (Some u) id t g d)
      <> [toast_success (JS.lit "Application submitted successfully!")] ->
      fst (JobDetails.handleApply uuid_in (Some u) id t g d) = d)
  /\ (uuid_in id = None ->
      JobDetails.handleApply uuid_in (Some u) id t g d
      = (d, failed_to_submit)).
Proof.
  unfold JobDetails.handleApply.
  destruct (uuid_in id) as [job_id|] eqn:U.
  - destruct (apply_insert_outcome u job_id g t d) as [A B].
    cbv zeta in A, B. split; [|split; [|split]].
    + intros k Hk C. injection Hk as <-. rewrite (A C). reflexivity.
    + cbn [snd]. intros H. apply report_success in H.
      destruct (insert_applications _ _ d) as [d'|e] eqn:E; [|discriminate].
      exists job_id. split; [reflexivity|]. apply (B d'). reflexivity.
    + cbn [fst snd]. intros H.
      destruct (insert_applications _ _ d) as [d'|e] eqn:E; [|reflexivity].
      exfalso; apply H. reflexivity.
    + discriminate.
  - split; [|split; [|split]].
    + intros k Hk. discriminate Hk.
    + cbn [snd]. intros H. apply report_success in H. discriminate H.
    + reflexivity.
    + reflexivity.
Qed.

Lemma handleApply_outcome_witness :
  can_apply Sample.store Sample.alice Sample.job2 (JS.lit "app-2")
  /\ job_status_eqb
       (Job.status (Sample.job Sample.job2 Sample.bob closed)) open = false
  /\ Sample.uuid_in (JS.lit "JOB-2") = Some Sample.job2
  /\ applications
       (fst (JobDetails.handleApply Sample.uuid_in (Some Sample.alice)
               (JS.lit "JOB-2") 9 (JS.lit "app-2") Sample.store))
     = [Sample.application1;
        applied_row (JS.lit "app-2") Sample.job2 Sample.alice 9].
Proof.
  assert (C : can_apply Sample.store Sample.alice Sample.job2
                        (JS.lit "app-2")).
  { split; [|repeat split].
    exists (Sample.profile Sample.alice job_seeker).
    split; [left; reflexivity|split; reflexivity]. }
  split; [exact C|]. split; [reflexivity|]. split; [reflexivity|].
  rewrite (proj1 (handleApply_outcome Sample.uuid_in Sample.alice
                    (JS.lit "JOB-2") (JS.lit "app-2") 9%Z Sample.store)
             Sample.job2 eq_refl C).
  reflexivity.
Defined.

(* ------------------------------------------------------------------ *)
(** ** Who may post a job *)

(** X5. [PostJob.handleSubmit] of a signed-in user stores a job and reports
    success exactly when the user has a recruiter profile, the generated id
    is unused and the three numbers fit an INTEGER.  The stored job belongs
    to the user, is open, has both counters 0, carries the parsed skills
    and nothing of the [requirements] entry; without success nothing is
    stored. *)
Theorem PostJob_handleSubmit_outcome (parseInt : text -> option Z)
    (u g : uuid) (t : timestamptz) (f : PostJob.formData) (d : db) :
  (can_post parseInt d u g f ->
   PostJob.handleSubmit parseInt (Some u) f t g d
   = (with_jobs d (jobs d ++ [posted_row parseInt g u t f]), job_posted))
  /\ (snd (PostJob.handleSubmit parseInt (Some u) f t g d) = job_posted ->
      can_post parseInt d u g f)
  /\ (snd (PostJob.handleSubmit parseInt (Some u) f t g d) <> job_posted ->
      fst (PostJob.handleSubmit parseInt (Some u) f t g d) = d).
Proof.
  unfold PostJob.handleSubmit.
  set (rq := request_of (Some u) t g).
  set (i := PostJob.payload parseInt u f).
  assert (N : new_job rq i = posted_row parseInt g u t f) by reflexivity.
  split; [|split].
  - intros [Hr [Hg [I1 [I2 I3]]]].
    assert (E : insert_jobs rq i d
                = Ok (with_jobs d (jobs d ++ [posted_row parseInt g u t f]))).
    { unfold insert_jobs. cbv zeta. rewrite N.
      assert (Hi : job_integers_ok (posted_row parseInt g u t f) = true).
      { unfold job_integers_ok; simpl. rewrite I1, I2, I3. reflexivity. }
      rewrite Hi. cbn [negb].
      assert (P : holds (Recruiters_can_create_jobs rq d
                           (posted_row parseInt g u t f)) = true).
      { unfold Recruiters_can_create_jobs.
        rewrite holds_sql_and, andb_true_iff; split.
        - apply holds_sql_eq_col. reflexivity.
        - apply caller_has_role_iff. exists u; split; [reflexivity|exact Hr]. }
      rewrite P. cbn [negb].
      change (existsb (same_job_id (posted_row parseInt g u t f)) (jobs d))
        with (existsb (fun j => JS.eqb g (Job.id j)) (jobs d)).
      rewrite Hg.
      change (Job.recruiter_id (posted_row parseInt g u t f)) with u.
      rewrite (has_role_has_profile d u recruiter Hr). reflexivity. }
    rewrite E. reflexivity.
  - intros H.
    destruct (insert_jobs rq i d) as [d'|e] eqn:E; [|discriminate H].
    apply insert_jobs_inv in E as [Hi [P [Ng [_ _]]]]. rewrite N in *.
    unfold Recruiters_can_create_jobs in P.
    rewrite holds_sql_and, andb_true_iff in P. destruct P as [_ P].
    apply caller_has_role_iff in P as [u' [Hu Hr]]. injection Hu as <-.
    unfold job_integers_ok in Hi; simpl in Hi.
    rewrite !andb_true_iff in Hi. destruct Hi as [[[[I1 I2] I3] _] _].
    repeat split; assumption.
  - intros H.
    destruct (insert_jobs rq i d) as [d'|e] eqn:E; [|reflexivity].
    exfalso; apply H. reflexivity.
Qed.

Lemma PostJob_handleSubmit_outcome_witness :
  let f := PostJob.mkForm (JS.lit "Tester") (JS.lit "TechCorp")
             (JS.lit "Tests things") (JS.lit "Five years of Rocq")
             (JS.lit "Remote") (JS.lit "full-time") [] [] []
             (JS.lit "Rocq, OCaml") in
  can_post Sample.no_parseInt Sample.store Sample.bob (JS.lit "job-3") f
  /\ ~ can_post Sample.no_parseInt Sample.store Sample.alice
                (JS.lit "job-3") f
  /\ length
       (jobs (fst (PostJob.handleSubmit Sample.no_parseInt (Some Sample.bob)
                     f 9 (JS.lit "job-3") Sample.store))) = 3
  /\ fst (PostJob.handleSubmit Sample.no_parseInt (Some Sample.alice)
            f 9 (JS.lit "job-3") Sample.store) = Sample.store.
Proof.
  intros f.
  assert (C : can_post Sample.no_parseInt Sample.store Sample.bob
                       (JS.lit "job-3") f).
  { split; [|repeat split].
    exists (Sample.profile Sample.bob recruiter).
    split; [right; left; reflexivity|split; reflexivity]. }
  assert (N : ~ can_post Sample.no_parseInt Sample.store Sample.alice
                         (JS.lit "job-3") f).
  { intros [[p [Hp [Hi Hr]]] _].
    destruct Hp as [<-|[<-|[<-|[]]]]; vm_compute in Hi; discriminate. }
  split; [exact C|]. split; [exact N|]. split.
  - rewrite (proj1 (PostJob_handleSubmit_outcome Sample.no_parseInt
                      Sample.bob (JS.lit "job-3") 9%Z f Sample.store) C).
    reflexivity.
  - apply (proj2 (proj2 (PostJob_handleSubmit_outcome Sample.no_parseInt
                           Sample.alice (JS.lit "job-3") 9%Z f
                           Sample.store))).
    intros H.
    apply (proj1 (proj2 (PostJob_handleSubmit_outcome Sample.no_parseInt
                           Sample.alice (JS.lit "job-3") 9%Z f
                           Sample.store))) in H.
    exact (N H).
Defined.

(* ------------------------------------------------------------------ *)
(** ** A recruiter's own jobs *)

Lemma job_update_target_of_owner (rq : request) (whr : Job.row -> bool)
    (j : Job.row) :
  whr j = true -> auth_uid rq = Some (Job.recruiter_id j) ->
  job_update_target rq whr j = true.
Proof.
  intros Hw Ho. unfold job_update_target. rewrite Hw; simpl.
  apply andb_true_iff; split.
  - apply view_job_iff; auto.
  - apply own_job_iff; exact Ho.
Qed.

(** A patch that names neither [id] nor [recruiter_id] and keeps the
    numbers in range is always carried out. *)
Lemma update_jobs_keys_kept (rq : request) (whr : Job.row -> bool)
    (u : Job.Update) (d : db) :
  Job.u_id u = None ->
  Job.u_recruiter_id u = None ->
  (forall j, In j (jobs d) -> job_update_target rq whr j = true ->
             job_integers_ok (job_update_row rq u j) = true) ->
  update_jobs rq whr u d =
  Ok (with_jobs d
        (map (fun j => if job_update_target rq whr j
                       then job_update_row rq u j else j) (jobs d))).
Proof.
  intros H1 H2 Hi. unfold update_jobs. cbv zeta.
  assert (Id : forall j, Job.id (job_update_row rq u j) = Job.id j).
  { intros j. unfold job_update_row; simpl. rewrite H1; reflexivity. }
  assert (Rc : forall j, Job.recruiter_id (job_update_row rq u j)
                         = Job.recruiter_id j).
  { intros j. unfold job_update_row; simpl. rewrite H2; reflexivity. }
  assert (G1 : forallb (fun c => job_integers_ok (snd c))
                 (map (fun j => (j, job_update_row rq u j))
                      (filter (job_update_target rq whr) (jobs d))) = true).
  { apply forallb_forall. intros c Hc.
    apply in_map_iff in Hc as [j [<- Hj]]. apply filter_In in Hj as [Hj T].
    apply Hi; assumption. }
  rewrite G1. cbn [negb].
  rewrite forallb_changes.
  2:{ intros j T. cbn [snd].
      pose proof (job_update_target_owner rq whr j T) as Ho.
      apply andb_true_iff; split.
      - apply own_job_iff. rewrite Rc. exact Ho.
      - apply view_job_iff. right. rewrite Rc. exact Ho. }
  cbn [negb].
  rewrite existsb_changes.
  2:{ intros j _. unfold key_conflict, same_job_id. cbn [fst snd].
      rewrite Id, JS_eqb_refl. reflexivity. }
  rewrite existsb_changes.
  2:{ intros j _. cbn [fst snd]. rewrite Rc, JS_eqb_refl. reflexivity. }
  assert (G4 : existsb
                 (fun c =>
                    dangling_job_reference d
                      (map (fun j => if job_update_target rq whr j
                                     then job_update_row rq u j else j)
                           (jobs d)) (Job.id (fst c)))
                 (map (fun j => (j, job_update_row rq u j))
                      (filter (job_update_target rq whr) (jobs d)))
               = false).
  { destruct (existsb _ _) eqn:X; [|reflexivity].
    apply existsb_exists in X as [c [Hc Dc]].
    apply in_map_iff in Hc as [j [<- Hj]]. apply filter_In in Hj as [Hj T].
    cbn [fst] in Dc. unfold dangling_job_reference in Dc.
    apply andb_true_iff in Dc as [_ Dc]. apply negb_true_iff in Dc.
    assert (Y : existsb (fun x => JS.eqb (Job.id x) (Job.id j))
                  (map (fun j => if job_update_target rq whr j
                                 then job_update_row rq u j else j)
                       (jobs d)) = true).
    { apply existsb_exists. exists (job_update_row rq u j); split.
      - apply in_map_iff. exists j; split; [|exact Hj]. rewrite T; reflexivity.
      - rewrite Id. apply JS_eqb_refl. }
    rewrite Y in Dc; discriminate. }
  rewrite G4. reflexivity.
Qed.

(** X6. The recruiter of a job can set its status: the statement is carried
    out, the row takes the new status and the time of the statement as
    [updated_at], and the recruiter still reads it; once the status is not
    "open" no other caller reads it any more. *)
Theorem recruiter_sets_job_status (rq : request) (d : db) (i : nat)
    (J : Job.row) (s : job_status) :
  nth_error (jobs d) i = Some J ->
  auth_uid rq = Some (Job.recruiter_id J) ->
  integers_in_range d ->
  exists d',
    update_jobs rq (fun j => JS.eqb (Job.id j) (Job.id J))
                (job_status_update s) d = Ok d'
    /\ nth_error (jobs d') i = Some (with_job_status J s (NOW rq))
    /\ In (with_job_status J s (NOW rq)) (select_jobs rq d')
    /\ (s <> open ->
        forall rq', auth_uid rq' <> Some (Job.recruiter_id J) ->
                    ~ In (with_job_status J s (NOW rq)) (select_jobs rq' d')).
Proof.
  intros Hi Ho [Ij _].
  assert (Hin : In J (jobs d)) by (eapply nth_error_In; eassumption).
  rewrite update_jobs_keys_kept; try reflexivity.
  2:{ intros j Hj _. exact (Ij j Hj). }
  eexists; split; [reflexivity|].
  assert (N : nth_error
                (jobs (with_jobs d
                   (map (fun j =>
                           if job_update_target rq
                                (fun j0 => JS.eqb (Job.id j0) (Job.id J)) j
                           then job_update_row rq (job_status_update s) j
                           else j) (jobs d)))) i
              = Some (with_job_status J s (NOW rq))).
  { simpl. rewrite nth_error_map, Hi; simpl.
    rewrite job_update_target_of_owner; auto. apply JS_eqb_refl. }
  split; [exact N|]. apply nth_error_In in N. split.
  - unfold select_jobs. apply filter_In; split; [exact N|].
    apply view_job_iff. right. exact Ho.
  - intros Hs rq' Hc H. unfold select_jobs in H.
    apply filter_In in H as [_ H]. apply view_job_iff in H as [H|H].
    + apply Hs. exact H.
    + apply Hc. exact H.
Qed.

Lemma sample_integers_in_range : integers_in_range Sample.store.
Proof.
  split.
  - intros j [<-|[<-|[]]]; reflexivity.
  - intros p [<-|[<-|[<-|[]]]]; reflexivity.
Defined.

Lemma recruiter_sets_job_status_witness :
  let bob := mkrequest (Some Sample.bob) 9 (JS.lit "x") in
  let alice := mkrequest (Some Sample.alice) 10 (JS.lit "y") in
  let J := Sample.job Sample.job1 Sample.bob open in
  exists d',
    update_jobs bob (fun j => JS.eqb (Job.id j) Sample.job1)
                (job_status_update paused) Sample.store = Ok d'
    /\ In J (select_jobs alice Sample.store)
    /\ select_jobs alice d' = [].
Proof.
  intros bob alice J.
  destruct (recruiter_sets_job_status bob Sample.store 0 J paused
              eq_refl eq_refl sample_integers_in_range)
    as [d' [E _]].
  exists d'. split; [exact E|]. split; [left; reflexivity|].
  assert (E' : update_jobs bob (fun j => JS.eqb (Job.id j) Sample.job1)
                 (job_status_update paused) Sample.store
               = Ok (with_jobs Sample.store
                       [with_job_status J paused 9;
                        Sample.job Sample.job2 Sample.bob closed]))
    by reflexivity.
  change (Job.id J) with Sample.job1 in E.
  rewrite E' in E. injection E as <-. reflexivity.
Defined.

(** X7. A recruiter cannot hand a job over: an UPDATE that would give
    another [recruiter_id] to one of the caller's jobs is refused as a
    whole and changes nothing. *)
Theorem recruiter_cannot_reassign_job (rq : request)
    (whr : Job.row -> bool) (u : Job.Update) (r : uuid) (d : db)
    (J : Job.row) :
  In J (jobs d) ->
  whr J = true ->
  auth_uid rq = Some (Job.recruiter_id J) ->
  Job.u_recruiter_id u = Some r ->
  r <> Job.recruiter_id J ->
  exists e,
    update_jobs rq whr u d = Err e
    /\ (code e = JS.lit "42501" \/ code e = JS.lit "22003")
    /\ after d (update_jobs rq whr u d) = d.
Proof.
  intros Hin Hw Ho Hu Hr.
  assert (T : job_update_target rq whr J = true)
    by (apply job_update_target_of_owner; assumption).
  assert (X : forallb
                (fun c => holds (Recruiters_can_update_own_jobs rq (snd c))
                          && holds (Anyone_can_view_open_jobs rq (snd c)))
                (map (fun j => (j, job_update_row rq u j))
                     (filter (job_update_target rq whr) (jobs d)))
              = false).
  { destruct (forallb _ _) eqn:F; [|reflexivity].
    pose proof (changes_all _ _ _ (jobs d) J F Hin T) as C.
    cbn [snd] in C. apply andb_true_iff in C as [C _].
    apply own_job_iff in C.
    unfold job_update_row in C; simpl in C. rewrite Hu in C; simpl in C.
    rewrite Ho in C. injection C as C. symmetry in C. contradiction. }
  unfold update_jobs. cbv zeta.
  destruct (negb (forallb (fun c => job_integers_ok (snd c)) _)).
  - eexists; split; [reflexivity|]. split; [right|]; reflexivity.
  - rewrite X. cbn [negb].
    eexists; split; [reflexivity|]. split; [left|]; reflexivity.
Qed.

Lemma recruiter_cannot_reassign_job_witness :
  let bob := mkrequest (Some Sample.bob) 9 (JS.lit "x") in
  exists e,
    update_jobs bob (fun j => JS.eqb (Job.id j) Sample.job1)
                (job_owner_update Sample.carol) Sample.store = Err e
    /\ code e = JS.lit "42501".
Proof.
  intros bob.
  destruct (recruiter_cannot_reassign_job bob
              (fun j => JS.eqb (Job.id j) Sample.job1)
              (job_owner_update Sample.carol) Sample.carol Sample.store
              (Sample.job Sample.job1 Sample.bob open)
              (or_introl eq_refl) eq_refl eq_refl eq_refl)
    as [e [E _]].
  - vm_compute; discriminate.
  - exists e. split; [exact E|].
    assert (E' : update_jobs bob (fun j => JS.eqb (Job.id j) Sample.job1)
                   (job_owner_update Sample.carol) Sample.store
                 = Err (rls_violation "jobs")) by reflexivity.
    rewrite E' in E. injection E as <-. reflexivity.
Defined.

(* ------------------------------------------------------------------ *)
(** ** Profiles *)

Lemma profile_update_target_own (rq : request) (whr : Profile.row -> bool)
    (p : Profile.row) :
  profile_update_target rq whr p = true ->
  auth_uid rq = Some (Profile.id p).
Proof.
  unfold profile_update_target. rewrite !andb_true_iff. intros [_ H].
  apply holds_sql_eq in H as [x [H1 H2]]. congruence.
Qed.

Lemma profile_update_target_by_id (u : uuid) (t : timestamptz) (g : uuid)
    (p : Profile.row) :
  profile_update_target (request_of (Some u) t g)
    (fun r => JS.eqb (Profile.id r) u) p
  = JS.eqb (Profile.id p) u.
Proof.
  unfold profile_update_target, Users_can_update_own_profile,
    Users_can_view_all_profiles. simpl.
  rewrite (JS_eqb_sym u). destruct (JS.eqb (Profile.id p) u); reflexivity.
Qed.

(** X8. No statement of a caller changes or removes the profile of another
    identity: whatever is sent, the row stays in its place as it was. *)
Theorem profiles_of_others_untouched (rq : request) (s : statement)
    (d : db) (i : nat) (p : Profile.row) :
  nth_error (profiles d) i = Some p ->
  auth_uid rq <> Some (Profile.id p) ->
  nth_error (profiles (execute rq s d)) i = Some p.
Proof.
  intros Hi Hc.
  assert (Grow : forall l, nth_error (profiles d ++ l) i = Some p).
  { intros l. rewrite nth_error_app1; [exact Hi|].
    apply nth_error_Some. congruence. }
  destruct s; simpl.
  - destruct (insert_applications rq i0 d) eqn:E; simpl; [|exact Hi].
    apply insert_applications_inv in E as [_ [_ [_ [_ [_ ->]]]]]. exact Hi.
  - destruct (update_applications_shape rq whr u d) as [-> | ->]; exact Hi.
  - destruct (insert_saved_jobs rq i0 d) eqn:E; simpl; [|exact Hi].
    apply insert_saved_jobs_inv in E as [_ [_ [_ [_ [_ ->]]]]]. exact Hi.
  - exact Hi.
  - destruct (insert_jobs rq i0 d) eqn:E; simpl; [|exact Hi].
    apply insert_jobs_inv in E as [_ [_ [_ [_ ->]]]]. exact Hi.
  - destruct (update_jobs_shape rq whr u d) as [-> | ->]; exact Hi.
  - exact Hi.
  - destruct (insert_profiles rq i0 d) eqn:E; simpl; [|exact Hi].
    apply insert_profiles_inv in E as [_ E].
    apply profile_constraints_inv in E as [_ [_ ->]]. apply Grow.
  - destruct (update_profiles_shape rq whr u d) as [-> | ->]; [exact Hi|].
    simpl. rewrite nth_error_map, Hi; simpl.
    destruct (profile_update_target rq whr p) eqn:T; [|reflexivity].
    apply profile_update_target_own in T. contradiction.
  - destruct (create_identity rq NEW d) eqn:E; simpl; [|exact Hi].
    apply create_identity_inv in E as [_ [r [_ [_ ->]]]]. apply Grow.
  - assert (E : forall d', storage_upload rq bucket path size d = Ok d' ->
                           profiles d' = profiles d).
    { unfold storage_upload; guards; intros d' E; try discriminate;
        injection E as <-; reflexivity. }
    destruct (storage_upload rq bucket path size d) eqn:U; simpl;
      [rewrite (E _ eq_refl)|]; exact Hi.
Qed.

Lemma profiles_of_others_untouched_witness :
  let alice := mkrequest (Some Sample.alice) 9 (JS.lit "x") in
  let s := UPDATE_profiles (fun _ => true) (role_update admin) in
  map Profile.role (profiles (execute alice s Sample.store))
  = [admin; recruiter; recruiter]
  /\ nth_error (profiles (execute alice s Sample.store)) 1
     = Some (Sample.profile Sample.bob recruiter).
Proof.
  intros alice s. split; [reflexivity|].
  apply (profiles_of_others_untouched alice s Sample.store 1
           (Sample.profile Sample.bob recruiter) eq_refl).
  vm_compute; discriminate.
Defined.

(** A patch that does not name [id] is carried out on the caller's row as
    soon as the years of experience fit an INTEGER. *)
Lemma update_profiles_own (rq : request) (whr : Profile.row -> bool)
    (u : Profile.Update) (d : db) :
  Profile.u_id u = None ->
  (forall p, In p (profiles d) -> profile_update_target rq whr p = true ->
             int4_ok (Profile.experience_years (profile_update_row rq u p))
             = true) ->
  update_profiles rq whr u d =
  Ok (with_profiles d
        (map (fun p => if profile_update_target rq whr p
                       then profile_update_row rq u p else p) (profiles d))).
Proof.
  intros H1 Hi. unfold update_profiles. cbv zeta.
  assert (G1 : forallb
                 (fun c => int4_ok (Profile.experience_years (snd c)))
                 (map (fun p => (p, profile_update_row rq u p))
                      (filter (profile_update_target rq whr) (profiles d)))
               = true).
  { apply forallb_forall. intros c Hc.
    apply in_map_iff in Hc as [p [<- Hp]]. apply filter_In in Hp as [Hp T].
    apply Hi; assumption. }
  rewrite G1. cbn [negb].
  rewrite forallb_changes; [reflexivity|].
  intros p T. cbn [snd]. apply andb_true_iff; split; [|reflexivity].
  unfold Users_can_update_own_profile.
  apply profile_update_target_own in T.
  apply holds_sql_eq. exists (Profile.id p); split; [exact T|].
  unfold profile_update_row; simpl. rewrite H1; reflexivity.
Qed.

(** X9. Nothing guards the [role] column: a signed-in user can set the role
    of the own profile, the statement is carried out, and with the role
    "recruiter" the user then passes the policy for creating jobs. *)
Theorem user_can_set_own_role (u : uuid) (r : user_role) (t : timestamptz)
    (g : uuid) (d : db) (i : nat) (p : Profile.row) :
  nth_error (profiles d) i = Some p ->
  Profile.id p = u ->
  integers_in_range d ->
  exists d',
    update_profiles (request_of (Some u) t g)
      (fun x => JS.eqb (Profile.id x) u) (role_update r) d = Ok d'
    /\ nth_error (profiles d') i = Some (with_role p r t)
    /\ has_role d' u r
    /\ (r = recruiter ->
        forall rq' j,
          auth_uid rq' = Some u -> Job.recruiter_id j = u ->
          holds (Recruiters_can_create_jobs rq' d' j) = true).
Proof.
  intros Hi Hu [_ Ip].
  rewrite update_profiles_own; try reflexivity.
  2:{ intros q Hq _. exact (Ip q Hq). }
  eexists; split; [reflexivity|].
  assert (N : nth_error
                (profiles
                   (with_profiles d
                      (map (fun x =>
                              if profile_update_target
                                   (request_of (Some u) t g)
                                   (fun x0 => JS.eqb (Profile.id x0) u) x
                              then profile_update_row
                                     (request_of (Some u) t g)
                                     (role_update r) x
                              else x) (profiles d)))) i
              = Some (with_role p r t)).
  { simpl. rewrite nth_error_map, Hi; simpl.
    rewrite profile_update_target_by_id, Hu, JS_eqb_refl. reflexivity. }
  split; [exact N|].
  assert (R : has_role
                (with_profiles d
                   (map (fun x =>
                           if profile_update_target
                                (request_of (Some u) t g)
                                (fun x0 => JS.eqb (Profile.id x0) u) x
                           then profile_update_row
                                  (request_of (Some u) t g)
                                  (role_update r) x
                           else x) (profiles d))) u r).
  { exists (with_role p r t). split; [|split].
    - eapply nth_error_In; exact N.
    - exact Hu.
    - reflexivity. }
  split; [exact R|].
  intros -> rq' j Hc Hj. unfold Recruiters_can_create_jobs.
  rewrite holds_sql_and, andb_true_iff; split.
  - apply holds_sql_eq_col. congruence.
  - apply caller_has_role_iff. exists u; split; [exact Hc|exact R].
Qed.

Lemma user_can_set_own_role_witness :
  exists d',
    update_profiles (request_of (Some Sample.alice) 9 (JS.lit "x"))
      (fun x => JS.eqb (Profile.id x) Sample.alice) (role_update recruiter)
      Sample.store = Ok d'
    /\ has_role Sample.store Sample.alice job_seeker
    /\ has_role d' Sample.alice recruiter.
Proof.
  destruct (user_can_set_own_role Sample.alice recruiter 9%Z (JS.lit "x")
              Sample.store 0 (Sample.profile Sample.alice job_seeker)
              eq_refl eq_refl sample_integers_in_range)
    as [d' [E [_ [R _]]]].
  exists d'. split; [exact E|]. split; [|exact R].
  exists (Sample.profile Sample.alice job_seeker).
  split; [left; reflexivity|split; reflexivity].
Defined.

(** X10. Saving the profile form writes the user's own row only: name,
    phone, location, bio and the skills held by the page are stored,
    [updated_at] is the time of the request, and id, email, role, resume and
    creation time stay.  The company name is stored for a recruiter and
    cleared otherwise, the years of experience are stored for a job seeker
    and cleared otherwise, and 0 years are stored as NULL.  When the years
    do not fit an INTEGER nothing is stored. *)
Theorem ProfilePage_handleSubmit_outcome (parseInt : text -> option Z)
    (u : uuid) (page : Profile.row) (f : ProfilePage.formData)
    (t : timestamptz) (g : uuid) (d : db) :
  let years :=
    if user_role_eqb (Profile.role page) job_seeker
    then ProfilePage.years_or_null parseInt (ProfilePage.experience_years f)
    else None in
  (int4_ok years = true ->
   ProfilePage.handleSubmit parseInt (Some u) (Some page) f t g d
   = (with_profiles d
        (map (fun r => if JS.eqb (Profile.id r) u
                       then saved_profile parseInt page f t r else r)
             (profiles d)),
      [toast_success (JS.lit "Profile updated successfully")]))
  /\ (int4_ok years = false ->
      has_profile d u = true ->
      fst (ProfilePage.handleSubmit parseInt (Some u) (Some page) f t g d)
      = d
      /\ snd (ProfilePage.handleSubmit parseInt (Some u) (Some page) f t g d)
         = [toast_error (JS.lit "Failed to update profile: "
                         ++ message numeric_value_out_of_range)])
  /\ (forall s, ProfilePage.experience_years f = Some s ->
                parseInt s = Some 0%Z -> years = None).
Proof.
  intros years.
  set (rq := request_of (Some u) t g).
  set (whr := fun r => JS.eqb (Profile.id r) u).
  set (up := ProfilePage.updates parseInt page f).
  assert (Row : forall r, profile_update_row rq up r
                          = saved_profile parseInt page f t r)
    by reflexivity.
  split; [|split].
  - intros Hy. unfold ProfilePage.handleSubmit. fold rq whr up.
    rewrite update_profiles_own; [|reflexivity|].
    2:{ intros p _ _. rewrite Row. exact Hy. }
    f_equal. f_equal. apply map_ext. intros r.
    unfold rq, whr. rewrite profile_update_target_by_id, Row. reflexivity.
  - intros Hy Hp. unfold ProfilePage.handleSubmit. fold rq whr up.
    assert (E : update_profiles rq whr up d = Err numeric_value_out_of_range).
    { unfold update_profiles. cbv zeta.
      assert (X : forallb
                    (fun c => int4_ok (Profile.experience_years (snd c)))
                    (map (fun p => (p, profile_update_row rq up p))
                         (filter (profile_update_target rq whr) (profiles d)))
                  = false).
      { destruct (forallb _ _) eqn:F; [|reflexivity].
        apply has_profile_iff in Hp as [p [Hp Hi]].
        assert (T : profile_update_target rq whr p = true).
        { unfold rq, whr. rewrite profile_update_target_by_id, Hi.
          apply JS_eqb_refl. }
        pose proof (changes_all _ _ _ (profiles d) p F Hp T) as C.
        cbn [snd] in C. rewrite Row in C. simpl in C.
        fold years in C. rewrite Hy in C. discriminate. }
      rewrite X. reflexivity. }
    rewrite E. split; reflexivity.
  - intros s Hs H0. unfold years.
    destruct (user_role_eqb (Profile.role page) job_seeker); [|reflexivity].
    unfold ProfilePage.years_or_null. rewrite Hs. simpl. rewrite H0.
    reflexivity.
Qed.

Lemma ProfilePage_handleSubmit_outcome_witness :
  let zero (s : text) : option Z := Some 0%Z in
  let page := Sample.profile Sample.alice job_seeker in
  let f := ProfilePage.mkForm (JS.lit "Alice") (JS.lit "555") (JS.lit "Oslo")
             (JS.lit "Hello") (Some (JS.lit "Acme")) (Some (JS.lit "0")) in
  map (fun p => (Profile.full_name p, Profile.company_name p,
                 Profile.experience_years p, Profile.role p))
      (profiles (fst (ProfilePage.handleSubmit zero (Some Sample.alice)
                        (Some page) f 9 (JS.lit "x") Sample.store)))
  = [(JS.lit "Alice", None, None, job_seeker);
     (JS.lit "User", None, None, recruiter);
     (JS.lit "User", None, None, recruiter)].
Proof.
  intros zero page f.
  rewrite (proj1 (ProfilePage_handleSubmit_outcome zero Sample.alice page f
                    9%Z (JS.lit "x") Sample.store) eq_refl).
  reflexivity.
Defined.

(* ------------------------------------------------------------------ *)
(** ** Saved jobs *)

(** X11. A caller cannot remove or change the saved job of another user:
    after any statement the row is still there, unless the caller is the
    recruiter of the saved job and deleted that job. *)
Theorem saved_jobs_of_others (rq : request) (s : statement) (d : db)
    (x : SavedJob.row) :
  In x (saved_jobs d) ->
  auth_uid rq <> Some (SavedJob.user_id x) ->
  In x (saved_jobs (execute rq s d))
  \/ exists whr j,
       s = DELETE_jobs whr /\ In j (jobs d)
       /\ Job.id j = SavedJob.job_id x
       /\ auth_uid rq = Some (Job.recruiter_id j).
Proof.
  intros Hx Hc. destruct s; simpl.
  - left. destruct (insert_applications rq i d) eqn:E; simpl; [|exact Hx].
    apply insert_applications_inv in E as [_ [_ [_ [_ [_ ->]]]]]. exact Hx.
  - left. destruct (update_applications_shape rq whr u d) as [-> | ->];
      exact Hx.
  - left. destruct (insert_saved_jobs rq i d) eqn:E; simpl; [|exact Hx].
    apply insert_saved_jobs_inv in E as [_ [_ [_ [_ [_ ->]]]]]. simpl.
    apply in_or_app; left; exact Hx.
  - left. apply filter_In; split; [exact Hx|]. apply negb_true_iff.
    unfold saved_job_delete_target, Users_can_unsave_jobs.
    destruct (holds (sql_eq (Some (SavedJob.user_id x)) (auth_uid rq)))
      eqn:H; [|apply andb_false_r].
    apply holds_sql_eq_col in H. contradiction.
  - left. destruct (insert_jobs rq i d) eqn:E; simpl; [|exact Hx].
    apply insert_jobs_inv in E as [_ [_ [_ [_ ->]]]]. exact Hx.
  - left. destruct (update_jobs_shape rq whr u d) as [-> | ->]; exact Hx.
  - destruct (existsb (fun j => JS.eqb (Job.id j) (SavedJob.job_id x))
                      (filter (job_delete_target rq whr) (jobs d))) eqn:G.
    + right. apply existsb_exists in G as [j [Hj Hi]].
      apply filter_In in Hj as [Hj T]. apply JS_eqb_eq in Hi.
      exists whr, j. repeat split; auto.
      eapply job_delete_target_owner; exact T.
    + left. apply filter_In; split; [exact Hx|]. rewrite G. reflexivity.
  - left. destruct (insert_profiles rq i d) eqn:E; simpl; [|exact Hx].
    apply insert_profiles_inv in E as [_ E].
    apply profile_constraints_inv in E as [_ [_ ->]]. exact Hx.
  - left. destruct (update_profiles_shape rq whr u d) as [-> | ->]; exact Hx.
  - left. destruct (create_identity rq NEW d) eqn:E; simpl; [|exact Hx].
    apply create_identity_inv in E as [_ [r [_ [_ ->]]]]. exact Hx.
  - left.
    assert (E : forall d', storage_upload rq bucket path size d = Ok d' ->
                           saved_jobs d' = saved_jobs d).
    { unfold storage_upload; guards; intros d' E; try discriminate;
        injection E as <-; reflexivity. }
    destruct (storage_upload rq bucket path size d) eqn:U; simpl;
      [rewrite (E _ eq_refl)|]; exact Hx.
Qed.

Lemma saved_jobs_of_others_witness :
  let carol := mkrequest (Some Sample.carol) 9 (JS.lit "x") in
  In Sample.saved1
     (saved_jobs (execute carol (DELETE_saved_jobs (fun _ => true))
                          Sample.store))
  /\ saved_jobs (execute (mkrequest (Some Sample.alice) 9 (JS.lit "x"))
                         (DELETE_saved_jobs (fun _ => true)) Sample.store)
     = [].
Proof.
  intros carol. split; [|reflexivity].
  destruct (saved_jobs_of_others carol (DELETE_saved_jobs (fun _ => true))
              Sample.store Sample.saved1 (or_introl eq_refl)) as [H|H].
  - vm_compute; discriminate.
  - exact H.
  - destruct H as [whr [j [H _]]]. discriminate H.
Defined.

Lemma visible_rows_iff (rq : request) (d : db) :
  (forall a,
      In a (select_applications rq d) <->
      In a (applications d)
      /\ (auth_uid rq = Some (Application.applicant_id a)
          \/ owns_job_of rq d a))
  /\ (forall s,
         In s (select_saved_jobs rq d) <->
         In s (saved_jobs d) /\ auth_uid rq = Some (SavedJob.user_id s)).
Proof.
  split.
  - intros a. unfold select_applications, Users_can_view_own_applications.
    rewrite filter_In, holds_sql_or, orb_true_iff, holds_sql_eq_col,
      caller_owns_job_iff.
    unfold owns_job_of. tauto.
  - intros s. unfold select_saved_jobs, Users_can_view_own_saved_jobs.
    rewrite filter_In, holds_sql_eq_col. tauto.
Qed.

(** X12. A SELECT returns an application exactly to its applicant and to
    the recruiter of its job, and a saved job exactly to the user it
    belongs to. *)
Theorem reads_of_applications_and_saved_jobs (rq : request) (d : db) :
  (forall a,
      In a (select_applications rq d) <->
      In a (applications d)
      /\ (auth_uid rq = Some (Application.applicant_id a)
          \/ owns_job_of rq d a))
  /\ (forall s,
         In s (select_saved_jobs rq d) <->
         In s (saved_jobs d) /\ auth_uid rq = Some (SavedJob.user_id s)).
Proof. exact (visible_rows_iff rq d). Qed.

Lemma reads_of_applications_and_saved_jobs_witness :
  select_applications (mkrequest (Some Sample.bob) 9 (JS.lit "x"))
                      Sample.store = [Sample.application1]
  /\ ~ In Sample.application1
          (select_applications (mkrequest (Some Sample.carol) 9 (JS.lit "x"))
                               Sample.store).
Proof.
  split; [reflexivity|]. intros H.
  apply (proj1 (proj1 (reads_of_applications_and_saved_jobs
                         (mkrequest (Some Sample.carol) 9 (JS.lit "x"))
                         Sample.store) Sample.application1)) in H.
  destruct H as [_ [H | [j [Hj [_ Ho]]]]].
  - vm_compute in H; discriminate.
  - destruct Hj as [<-|[<-|[]]]; vm_compute in Ho; discriminate.
Defined.

Lemma has_add (s : list uuid) (x k : uuid) :
  Jobs.has (Jobs.add s x) k = Jobs.has s k || JS.eqb k x.
Proof.
  unfold Jobs.add. destruct (Jobs.has s x) eqn:H.
  - destruct (JS.eqb k x) eqn:E; [|rewrite orb_false_r; reflexivity].
    apply JS_eqb_eq in E; subst. rewrite H. reflexivity.
  - unfold Jobs.has. rewrite existsb_app; simpl. rewrite orb_false_r.
    reflexivity.
Qed.

Lemma has_delete (s : list uuid) (x k : uuid) :
  Jobs.has (Jobs.delete s x) k = Jobs.has s k && negb (JS.eqb k x).
Proof.
  unfold Jobs.has, Jobs.delete. induction s as [|y s IH]; simpl; auto.
  destruct (JS.eqb x y) eqn:E; simpl.
  - apply JS_eqb_eq in E; subst y. rewrite IH.
    destruct (JS.eqb k x); simpl; [rewrite andb_false_r|]; reflexivity.
  - rewrite IH. destruct (JS.eqb k y) eqn:K; simpl; [|reflexivity].
    apply JS_eqb_eq in K; subst y. rewrite (JS_eqb_sym k x), E. reflexivity.
Qed.

Lemma has_from_array (a acc : list uuid) (k : uuid) :
  Jobs.has (fold_left Jobs.add a acc) k
  = Jobs.has acc k || existsb (JS.eqb k) a.
Proof.
  revert acc. induction a as [|x a IH]; intros acc; simpl.
  - rewrite orb_false_r; reflexivity.
  - rewrite IH, has_add, orb_assoc. reflexivity.
Qed.

Lemma saved_pair_is_other (j k u : uuid) (x : SavedJob.row) :
  JS.eqb k j = false -> saved_pair_is k u x = true ->
  saved_pair_is j u x = false.
Proof.
  unfold saved_pair_is. intros N H. apply andb_true_iff in H as [H _].
  apply JS_eqb_eq in H; subst k. rewrite (JS_eqb_sym j), N. reflexivity.
Qed.

(** X13. The set of saved jobs the Jobs page shows stays in step with the
    store: [checkUser] loads exactly the jobs the user has a saved row for,
    and [toggleSaveJob] keeps that agreement, whether it removes the row,
    adds it, or fails. *)
Theorem savedJobIds_in_sync (u : uuid) (t : timestamptz) (g : uuid)
    (d : db) :
  in_sync u (snd (Jobs.checkUser (Some u) t g d)) d
  /\ (forall savedJobIds jobId,
         in_sync u savedJobIds d ->
         in_sync u
           (snd (fst (Jobs.toggleSaveJob (Some u) savedJobIds jobId t g d)))
           (fst (fst (Jobs.toggleSaveJob (Some u) savedJobIds jobId t g d)))).
Proof.
  split.
  - intros j. unfold Jobs.checkUser; cbn [snd]. unfold Jobs.from_array.
    rewrite has_from_array; simpl.
    unfold saved_jobs_of, select_saved_jobs, Users_can_view_own_saved_jobs.
    split.
    + intros H. apply existsb_exists in H as [k [Hk E]].
      apply JS_eqb_eq in E; subst k.
      apply in_map_iff in Hk as [x [Hj Hx]].
      apply filter_In in Hx as [Hx Hu]. apply filter_In in Hx as [Hx _].
      intros N. pose proof (filter_none_forall _ _ N x Hx) as F.
      unfold saved_pair_is in F.
      rewrite Hj, JS_eqb_refl, (JS_eqb_sym u), Hu in F. discriminate.
    + intros H. apply existsb_filter_nonempty in H.
      apply existsb_exists in H as [x [Hx P]].
      unfold saved_pair_is in P. apply andb_true_iff in P as [Pj Pu].
      apply existsb_exists. exists (SavedJob.job_id x); split; [|exact Pj].
      apply in_map_iff. exists x; split; [reflexivity|].
      apply filter_In; split; [|rewrite JS_eqb_sym; exact Pu].
      apply filter_In; split; [exact Hx|].
      apply holds_sql_eq_col. apply JS_eqb_eq in Pu. simpl. congruence.
  - intros saved j Sync. unfold Jobs.toggleSaveJob.
    destruct (Jobs.has saved j) eqn:H; cbn [fst snd].
    + intros k. rewrite has_delete. unfold saved_jobs_of.
      rewrite delete_saved_jobs_own.
      destruct (JS.eqb k j) eqn:E.
      * apply JS_eqb_eq in E; subst k. rewrite andb_false_r.
        split; [discriminate|]. intros N. exfalso; apply N.
        apply filter_nil_all. intros x Hx. apply filter_In in Hx as [_ Hx].
        apply negb_true_iff in Hx. exact Hx.
      * rewrite andb_true_r.
        assert (Same : filter (saved_pair_is k u)
                         (filter (fun s => negb (saved_pair_is j u s))
                                 (saved_jobs d))
                       = filter (saved_pair_is k u) (saved_jobs d)).
        { induction (saved_jobs d) as [|x l IH]; simpl; auto.
          destruct (saved_pair_is k u x) eqn:P.
          - rewrite (saved_pair_is_other j k u x E P). simpl. rewrite P.
            f_equal. exact IH.
          - destruct (saved_pair_is j u x); simpl; rewrite ?P; exact IH. }
        rewrite Same. apply Sync.
    + destruct (insert_saved_jobs _ _ d) as [d'|e] eqn:E; cbn [fst snd];
        [|exact Sync].
      apply insert_saved_jobs_Ok in E. subst d'. intros k.
      rewrite has_add. unfold saved_jobs_of; simpl. rewrite filter_app; simpl.
      unfold saved_pair_is at 2; simpl. rewrite JS_eqb_refl, andb_true_r.
      specialize (Sync k). unfold saved_jobs_of in Sync.
      destruct (JS.eqb k j) eqn:Q.
      * rewrite orb_true_r. split; [|reflexivity]. intros _ N.
        apply app_eq_nil in N as [_ N]. discriminate.
      * rewrite orb_false_r, app_nil_r. exact Sync.
Qed.

Lemma savedJobIds_in_sync_witness :
  snd (Jobs.checkUser (Some Sample.alice) 9 (JS.lit "x") Sample.store)
  = [Sample.job1]
  /\ in_sync Sample.alice
       (snd (fst (Jobs.toggleSaveJob (Some Sample.alice) [Sample.job1]
                    Sample.job1 9 (JS.lit "x") Sample.store)))
       (fst (fst (Jobs.toggleSaveJob (Some Sample.alice) [Sample.job1]
                    Sample.job1 9 (JS.lit "x") Sample.store))).
Proof.
  split; [reflexivity|].
  apply (proj2 (savedJobIds_in_sync Sample.alice 9%Z (JS.lit "x")
                  Sample.store) [Sample.job1] Sample.job1).
  exact (proj1 (savedJobIds_in_sync Sample.alice 9%Z (JS.lit "x")
                  Sample.store)).
Defined.

(* ------------------------------------------------------------------ *)
(** ** Resumes *)

(** X14. A stored resume in the folder of user [a] can be read by [a] and
    by every recruiter one of whose jobs [a] applied to, and by nobody
    else. *)
Theorem resume_readers (rq : request) (d : db) (o : StorageObject.row)
    (a : uuid) :
  StorageObject.bucket_id o = JS.lit "resumes" ->
  hd_error (storage_foldername (StorageObject.name o)) = Some a ->
  (In o (select_storage_objects rq d) <->
   In o (storage_objects d)
   /\ (auth_uid rq = Some a \/ received_application_from rq d a)).
Proof.
  intros Hb Hf. unfold select_storage_objects.
  rewrite filter_In, holds_sql_or, orb_true_iff.
  unfold Users_can_view_their_own_resume,
    Recruiters_can_view_applicant_resumes.
  rewrite !holds_sql_and, !holds_Some, Hb, Hf, JS_eqb_refl. simpl.
  assert (Own : holds (sql_eq (auth_uid rq) (Some a)) = true
                <-> auth_uid rq = Some a).
  { rewrite holds_sql_eq. split.
    - intros [x [H1 H2]]. congruence.
    - intros H. exists a; auto. }
  assert (Rec : existsb
                  (fun app =>
                     existsb
                       (fun j =>
                          holds
                            (sql_and
                               (sql_and
                                  (sql_eq (Some (Application.job_id app))
                                          (Some (Job.id j)))
                                  (sql_eq (Some (Job.recruiter_id j))
                                          (auth_uid rq)))
                               (sql_eq (Some (Application.applicant_id app))
                                       (Some a))))
                       (select_jobs rq d))
                  (select_applications rq d) = true
                <-> received_application_from rq d a).
  { rewrite existsb_exists. split.
    - intros [app [Ha H]]. apply existsb_exists in H as [j [Hj H]].
      rewrite !holds_sql_and, !andb_true_iff in H.
      destruct H as [[H1 H2] H3].
      apply holds_sql_eq_col in H1, H2, H3.
      apply filter_In in Ha as [Ha _]. apply filter_In in Hj as [Hj _].
      exists app, j. repeat split; try assumption; congruence.
    - intros [app [j [Ha [Hj [Hi [Ho Hp]]]]]]. exists app; split.
      + apply (proj1 (visible_rows_iff rq d)).
        split; [exact Ha|]. right. exists j; auto.
      + apply existsb_exists. exists j; split.
        * unfold select_jobs. apply filter_In; split; [exact Hj|].
          apply view_job_iff; auto.
        * rewrite !holds_sql_and, !andb_true_iff. repeat split;
            apply holds_sql_eq_col; congruence. }
  rewrite Own, Rec. tauto.
Qed.

Lemma resume_readers_witness :
  let cv := StorageObject.mk (JS.lit "resumes") (JS.lit "a11ce/resume.pdf")
                             1000 in
  let d := with_storage_objects Sample.store [cv] in
  select_storage_objects (mkrequest (Some Sample.bob) 9 (JS.lit "x")) d
  = [cv]
  /\ ~ In cv (select_storage_objects
                (mkrequest (Some Sample.carol) 9 (JS.lit "x")) d).
Proof.
  intros cv d. split; [reflexivity|]. intros H.
  apply (proj1 (resume_readers
                  (mkrequest (Some Sample.carol) 9 (JS.lit "x")) d cv
                  Sample.alice eq_refl eq_refl)) in H.
  destruct H as [_ [H | [app [j [_ [Hj [_ [Ho _]]]]]]]].
  - vm_compute in H; discriminate.
  - destruct Hj as [<-|[<-|[]]]; vm_compute in Ho; discriminate.
Defined.

Lemma split_not_nil (sep : N) (s : JS.str) : JS.split sep s <> [].
Proof.
  destruct s as [|c r]; simpl; [discriminate|].
  destruct (N.eqb c sep); [discriminate|].
  destruct (JS.split sep r); discriminate.
Qed.

Lemma split_without_sep (sep : N) (s : JS.str) :
  ~ In sep s -> JS.split sep s = [s].
Proof.
  induction s as [|c r IH]; simpl; intros H; [reflexivity|].
  destruct (N.eqb c sep) eqn:E.
  - apply N.eqb_eq in E. exfalso; apply H; left; exact E.
  - rewrite IH; [reflexivity|]. intros X; apply H; right; exact X.
Qed.

Lemma split_with_sep (sep : N) (s : JS.str) :
  In sep s -> exists a b l, JS.split sep s = a :: b :: l.
Proof.
  induction s as [|c r IH]; simpl; intros H; [destruct H|].
  destruct (N.eqb c sep) eqn:E.
  - destruct (JS.split sep r) as [|b l] eqn:S;
      [destruct (split_not_nil sep r S)|]. eauto.
  - destruct H as [H|H]; [subst; rewrite N.eqb_refl in E; discriminate|].
    destruct (IH H) as [a [b [l ->]]]. eauto.
Qed.

Lemma split_at_first_sep (sep : N) (u rest : JS.str) :
  ~ In sep u ->
  JS.split sep (u ++ sep :: rest) = u :: JS.split sep rest.
Proof.
  induction u as [|c r IH]; simpl; intros H.
  - rewrite N.eqb_refl. reflexivity.
  - destruct (N.eqb c sep) eqn:E.
    + apply N.eqb_eq in E. exfalso; apply H; left; exact E.
    + rewrite IH; [reflexivity|]. intros X; apply H; right; exact X.
Qed.

(** The first folder of a path that starts with a name free of "/". *)
Lemma first_folder (u rest : text) :
  ~ In JS.slash u ->
  hd_error (storage_foldername (u ++ JS.slash :: rest)) = Some u.
Proof.
  intros H. unfold storage_foldername. rewrite split_at_first_sep; auto.
  destruct (JS.split JS.slash rest) as [|b l] eqn:S;
    [destruct (split_not_nil _ _ S)|]. reflexivity.
Qed.

Lemma in_sep_dec (sep : N) (s : JS.str) : In sep s \/ ~ In sep s.
Proof. destruct (in_dec N.eq_dec sep s); auto. Qed.

(** X15. The stored name of a resume is the user id, "/resume." and the
    extension of the selected file: what follows its last dot, or the whole
    file name when it has no dot; the extension holds no dot and is never
    undefined. *)
Theorem resume_file_name (u : uuid) (file : ProfilePage.File) :
  exists pre ext,
    ProfilePage.fileName u file = u ++ JS.lit "/resume." ++ ext
    /\ ProfilePage.name file = pre ++ ext
    /\ ~ In JS.dot ext
    /\ (pre = [] \/ exists p, pre = p ++ [JS.dot])
    /\ (~ In JS.dot (ProfilePage.name file) -> ext = ProfilePage.name file).
Proof.
  unfold ProfilePage.fileName.
  assert (P : forall s,
             exists pre ext,
               JS.pop (JS.split JS.dot s) = Some ext
               /\ s = pre ++ ext /\ ~ In JS.dot ext
               /\ (pre = [] \/ exists p, pre = p ++ [JS.dot])
               /\ (~ In JS.dot s -> ext = s)).
  { induction s as [|c r IH].
    - exists [], []. simpl. repeat split; auto.
    - destruct IH as [pre [ext [Hp [Hr [Hn [Hs Hw]]]]]].
      destruct (N.eqb c JS.dot) eqn:E.
      + apply N.eqb_eq in E. subst c.
        exists (JS.dot :: pre), ext. simpl. rewrite ?N.eqb_refl.
        destruct (JS.split JS.dot r) as [|b l] eqn:S;
          [destruct (split_not_nil _ _ S)|].
        repeat split; auto.
        * rewrite Hr. reflexivity.
        * right. destruct Hs as [-> | [p ->]];
            [exists []; reflexivity | exists (JS.dot :: p); reflexivity].
        * intros X. exfalso; apply X; left; reflexivity.
      + destruct (in_sep_dec JS.dot r) as [Hin | Hout].
        * destruct (split_with_sep _ _ Hin) as [a [b [l S]]].
          exists (c :: pre), ext. simpl. rewrite E, S. rewrite S in Hp.
          simpl in Hp. repeat split; auto.
          -- rewrite Hr. reflexivity.
          -- right. destruct Hs as [-> | [p ->]].
             ++ exfalso. simpl in Hr. subst r. contradiction.
             ++ exists (c :: p). reflexivity.
          -- intros X. exfalso; apply X; right; exact Hin.
        * exists [], (c :: r). simpl. rewrite E.
          rewrite (split_without_sep _ _ Hout). simpl.
          repeat split; auto.
          intros [X|X]; [|contradiction].
          subst c. rewrite N.eqb_refl in E; discriminate. }
  destruct (P (ProfilePage.name file)) as [pre [ext [Hp H]]].
  exists pre, ext. rewrite Hp. split; [reflexivity|exact H].
Qed.

Lemma ProfilePage_fileName_folder (u : uuid) (file : ProfilePage.File) :
  ~ In JS.slash u ->
  hd_error (storage_foldername (ProfilePage.fileName u file)) = Some u.
Proof.
  intros H. unfold ProfilePage.fileName.
  change (JS.lit "/resume." ++ JS.template
            (JS.pop (JS.split JS.dot (ProfilePage.name file))))
    with (JS.slash :: (JS.lit "resume." ++ JS.template
            (JS.pop (JS.split JS.dot (ProfilePage.name file))))).
  apply first_folder; exact H.
Qed.

Lemma upload_accepted_iff (rq : request) (bucket path : text)
    (size : Z) (d : db) :
  (forall d', storage_upload rq bucket path size d = Ok d' ->
              bucket = JS.lit "resumes"
              /\ exists c, auth_uid rq = Some c
                           /\ hd_error (storage_foldername path) = Some c)
  /\ (forall (u : uuid) (file : ProfilePage.File) (t : timestamptz)
             (g : uuid),
         ~ In JS.slash u ->
         exists d',
           storage_upload (request_of (Some u) t g) (JS.lit "resumes")
             (ProfilePage.fileName u file) size d = Ok d').
Proof.
  split.
  - intros d'. unfold storage_upload. cbv zeta.
    destruct (holds _) eqn:P; [|discriminate]. intros _.
    unfold Users_can_upload_their_own_resume in P.
    rewrite holds_sql_and, holds_Some, andb_true_iff in P.
    destruct P as [Pb Pf]. simpl in Pb. apply JS_eqb_eq in Pb.
    split; [exact Pb|]. apply holds_sql_eq in Pf as [c [H1 H2]].
    exists c; auto.
  - intros u file t g Hu. unfold storage_upload. cbv zeta.
    assert (P : holds (Users_can_upload_their_own_resume
                         (request_of (Some u) t g)
                         (StorageObject.mk (JS.lit "resumes")
                            (ProfilePage.fileName u file) size)) = true).
    { unfold Users_can_upload_their_own_resume.
      rewrite holds_sql_and, holds_Some, andb_true_iff. split.
      - reflexivity.
      - apply holds_sql_eq. exists u. split; [reflexivity|].
        apply ProfilePage_fileName_folder; exact Hu. }
    rewrite P. cbn [negb]. destruct (existsb _ _); eauto.
Qed.

(** X16. An upload is accepted only into the bucket "resumes" and only
    into the folder named after the caller; the path the profile page
    builds for its user is always accepted. *)
Theorem upload_only_into_own_folder (rq : request) (bucket path : text)
    (size : Z) (d : db) :
  (forall d', storage_upload rq bucket path size d = Ok d' ->
              bucket = JS.lit "resumes"
              /\ exists c, auth_uid rq = Some c
                           /\ hd_error (storage_foldername path) = Some c)
  /\ (forall (u : uuid) (file : ProfilePage.File) (t : timestamptz)
             (g : uuid),
         ~ In JS.slash u ->
         exists d',
           storage_upload (request_of (Some u) t g) (JS.lit "resumes")
             (ProfilePage.fileName u file) size d = Ok d').
Proof. exact (upload_accepted_iff rq bucket path size d). Qed.

Lemma upload_only_into_own_folder_witness :
  let carol := mkrequest (Some Sample.carol) 9 (JS.lit "x") in
  error_of (storage_upload carol (JS.lit "resumes")
              (JS.lit "a11ce/resume.pdf") 10 Sample.store)
  = Some storage_unauthorized
  /\ exists d',
       storage_upload (request_of (Some Sample.alice) 9 (JS.lit "x"))
         (JS.lit "resumes")
         (ProfilePage.fileName Sample.alice
            (ProfilePage.mkFile (JS.lit "cv.final.pdf") 10))
         10 Sample.store = Ok d'.
Proof.
  intros carol. split; [reflexivity|].
  apply (proj2 (upload_only_into_own_folder carol (JS.lit "resumes")
                  (JS.lit "unused") 10%Z Sample.store)).
  vm_compute. intros H. repeat (destruct H as [H|H]; [discriminate H|]).
  exact H.
Defined.

Lemma resume_file_name_witness :
  ProfilePage.fileName Sample.alice
    (ProfilePage.mkFile (JS.lit "cv.final.pdf") 10)
  = JS.lit "a11ce/resume.pdf"
  /\ ProfilePage.fileName Sample.alice (ProfilePage.mkFile (JS.lit "cv") 10)
     = JS.lit "a11ce/resume.cv".
Proof.
  split; [reflexivity|].
  destruct (resume_file_name Sample.alice
              (ProfilePage.mkFile (JS.lit "cv") 10%Z))
    as [pre [ext [E [_ [_ [_ W]]]]]].
  rewrite E, W; [reflexivity|].
  vm_compute. intros H. repeat (destruct H as [H|H]; [discriminate H|]).
  exact H.
Defined.

Lemma upload_replaces_or_adds (rq : request) (bucket path : text)
    (size : Z) (d d' : db) :
  storage_upload rq bucket path size d = Ok d' ->
  In (StorageObject.mk bucket path size) (storage_objects d')
  /\ (forall o, In o (storage_objects d') ->
                same_object o bucket path = true ->
                o = StorageObject.mk bucket path size)
  /\ (forall o, In o (storage_objects d) ->
                same_object o bucket path = false ->
                In o (storage_objects d'))
  /\ length (storage_objects d')
     = length (storage_objects d)
       + (if existsb (fun x => same_object x bucket path) (storage_objects d)
          then 0 else 1).
Proof.
  unfold storage_upload. cbv zeta.
  destruct (negb (holds _)); [discriminate|].
  destruct (existsb (fun x => same_object x bucket path) (storage_objects d))
    eqn:X; intros E; injection E as <-; simpl.
  - split; [|split; [|split]].
    + apply existsb_exists in X as [x [Hx Sx]].
      apply in_map_iff. exists x; split; [rewrite Sx; reflexivity|exact Hx].
    + intros o Ho So. apply in_map_iff in Ho as [x [<- Hx]].
      destruct (same_object x bucket path) eqn:Sx; [reflexivity|].
      rewrite Sx in So; discriminate.
    + intros o Ho So. apply in_map_iff. exists o; split; [|exact Ho].
      rewrite So; reflexivity.
    + rewrite length_map. lia.
  - split; [|split; [|split]].
    + apply in_or_app; right; left; reflexivity.
    + intros o Ho So. apply in_app_iff in Ho as [Ho|[<-|[]]]; [|reflexivity].
      assert (Y : existsb (fun x => same_object x bucket path)
                          (storage_objects d) = true).
      { apply existsb_exists. exists o; auto. }
      rewrite Y in X; discriminate.
    + intros o Ho _. apply in_or_app; left; exact Ho.
    + rewrite length_app. simpl. lia.
Qed.

(** X17. An accepted upload replaces the object stored under the same
    bucket and path, or adds the object when there is none: afterwards the
    uploaded object is stored, every object with its bucket and path is that
    object, the number of objects grows by one only for a new path, and
    objects under other paths are kept. *)
Theorem storage_upload_upsert (rq : request) (bucket path : text)
    (size : Z) (d d' : db) :
  storage_upload rq bucket path size d = Ok d' ->
  In (StorageObject.mk bucket path size) (storage_objects d')
  /\ (forall o, In o (storage_objects d') ->
                same_object o bucket path = true ->
                o = StorageObject.mk bucket path size)
  /\ (forall o, In o (storage_objects d) ->
                same_object o bucket path = false ->
                In o (storage_objects d'))
  /\ length (storage_objects d')
     = length (storage_objects d)
       + (if existsb (fun x => same_object x bucket path) (storage_objects d)
          then 0 else 1).
Proof. exact (upload_replaces_or_adds rq bucket path size d d'). Qed.

Lemma storage_upload_upsert_witness :
  let alice := request_of (Some Sample.alice) 9 (JS.lit "x") in
  let once :=
    after Sample.store
      (storage_upload alice (JS.lit "resumes") (JS.lit "a11ce/resume.pdf")
                      10 Sample.store) in
  exists twice,
    storage_upload alice (JS.lit "resumes") (JS.lit "a11ce/resume.pdf")
                   20 once = Ok twice
    /\ length (storage_objects twice) = 1
    /\ In (StorageObject.mk (JS.lit "resumes") (JS.lit "a11ce/resume.pdf")
                            20)
          (storage_objects twice).
Proof.
  intros alice once.
  destruct (proj2 (upload_accepted_iff alice (JS.lit "resumes")
                     (JS.lit "unused") 20%Z once)
              Sample.alice (ProfilePage.mkFile (JS.lit "cv.pdf") 20%Z)
              9%Z (JS.lit "x")) as [twice E].
  { vm_compute. intros H.
    repeat (destruct H as [H|H]; [discriminate H|]). exact H. }
  exists twice. split; [exact E|].
  destruct (storage_upload_upsert alice (JS.lit "resumes")
              (JS.lit "a11ce/resume.pdf") 20%Z once twice E)
    as [I [_ [_ L]]].
  split; [exact L | exact I].
Defined.

(** X18. For a signed-in user whose id holds no "/", a file of at most
    5 * 1024 * 1024 bytes is stored as the resume object of the user and
    its public URL becomes the [resume_url] of the user's profile, with
    [updated_at] the time of the request; resumes stored under another
    name, such as one with another extension, are kept. *)
Theorem handleResumeUpload_outcome (supabaseUrl : text) (u : uuid)
    (file : ProfilePage.File) (t : timestamptz) (g : uuid) (d : db)
    (i : nat) (p : Profile.row) :
  ~ In JS.slash u ->
  (ProfilePage.size file <= 5 * 1024 * 1024)%Z ->
  nth_error (profiles d) i = Some p ->
  Profile.id p = u ->
  integers_in_range d ->
  exists d',
    ProfilePage.handleResumeUpload supabaseUrl (Some u) (Some file) t g d
    = (d', [toast_success (JS.lit "Resume uploaded successfully")])
    /\ In (resume_object u file) (storage_objects d')
    /\ nth_error (profiles d') i
       = Some (with_resume_url p
                 (getPublicUrl supabaseUrl (JS.lit "resumes")
                               (ProfilePage.fileName u file)) t)
    /\ (forall o, In o (storage_objects d) ->
                  StorageObject.name o <> ProfilePage.fileName u file ->
                  In o (storage_objects d')).
Proof.
  intros Hu Hs Hi Hp [_ Ip]. unfold ProfilePage.handleResumeUpload.
  assert (L : Z.ltb ProfilePage.max_resume_size (ProfilePage.size file)
              = false).
  { apply Z.ltb_ge. unfold ProfilePage.max_resume_size. exact Hs. }
  rewrite L. cbv zeta.
  destruct (proj2 (upload_accepted_iff (request_of (Some u) t g)
                     (JS.lit "resumes") (JS.lit "unused")
                     (ProfilePage.size file) d) u file t g Hu)
    as [d1 E1].
  pose proof (upload_replaces_or_adds _ _ _ _ _ _ E1) as [S1 [_ [S3 _]]].
  assert (F : profiles d1 = profiles d).
  { revert E1. unfold storage_upload; guards; intros E; try discriminate;
      injection E as <-; reflexivity. }
  pose proof (update_profiles_own (request_of (Some u) t g)
                (fun r => JS.eqb (Profile.id r) u)
                (ProfilePage.resume_update
                   (getPublicUrl supabaseUrl (JS.lit "resumes")
                                 (ProfilePage.fileName u file)))
                d1 eq_refl) as E2.
  eexists; split.
  { rewrite E1, E2; [reflexivity|].
    intros q Hq _. rewrite F in Hq. exact (Ip q Hq). }
  simpl. split; [exact S1|]. split.
  - rewrite nth_error_map, F, Hi; simpl.
    rewrite profile_update_target_by_id, Hp, JS_eqb_refl. reflexivity.
  - intros o Ho Hn. apply S3; [exact Ho|].
    unfold same_object. apply andb_false_iff; right.
    apply JS_eqb_neq. exact Hn.
Qed.

Lemma handleResumeUpload_outcome_witness :
  let old := StorageObject.mk (JS.lit "resumes") (JS.lit "a11ce/resume.pdf")
                              10 in
  let d := with_storage_objects Sample.store [old] in
  let file := ProfilePage.mkFile (JS.lit "cv.docx") 20 in
  exists d',
    ProfilePage.handleResumeUpload Sample.url (Some Sample.alice)
      (Some file) 9 (JS.lit "x") d
    = (d', [toast_success (JS.lit "Resume uploaded successfully")])
    /\ In old (storage_objects d')
    /\ In (resume_object Sample.alice file) (storage_objects d').
Proof.
  intros old d file.
  destruct (handleResumeUpload_outcome Sample.url Sample.alice file 9%Z
              (JS.lit "x") d 0 (Sample.profile Sample.alice job_seeker))
    as [d' [E [I [_ K]]]].
  - vm_compute. intros H.
    repeat (destruct H as [H|H]; [discriminate H|]). exact H.
  - vm_compute. discriminate.
  - reflexivity.
  - reflexivity.
  - exact sample_integers_in_range.
  - exists d'. split; [exact E|]. split; [|exact I].
    apply K; [left; reflexivity|]. vm_compute. discriminate.
Defined.

(* ------------------------------------------------------------------ *)
(** ** The skills of a profile *)

Lemma includes_iff (a : list text) (s : text) :
  ProfilePage.includes a s = true <-> In s a.
Proof.
  unfold ProfilePage.includes. rewrite existsb_exists. split.
  - intros [x [Hx E]]. apply JS_eqb_eq in E. subst; exact Hx.
  - intros H. exists s; split; [exact H|apply JS_eqb_refl].
Qed.

Lemma trim_clean (s : text) : JS.trim s <> [] -> clean_skill (JS.trim s).
Proof.
  intros H. repeat split; auto.
  - apply trim_head.
  - unfold JS.trim; apply trimEnd_last.
Qed.

Lemma NoDup_snoc {A : Type} (l : list A) (x : A) :
  NoDup l -> ~ In x l -> NoDup (l ++ [x]).
Proof.
  intros Hl Hx. induction Hl as [|y l Hy Hl IH]; simpl.
  - constructor; [intros []|constructor].
  - constructor.
    + intros H. apply in_app_iff in H as [H|[H|[]]]; [contradiction|].
      subst. apply Hx; left; reflexivity.
    + apply IH. intros H; apply Hx; right; exact H.
Qed.

Lemma NoDup_filter_keep {A : Type} (p : A -> bool) (l : list A) :
  NoDup l -> NoDup (filter p l).
Proof.
  induction 1 as [|y l Hy Hl IH]; simpl; [constructor|].
  destruct (p y); [|exact IH]. constructor; [|exact IH].
  intros H. apply filter_In in H as [H _]. contradiction.
Qed.

(** X19. The skill list of the profile page stays tidy: [addSkill] adds the
    trimmed input at the end, and only when it is not empty and not yet
    in the list (otherwise profile and list stay as they are);
    [removeSkill] only removes: the list afterwards is the list before
    without the occurrences of the skill, the others in their order.  So
    a list without duplicates, empty strings and surrounding white space
    keeps these properties. *)
Theorem skills_stay_tidy (profile : option Profile.row)
    (skillInput : text) :
  (tidy_skills (skills_shown profile) ->
   tidy_skills
     (skills_shown (fst (fst (ProfilePage.addSkill profile skillInput))))
   /\ forall s,
        tidy_skills (skills_shown (ProfilePage.removeSkill profile s)))
  /\ (JS.trim skillInput = []
      \/ In (JS.trim skillInput) (skills_shown profile) ->
      fst (fst (ProfilePage.addSkill profile skillInput)) = profile)
  /\ (forall p, profile = Some p ->
                JS.trim skillInput <> [] ->
                ~ In (JS.trim skillInput) (skills_shown profile) ->
                skills_shown
                  (fst (fst (ProfilePage.addSkill profile skillInput)))
                = skills_shown profile ++ [JS.trim skillInput])
  /\ (forall s,
        skills_shown (ProfilePage.removeSkill profile s)
        = filter (fun skill => negb (JS.eqb skill s)) (skills_shown profile))
  /\ (forall s x,
        In x (skills_shown (ProfilePage.removeSkill profile s))
        <-> In x (skills_shown profile) /\ x <> s).
Proof.
  assert (R : forall s,
             skills_shown (ProfilePage.removeSkill profile s)
             = filter (fun skill => negb (JS.eqb skill s))
                      (skills_shown profile)).
  { intros s. destruct profile as [p|]; reflexivity. }
  split; [|split; [|split; [|split]]];
    [| | |exact R
     |intros s x; rewrite R, filter_In, negb_true_iff, JS_eqb_neq;
      reflexivity].
  - intros [Hn Hc]. split.
    + unfold ProfilePage.addSkill.
      destruct (JS.trim skillInput) as [|c r] eqn:T; [split; assumption|].
      destruct profile as [p|]; [|split; assumption].
      cbv zeta.
      destruct (ProfilePage.includes _ _) eqn:I; [split; assumption|].
      cbn [fst skills_shown ProfilePage.with_skills Profile.skills COALESCE].
      simpl in Hn, Hc. split.
      * apply NoDup_snoc; [exact Hn|]. intros H.
        apply includes_iff in H. rewrite H in I; discriminate.
      * apply Forall_app; split; [exact Hc|].
        constructor; [|constructor]. rewrite <- T.
        apply trim_clean. rewrite T; discriminate.
    + intros s. destruct profile as [p|]; simpl; [|split; constructor].
      simpl in Hn, Hc. split.
      * apply NoDup_filter_keep; exact Hn.
      * rewrite Forall_forall in *. intros x Hx.
        apply filter_In in Hx as [Hx _]. apply Hc; exact Hx.
  - intros H. unfold ProfilePage.addSkill.
    destruct (JS.trim skillInput) as [|c r] eqn:T; [reflexivity|].
    destruct H as [H|H]; [discriminate|].
    destruct profile as [p|]; [|reflexivity]. cbv zeta.
    simpl in H. apply includes_iff in H. rewrite H. reflexivity.
  - intros p -> Hne Hnot. unfold ProfilePage.addSkill.
    destruct (JS.trim skillInput) as [|c r] eqn:T; [contradiction|].
    cbv zeta. simpl in Hnot.
    destruct (ProfilePage.includes _ _) eqn:I.
    + apply includes_iff in I. contradiction.
    + reflexivity.
Qed.

Lemma skills_stay_tidy_witness :
  let p := ProfilePage.with_skills (Sample.profile Sample.alice job_seeker)
             [JS.lit "Rocq"] in
  tidy_skills
    (skills_shown
       (fst (fst (ProfilePage.addSkill (Some p) (JS.lit "  OCaml ")))))
  /\ skills_shown
       (fst (fst (ProfilePage.addSkill (Some p) (JS.lit "  OCaml "))))
     = [JS.lit "Rocq"; JS.lit "OCaml"]
  /\ skills_shown
       (fst (fst (ProfilePage.addSkill (Some p) (JS.lit " Rocq"))))
     = [JS.lit "Rocq"].
Proof.
  intros p. split; [|split; reflexivity].
  apply (proj1 (skills_stay_tidy (Some p) (JS.lit "  OCaml "))).
  split.
  - constructor; [intros []|constructor].
  - constructor; [|constructor].
    apply (trim_clean (JS.lit "Rocq")). discriminate.
Defined.

(** X20. Adding a skill that is not in the list and removing it again gives
    back the list; after [removeSkill] the removed skill is not in the
    list, whatever the list was. *)
Theorem addSkill_removeSkill (profile : option Profile.row)
    (skillInput s : text) :
  ~ In s (skills_shown (ProfilePage.removeSkill profile s))
  /\ (forall p, profile = Some p ->
                JS.trim skillInput <> [] ->
                ~ In (JS.trim skillInput) (skills_shown profile) ->
                skills_shown
                  (ProfilePage.removeSkill
                     (fst (fst (ProfilePage.addSkill profile skillInput)))
                     (JS.trim skillInput))
                = skills_shown profile).
Proof.
  split.
  - destruct profile as [p|]; simpl; [|intros []].
    intros H. apply filter_In in H as [_ H].
    rewrite JS_eqb_refl in H. discriminate.
  - intros p -> Hne Hnot. unfold ProfilePage.addSkill.
    destruct (JS.trim skillInput) as [|c r] eqn:T; [contradiction|].
    cbv zeta. simpl in Hnot.
    destruct (ProfilePage.includes _ _) eqn:I.
    + apply includes_iff in I. contradiction.
    + cbn [fst]. clear T Hne. remember (c :: r) as k eqn:K. clear K.
      simpl. rewrite filter_app. simpl.
      rewrite JS_eqb_refl. simpl. rewrite app_nil_r. apply filter_all.
      intros x Hx. apply negb_true_iff. apply JS_eqb_neq.
      intros ->. contradiction.
Qed.

Lemma addSkill_removeSkill_witness :
  let p := ProfilePage.with_skills (Sample.profile Sample.alice job_seeker)
             [JS.lit "Rocq"] in
  skills_shown
    (ProfilePage.removeSkill
       (fst (fst (ProfilePage.addSkill (Some p) (JS.lit "  OCaml "))))
       (JS.lit "OCaml"))
  = [JS.lit "Rocq"].
Proof.
  intros p.
  apply (proj2 (addSkill_removeSkill (Some p) (JS.lit "  OCaml ")
                  (JS.lit "OCaml")) p eq_refl).
  - discriminate.
  - vm_compute. intros [H|[]]. discriminate H.
Defined.

(* ------------------------------------------------------------------ *)
(** ** Reading jobs *)

Lemma view_open_jobs_iff (user : option uuid) (t : timestamptz) (g : uuid)
    (j : Job.row) :
  holds (Anyone_can_view_open_jobs (request_of user t g) j) = true
  <-> readable_job user j.
Proof.
  unfold Anyone_can_view_open_jobs, readable_job, request_of. cbn [auth_uid].
  destruct (job_status_eqb (Job.status j) open) eqn:S.
  - assert (Job.status j = open) by (apply job_status_eqb_eq; exact S).
    destruct user as [u|]; simpl;
      [destruct (JS.eqb (Job.recruiter_id j) u)|]; simpl; tauto.
  - assert (Job.status j <> open).
    { intros H. apply job_status_eqb_eq in H. congruence. }
    destruct user as [u|]; simpl.
    + destruct (JS.eqb (Job.recruiter_id j) u) eqn:E; simpl.
      * apply JS_eqb_eq in E. subst. tauto.
      * apply JS_eqb_neq in E. split; [discriminate|].
        intros [H'|H']; [contradiction|]. congruence.
    + split; [discriminate|]. intros [H'|H']; [contradiction|discriminate].
Qed.

Lemma insert_desc_perm {A : Type} (key : A -> option timestamptz)
    (r : A) (l : list A) :
  Permutation (r :: l) (insert_desc key r l).
Proof.
  induction l as [|x l IH]; simpl; [reflexivity|].
  destruct (desc_nulls_first _ _); [reflexivity|].
  etransitivity; [apply perm_swap|]. apply perm_skip. exact IH.
Qed.

Lemma order_by_perm {A : Type} (key : A -> option timestamptz)
    (l : list A) :
  Permutation l (order_by_desc key l).
Proof.
  induction l as [|x l IH]; simpl; [reflexivity|].
  etransitivity; [apply perm_skip; exact IH|]. apply insert_desc_perm.
Qed.

Lemma desc_nulls_first_total (a b : option timestamptz) :
  desc_nulls_first a b = false -> desc_nulls_first b a = true.
Proof.
  destruct a, b; simpl; try congruence. intros H.
  apply Z.leb_gt in H. apply Z.leb_le. lia.
Qed.

Lemma desc_nulls_first_trans (a b c : option timestamptz) :
  desc_nulls_first a b = true -> desc_nulls_first b c = true ->
  desc_nulls_first a c = true.
Proof.
  destruct a, b, c; simpl; try congruence. intros H1 H2.
  apply Z.leb_le in H1, H2. apply Z.leb_le. lia.
Qed.

Lemma insert_desc_sorted {A : Type} (key : A -> option timestamptz)
    (r : A) (l : list A) :
  StronglySorted (newest_first key) l ->
  StronglySorted (newest_first key) (insert_desc key r l).
Proof.
  induction 1 as [|x l Hl IH Hx]; simpl.
  - constructor; constructor.
  - destruct (desc_nulls_first _ _) eqn:E.
    + constructor; [constructor; assumption|].
      constructor; [exact E|].
      rewrite Forall_forall in *. intros y Hy.
      eapply desc_nulls_first_trans; [exact E|apply Hx; exact Hy].
    + constructor; [exact IH|].
      rewrite Forall_forall in *. intros y Hy.
      apply (Permutation_in _ (Permutation_sym (insert_desc_perm key r l)))
        in Hy.
      destruct Hy as [<-|Hy]; [|apply Hx; exact Hy].
      apply desc_nulls_first_total; exact E.
Qed.

Lemma order_by_sorted {A : Type} (key : A -> option timestamptz)
    (l : list A) :
  StronglySorted (newest_first key) (order_by_desc key l).
Proof.
  unfold order_by_desc.
  induction l as [|x l IH]; simpl; [constructor|].
  apply insert_desc_sorted; exact IH.
Qed.

(** X21. The job list of the Jobs page holds exactly the open jobs of the
    table, each as often as the table has it, whoever asks and with or
    without a session (a recruiter's own closed or paused jobs are
    readable but filtered out); newer jobs come before older ones and
    jobs without a creation time first. *)
Theorem fetchJobs_open_newest_first (user : option uuid)
    (t : timestamptz) (g : uuid) (d : db) :
  Permutation (filter (fun j => job_status_eqb (Job.status j) open) (jobs d))
              (Jobs.fetchJobs user t g d)
  /\ (forall j, In j (Jobs.fetchJobs user t g d)
                <-> In j (jobs d) /\ Job.status j = open)
  /\ StronglySorted (newest_first Job.created_at)
                    (Jobs.fetchJobs user t g d).
Proof.
  assert (P : Permutation
                (filter (fun j => job_status_eqb (Job.status j) open)
                        (jobs d))
                (Jobs.fetchJobs user t g d)).
  { unfold Jobs.fetchJobs, select_jobs.
    etransitivity; [|apply order_by_perm].
    replace (filter (fun j => job_status_eqb (Job.status j) open)
               (filter (fun j => holds (Anyone_can_view_open_jobs
                                          (request_of user t g) j))
                       (jobs d)))
      with (filter (fun j => job_status_eqb (Job.status j) open) (jobs d));
      [reflexivity|].
    induction (jobs d) as [|x l IH]; simpl; [reflexivity|].
    destruct (job_status_eqb (Job.status x) open) eqn:S.
    - assert (V : holds (Anyone_can_view_open_jobs (request_of user t g) x)
                  = true).
      { apply view_open_jobs_iff. left. apply job_status_eqb_eq; exact S. }
      rewrite V. simpl. rewrite S, IH. reflexivity.
    - destruct (holds _); simpl; [rewrite S|]; exact IH. }
  split; [exact P|split].
  - intros j. split.
    + intros H. apply (Permutation_in _ (Permutation_sym P)) in H.
      apply filter_In in H as [H S]. split; [exact H|].
      apply job_status_eqb_eq; exact S.
    + intros [H S]. apply (Permutation_in _ P). apply filter_In.
      split; [exact H|]. apply job_status_eqb_eq; exact S.
  - apply order_by_sorted.
Qed.

Lemma filter_at_most_one_row {A : Type} (p : A -> bool) (l : list A) :
  count_if p l <= 1 ->
  filter p l = []
  \/ exists x, filter p l = [x].
Proof.
  unfold count_if. destruct (filter p l) as [|x [|y r]]; simpl.
  - left; reflexivity.
  - right; exists x; reflexivity.
  - lia.
Qed.

Lemma count_by_key {A : Type} (same : A -> A -> bool) (p : A -> bool)
    (l : list A) :
  at_most_one same l ->
  (forall x, p x = true -> forall y, same x y = p y) ->
  count_if p l <= 1.
Proof.
  intros K S. destruct (filter p l) as [|x r] eqn:F;
    [unfold count_if; rewrite F; simpl; lia|].
  assert (Hx : In x (filter p l)) by (rewrite F; left; reflexivity).
  apply filter_In in Hx as [_ Hx].
  rewrite (count_if_ext p (same x)); [apply K|].
  intros y. symmetry. apply S; exact Hx.
Qed.

(** X22. While job ids are unique, the JobDetails page shows the job
    whose id the id in the address of the page reads as, in whatever
    spelling the database accepts, exactly when the table has that job
    and it is open or the caller's own.  Exactly when there is no such
    job, be it that the address holds no UUID, that the id does not
    exist or that the job is a closed or paused one of somebody else,
    the page gets no job, shows "Failed to load job details" and goes
    back to /jobs. *)
Theorem fetchJobDetails_outcome (uuid_in : text -> option uuid)
    (user : option uuid) (id : text) (t : timestamptz) (g : uuid)
    (d : db) :
  keys_unique d ->
  (forall j,
      JobDetails.fetchJobDetails uuid_in user id t g d = (Some j, [])
      <-> In j (jobs d) /\ uuid_in id = Some (Job.id j)
          /\ readable_job user j)
  /\ (JobDetails.fetchJobDetails uuid_in user id t g d
      = (None, [toast_error (JS.lit "Failed to load job details");
                navigate (JS.lit "/jobs")])
      <-> forall j, ~ (In j (jobs d) /\ uuid_in id = Some (Job.id j)
                       /\ readable_job user j)).
Proof.
  intros (_ & _ & K & _). unfold JobDetails.fetchJobDetails.
  destruct (uuid_in id) as [i|] eqn:U; cbn [option_map].
  - assert (M : forall j,
               In j (filter (fun j => JS.eqb (Job.id j) i)
                            (select_jobs (request_of user t g) d))
               <-> In j (jobs d) /\ Some i = Some (Job.id j)
                   /\ readable_job user j).
    { intros j. unfold select_jobs. rewrite !filter_In.
      rewrite view_open_jobs_iff, JS_eqb_eq. split.
      - intros [[H1 H2] H3]. subst. tauto.
      - intros [H1 [H2 H3]]. injection H2 as ->. tauto. }
    assert (C : count_if (fun j => JS.eqb (Job.id j) i)
                         (select_jobs (request_of user t g) d) <= 1).
    { unfold select_jobs.
      etransitivity; [apply count_if_filter_le|].
      apply (count_by_key same_job_id); [exact K|].
      intros x Hx y. apply JS_eqb_eq in Hx. unfold same_job_id.
      rewrite Hx. apply JS_eqb_sym. }
    destruct (filter_at_most_one_row _ _ C) as [F|[x F]]; rewrite F in *.
    + split.
      * intros j. rewrite <- M. simpl. split; [discriminate|intros []].
      * split; [|reflexivity]. intros _ j. rewrite <- M. intros [].
    + split.
      * intros j. rewrite <- M. simpl. split.
        -- intros H; left; congruence.
        -- intros [H|[]]; congruence.
      * split; [discriminate|]. intros H. exfalso. apply (H x).
        apply M. left; reflexivity.
  - split.
    + intros j. split; [discriminate|]. intros [_ [H _]]. discriminate H.
    + split; [|reflexivity]. intros _ j [_ [H _]]. discriminate H.
Qed.

Lemma fetchJobDetails_outcome_witness :
  JobDetails.fetchJobDetails Sample.uuid_in (Some Sample.alice)
    (JS.lit "JOB-1") 10 (JS.lit "new") Sample.store
  = (Some (Sample.job Sample.job1 Sample.bob open), [])
  /\ JobDetails.fetchJobDetails Sample.uuid_in (Some Sample.alice)
       Sample.job2 10 (JS.lit "new") Sample.store
     = (None, [toast_error (JS.lit "Failed to load job details");
               navigate (JS.lit "/jobs")])
  /\ JobDetails.fetchJobDetails Sample.uuid_in (Some Sample.alice)
       [] 10 (JS.lit "new") Sample.store
     = (None, [toast_error (JS.lit "Failed to load job details");
               navigate (JS.lit "/jobs")]).
Proof.
  split; [|split; reflexivity].
  apply (proj1 (fetchJobDetails_outcome Sample.uuid_in (Some Sample.alice)
                  (JS.lit "JOB-1") 10 (JS.lit "new") Sample.store
                  sample_keys_unique)).
  vm_compute. auto.
Defined.

(* ------------------------------------------------------------------ *)
(** ** The pages of a recruiter *)

Lemma count_if_mono {A : Type} (p q : A -> bool) (l : list A) :
  (forall x, In x l -> p x = true -> q x = true) ->
  count_if p l <= count_if q l.
Proof.
  unfold count_if. induction l as [|x l IH]; simpl; intros H; auto.
  assert (IH' : length (filter p l) <= length (filter q l))
    by (apply IH; intros y Hy; apply H; right; exact Hy).
  destruct (p x) eqn:P.
  - rewrite (H x (or_introl eq_refl) P). simpl. lia.
  - destruct (q x); simpl; lia.
Qed.

Lemma filter_filter_implied {A : Type} (p q : A -> bool) (l : list A) :
  (forall x, In x l -> p x = true -> q x = true) ->
  filter p (filter q l) = filter p l.
Proof.
  induction l as [|x l IH]; simpl; intros H; [reflexivity|].
  assert (IH' : filter p (filter q l) = filter p l)
    by (apply IH; intros y Hy; apply H; right; exact Hy).
  destruct (q x) eqn:Q; simpl.
  - rewrite IH'. reflexivity.
  - destruct (p x) eqn:P; [|exact IH'].
    rewrite (H x (or_introl eq_refl) P) in Q. discriminate.
Qed.

Lemma single_filter {A : Type} (p : A -> bool) (l : list A) (x : A) :
  count_if p l <= 1 ->
  (single (filter p l) = Some x <-> In x l /\ p x = true).
Proof.
  intros C. rewrite <- filter_In.
  destruct (filter_at_most_one_row p l C) as [F|[y F]]; rewrite F; simpl.
  - split; [discriminate|intros []].
  - split; [intros H; left; congruence|intros [H|[]]; congruence].
Qed.

Lemma own_profile_iff (u : uuid) (t : timestamptz) (g : uuid) (d : db)
    (p : Profile.row) :
  keys_unique d ->
  (own_profile u t g d = Some p <-> In p (profiles d) /\ Profile.id p = u).
Proof.
  intros (_ & K & _). unfold own_profile, select_profiles.
  rewrite (filter_all (fun p => holds _) (profiles d));
    [|intros; reflexivity].
  rewrite single_filter, JS_eqb_eq; [reflexivity|].
  apply (count_by_key same_profile_id); [exact K|].
  intros x Hx y. apply JS_eqb_eq in Hx. unfold same_profile_id.
  rewrite Hx. apply JS_eqb_sym.
Qed.


Lemma own_jobs_visible (u : uuid) (t : timestamptz) (g : uuid) (d : db)
    (f : Job.row -> bool) :
  (forall j, f j = true -> Job.recruiter_id j = u) ->
  filter f (select_jobs (request_of (Some u) t g) d) = filter f (jobs d).
Proof.
  intros H. apply filter_filter_implied. intros j _ Hj.
  apply view_job_iff. right. simpl. rewrite (H j Hj). reflexivity.
Qed.

Lemma joined_jobs_own (u : uuid) (t : timestamptz) (g : uuid) (d : db)
    (a : Application.row) :
  joined_jobs (request_of (Some u) t g) d u a
  = filter (fun j => JS.eqb (Job.id j) (Application.job_id a)
                     && JS.eqb (Job.recruiter_id j) u) (jobs d).
Proof.
  apply own_jobs_visible. intros j Hj.
  apply andb_true_iff in Hj as [_ Hj]. apply JS_eqb_eq; exact Hj.
Qed.

Lemma joined_jobs_one (u : uuid) (t : timestamptz) (g : uuid) (d : db)
    (a : Application.row) :
  keys_unique d ->
  (on_job_of d u a = false
   /\ joined_jobs (request_of (Some u) t g) d u a = [])
  \/ (on_job_of d u a = true
      /\ exists j, joined_jobs (request_of (Some u) t g) d u a = [j]).
Proof.
  intros (_ & _ & K & _). rewrite joined_jobs_own. unfold on_job_of.
  set (f := fun j => JS.eqb (Job.id j) (Application.job_id a)
                     && JS.eqb (Job.recruiter_id j) u).
  assert (C : count_if f (jobs d) <= 1).
  { transitivity (count_if (fun j => JS.eqb (Job.id j)
                                            (Application.job_id a))
                           (jobs d)).
    - apply count_if_mono. intros x _ Hx. unfold f in Hx.
      apply andb_true_iff in Hx as [Hx _]. exact Hx.
    - apply (count_by_key same_job_id); [exact K|].
      intros x Hx y. apply JS_eqb_eq in Hx. unfold same_job_id.
      rewrite Hx. apply JS_eqb_sym. }
  destruct (filter_at_most_one_row f (jobs d) C) as [F|[x F]].
  - left. split; [apply filter_none|]; exact F.
  - right. split; [|exists x; exact F].
    apply existsb_exists. exists x.
    apply filter_In. rewrite F. left; reflexivity.
Qed.


Lemma flat_map_at_most_one {A B : Type} (f : A -> list B) (proj : B -> A)
    (p : A -> bool) (l : list A) :
  (forall a, map proj (f a) = if p a then [a] else []) ->
  map proj (flat_map f l) = filter p l.
Proof.
  intros H. induction l as [|x l IH]; simpl; [reflexivity|].
  rewrite map_app, IH, H. destruct (p x); reflexivity.
Qed.

Lemma on_job_of_iff (d : db) (u : uuid) (a : Application.row) :
  on_job_of d u a = true
  <-> exists j, In j (jobs d) /\ Job.id j = Application.job_id a
                /\ Job.recruiter_id j = u.
Proof.
  unfold on_job_of. rewrite existsb_exists.
  split; intros [j [Hj H]]; exists j; split; try exact Hj.
  - apply andb_true_iff in H. rewrite !JS_eqb_eq in H. exact H.
  - apply andb_true_iff. rewrite !JS_eqb_eq. exact H.
Qed.

Lemma applications_on_own_jobs_visible (u : uuid) (t : timestamptz)
    (g : uuid) (d : db) (f : Application.row -> bool) :
  (forall a, f a = true -> on_job_of d u a = true) ->
  filter f (select_applications (request_of (Some u) t g) d)
  = filter f (applications d).
Proof.
  intros H. apply filter_filter_implied. intros a _ Ha.
  unfold Users_can_view_own_applications.
  rewrite holds_sql_or. apply orb_true_iff. right.
  apply caller_owns_job_iff.
  destruct (proj1 (on_job_of_iff d u a) (H a Ha)) as [j [Hj [Hi Hr]]].
  exists j. simpl. repeat split; congruence.
Qed.

Lemma joined_applications (u : uuid) (t : timestamptz) (g : uuid) (d : db)
    {B : Type} (f : Application.row -> list B)
    (proj : B -> Application.row) :
  (forall a, map proj (f a)
             = if on_job_of d u a then [a] else []) ->
  map proj (flat_map f (select_applications (request_of (Some u) t g) d))
  = filter (on_job_of d u) (applications d).
Proof.
  intros H. rewrite (flat_map_at_most_one f proj (on_job_of d u)); [|exact H].
  apply applications_on_own_jobs_visible. auto.
Qed.




Lemma with_status_sum (l : list Application.row) :
  Analytics.with_status applied l + Analytics.with_status shortlisted l
  + Analytics.with_status viewed l + Analytics.with_status hired l
  + Analytics.with_status rejected l = length l.
Proof.
  unfold Analytics.with_status.
  induction l as [|a l IH]; simpl; [reflexivity|].
  destruct (Application.status a); simpl; lia.
Qed.

Lemma length_filter_le {A : Type} (p : A -> bool) (l : list A) :
  length (filter p l) <= length l.
Proof.
  induction l as [|x l IH]; simpl; [lia|]. destruct (p x); simpl; lia.
Qed.

Lemma filter_andb {A : Type} (p q : A -> bool) (l : list A) :
  filter q (filter p l) = filter (fun x => p x && q x) l.
Proof.
  induction l as [|x l IH]; simpl; [reflexivity|].
  destruct (p x); simpl; [destruct (q x)|]; rewrite IH; reflexivity.
Qed.

Lemma analytics_applications (u : uuid) (t : timestamptz) (g : uuid)
    (d : db) :
  keys_unique d ->
  flat_map (fun a => map (fun _ => a)
                         (joined_jobs (request_of (Some u) t g) d u a))
           (select_applications (request_of (Some u) t g) d)
  = filter (on_job_of d u) (applications d).
Proof.
  intros K. rewrite <- (map_id (flat_map _ _)).
  apply (joined_applications u t g d). intros a. rewrite map_id.
  destruct (joined_jobs_one u t g d a K) as [[-> ->]|[-> [j ->]]];
    reflexivity.
Qed.

(** X24. The figures of the Analytics page, for recruiter [u]: the five
    status counts add up to the total of applications, whatever the
    table holds; the jobs counted are the recruiter's own and the active
    ones among them the open ones; and while the keys of the tables are
    unique the applications counted are those to the recruiter's jobs,
    the figure called reviewing counting the shortlisted and the one
    called interview the viewed ones. *)
Theorem Analytics_counts (u : uuid) (t : timestamptz) (g : uuid) (d : db) :
  let s := Analytics.fetchAnalytics (Some u) u t g d in
  Analytics.appliedCount s + Analytics.reviewingCount s
  + Analytics.interviewCount s + Analytics.acceptedCount s
  + Analytics.rejectedCount s = Analytics.totalApplications s
  /\ Analytics.activeJobs s <= Analytics.totalJobs s
  /\ Analytics.totalJobs s
     = count_if (fun j => JS.eqb (Job.recruiter_id j) u) (jobs d)
  /\ Analytics.activeJobs s
     = count_if (fun j => JS.eqb (Job.recruiter_id j) u
                          && job_status_eqb (Job.status j) open) (jobs d)
  /\ (keys_unique d ->
      Analytics.totalApplications s
      = count_if (on_job_of d u) (applications d)
      /\ Analytics.reviewingCount s
         = count_if (fun a => on_job_of d u a
                              && application_status_eqb
                                   (Application.status a) shortlisted)
                    (applications d)
      /\ Analytics.interviewCount s
         = count_if (fun a => on_job_of d u a
                              && application_status_eqb
                                   (Application.status a) viewed)
                    (applications d)).
Proof.
  cbv zeta. unfold Analytics.fetchAnalytics. cbv zeta.
  cbn [Analytics.appliedCount Analytics.reviewingCount
       Analytics.interviewCount Analytics.acceptedCount
       Analytics.rejectedCount Analytics.totalApplications
       Analytics.activeJobs Analytics.totalJobs].
  split; [apply with_status_sum|].
  split; [apply length_filter_le|].
  rewrite (own_jobs_visible u t g d
             (fun j => JS.eqb (Job.recruiter_id j) u));
    [|intros j Hj; apply JS_eqb_eq; exact Hj].
  split; [reflexivity|]. split; [rewrite filter_andb; reflexivity|].
  intros K. rewrite (analytics_applications u t g d K).
  unfold Analytics.with_status. rewrite !filter_andb. repeat split.
Qed.

Lemma Analytics_counts_witness :
  let s := Analytics.fetchAnalytics (Some Sample.bob) Sample.bob 10
             (JS.lit "new") Sample.store in
  Analytics.totalApplications s = 1 /\ Analytics.reviewingCount s = 0.
Proof.
  destruct (Analytics_counts Sample.bob 10 (JS.lit "new") Sample.store)
    as (_ & _ & _ & _ & H).
  destruct (H sample_keys_unique) as (H1 & H2 & _).
  split; [exact H1|exact H2].
Defined.

Lemma own_applications_visible (u : uuid) (t : timestamptz) (g : uuid)
    (d : db) :
  filter (fun a => JS.eqb (Application.applicant_id a) u)
         (select_applications (request_of (Some u) t g) d)
  = filter (fun a => JS.eqb (Application.applicant_id a) u)
           (applications d).
Proof.
  apply filter_filter_implied. intros a _ Ha.
  unfold Users_can_view_own_applications.
  rewrite holds_sql_or. apply orb_true_iff. left.
  apply holds_sql_eq_col. simpl. apply JS_eqb_eq in Ha. congruence.
Qed.

Lemma own_saved_jobs_visible (u : uuid) (t : timestamptz) (g : uuid)
    (d : db) :
  filter (fun s => JS.eqb (SavedJob.user_id s) u)
         (select_saved_jobs (request_of (Some u) t g) d)
  = filter (fun s => JS.eqb (SavedJob.user_id s) u) (saved_jobs d).
Proof.
  apply filter_filter_implied. intros s _ Hs.
  unfold Users_can_view_own_saved_jobs.
  apply holds_sql_eq_col. simpl. apply JS_eqb_eq in Hs. congruence.
Qed.

Lemma in_job_ids_iff (d : db) (u : uuid) (a : Application.row) :
  existsb (JS.eqb (Application.job_id a))
          (map Job.id (filter (fun j => JS.eqb (Job.recruiter_id j) u)
                              (jobs d)))
  = on_job_of d u a.
Proof.
  unfold on_job_of. induction (jobs d) as [|j l IH]; simpl; [reflexivity|].
  destruct (JS.eqb (Job.recruiter_id j) u); simpl.
  - rewrite IH, andb_true_r, (JS_eqb_sym (Job.id j)). reflexivity.
  - rewrite IH, andb_false_r. reflexivity.
Qed.

Lemma analytics_totals (u : uuid) (t : timestamptz) (g : uuid)
    (d : db) :
  keys_unique d ->
  Analytics.activeJobs (Analytics.fetchAnalytics (Some u) u t g d)
  = count_if (fun j => JS.eqb (Job.recruiter_id j) u
                       && job_status_eqb (Job.status j) open) (jobs d)
  /\ Analytics.totalApplications
       (Analytics.fetchAnalytics (Some u) u t g d)
     = count_if (on_job_of d u) (applications d).
Proof.
  intros K. unfold Analytics.fetchAnalytics. cbv zeta.
  cbn [Analytics.totalApplications Analytics.activeJobs].
  rewrite (own_jobs_visible u t g d
             (fun j => JS.eqb (Job.recruiter_id j) u));
    [|intros j Hj; apply JS_eqb_eq; exact Hj].
  rewrite (analytics_applications u t g d K), filter_andb.
  split; reflexivity.
Qed.

(** X25. The figures of the Dashboard, while the keys of the tables are
    unique.  A job seeker gets the number of the applications and of the
    saved jobs that carry the user's id, a recruiter the number of own
    open jobs and of applications to own jobs, which are the figures the
    Analytics page shows as active jobs and total applications; a user
    without a profile gets "Failed to load profile" and is sent to
    /auth. *)
Theorem Dashboard_counts (u : uuid) (t : timestamptz) (g : uuid) (d : db) :
  keys_unique d ->
  (has_role d u job_seeker ->
   exists p,
     In p (profiles d) /\ Profile.id p = u
     /\ Dashboard.checkUser (Some u) t g d
        = (Dashboard.mkstate (Some u) (Some p)
             (count_if (fun a => JS.eqb (Application.applicant_id a) u)
                       (applications d))
             (count_if (fun s => JS.eqb (SavedJob.user_id s) u)
                       (saved_jobs d))
             0 0, []))
  /\ (has_role d u recruiter ->
      exists p,
        In p (profiles d) /\ Profile.id p = u
        /\ Dashboard.checkUser (Some u) t g d
           = (Dashboard.mkstate (Some u) (Some p) 0 0
                (Analytics.activeJobs
                   (Analytics.fetchAnalytics (Some u) u t g d))
                (Analytics.totalApplications
                   (Analytics.fetchAnalytics (Some u) u t g d)), []))
  /\ (has_profile d u = false ->
      Dashboard.checkUser (Some u) t g d
      = (Dashboard.mkstate (Some u) None 0 0 0 0,
         [toast_error (JS.lit "Failed to load profile");
          navigate (JS.lit "/auth")])).
Proof.
  intros K. split; [|split].
  - intros [p [Hp [Hi Hr]]]. exists p. split; [exact Hp|split; [exact Hi|]].
    unfold Dashboard.checkUser. cbv zeta.
    rewrite (proj2 (own_profile_iff u t g d p K) (conj Hp Hi)), Hr.
    rewrite own_applications_visible, own_saved_jobs_visible. reflexivity.
  - intros [p [Hp [Hi Hr]]]. exists p. split; [exact Hp|split; [exact Hi|]].
    unfold Dashboard.checkUser. cbv zeta.
    rewrite (proj2 (own_profile_iff u t g d p K) (conj Hp Hi)), Hr.
    destruct (analytics_totals u t g d K) as [A1 A2].
    rewrite A1, A2. clear A1 A2.
    rewrite (own_jobs_visible u t g d
               (fun j => JS.eqb (Job.recruiter_id j) u));
      [|intros j Hj; apply JS_eqb_eq; exact Hj].
    rewrite (own_jobs_visible u t g d
               (fun j => JS.eqb (Job.recruiter_id j) u
                         && job_status_eqb (Job.status j) open));
      [|intros j Hj; apply andb_true_iff in Hj as [Hj _];
        apply JS_eqb_eq; exact Hj].
    f_equal. f_equal.
    destruct (filter (fun j => JS.eqb (Job.recruiter_id j) u) (jobs d))
      as [|j0 r] eqn:F.
    + symmetry. apply count_if_none.
      apply filter_none. apply filter_nil_all. intros a Ha.
      rewrite <- in_job_ids_iff, F. reflexivity.
    + rewrite <- F.
      rewrite (applications_on_own_jobs_visible u t g d).
      * unfold count_if. f_equal. apply filter_ext. intros a.
        apply in_job_ids_iff.
      * intros a Ha. rewrite <- in_job_ids_iff. exact Ha.
  - intros N. unfold Dashboard.checkUser. cbv zeta.
    destruct (own_profile u t g d) as [p|] eqn:E; [|reflexivity].
    apply (own_profile_iff u t g d p K) in E.
    assert (has_profile d u = true) as H
      by (apply has_profile_iff; exists p; exact E).
    rewrite H in N. discriminate.
Qed.

Lemma Dashboard_counts_witness :
  exists p,
    In p (profiles Sample.store) /\ Profile.id p = Sample.alice
    /\ Dashboard.checkUser (Some Sample.alice) 10 (JS.lit "new")
         Sample.store
       = (Dashboard.mkstate (Some Sample.alice) (Some p) 1 1 0 0, []).
Proof.
  apply (proj1 (Dashboard_counts Sample.alice 10 (JS.lit "new")
                  Sample.store sample_keys_unique)).
  exists (Sample.profile Sample.alice job_seeker).
  split; [left; reflexivity|split; reflexivity].
Defined.

(* ------------------------------------------------------------------ *)
(** ** What the job pages display *)

(** X26. [formatSalary] treats a salary bound of 0 like a missing one: the
    text is "Salary not specified" exactly when each bound is missing or
    0, and a bound of 0 next to a real one is left out of the text.  The
    JobDetails page and the Jobs page format alike. *)
Theorem formatSalary_zero_is_missing (thousands : Z -> text)
    (min max : option Z) :
  Jobs.formatSalary thousands (Some 0%Z) max
  = Jobs.formatSalary thousands None max
  /\ Jobs.formatSalary thousands min (Some 0%Z)
     = Jobs.formatSalary thousands min None
  /\ (Jobs.formatSalary thousands min max = JS.lit "Salary not specified"
      <-> (min = None \/ min = Some 0%Z) /\ (max = None \/ max = Some 0%Z))
  /\ JobDetails.formatSalary thousands min max
     = Jobs.formatSalary thousands min max.
Proof.
  split; [|split; [|split]].
  - unfold Jobs.formatSalary. simpl. reflexivity.
  - unfold Jobs.formatSalary. simpl. rewrite !andb_true_r, !andb_false_r.
    destruct (JobDetails.falsy min); reflexivity.
  - unfold Jobs.formatSalary.
    assert (F : forall n, JobDetails.falsy n = true
                          <-> n = None \/ n = Some 0%Z).
    { intros [v|]; simpl.
      - rewrite Z.eqb_eq. split; [intros ->; auto|].
        intros [H|H]; congruence.
      - split; auto. }
    rewrite <- !F.
    destruct (JobDetails.falsy min), (JobDetails.falsy max); simpl;
      split; try tauto; try discriminate; intros [? ?]; discriminate.
  - reflexivity.
Qed.

Lemma startsWith_iff (s t : JS.str) :
  JS.startsWith s t = true <-> exists post, s = t ++ post.
Proof.
  revert s. induction t as [|y t IH]; intros s; simpl.
  - destruct s; split; eauto.
  - destruct s as [|x s]; simpl.
    + split; [discriminate|]. intros [post H]. discriminate.
    + rewrite andb_true_iff, N.eqb_eq, IH. split.
      * intros [-> [post ->]]. exists post; reflexivity.
      * intros [post H]. injection H as -> ->. eauto.
Qed.

Lemma includes_iff_infix (s t : JS.str) :
  JS.includes s t = true <-> exists pre post, s = pre ++ t ++ post.
Proof.
  induction s as [|x s IH]; cbn [JS.includes].
  - rewrite orb_false_r, startsWith_iff. split.
    + intros [post H]. exists [], post. exact H.
    + intros [pre [post H]]. destruct pre; [eauto|discriminate].
  - rewrite orb_true_iff, startsWith_iff, IH. split.
    + intros [[post H]|[pre [post H]]].
      * exists [], post. exact H.
      * exists (x :: pre), post. simpl. rewrite H. reflexivity.
    + intros [[|c pre] [post H]].
      * left. exists post. exact H.
      * right. injection H as -> H. eauto.
Qed.

Lemma includes_trans (a b c : JS.str) :
  JS.includes a b = true -> JS.includes b c = true ->
  JS.includes a c = true.
Proof.
  rewrite !includes_iff_infix.
  intros [p1 [q1 ->]] [p2 [q2 ->]].
  exists (p1 ++ p2), (q2 ++ q1). rewrite <- !app_assoc. reflexivity.
Qed.

Lemma includes_empty (s : JS.str) : JS.includes s [] = true.
Proof. apply includes_iff_infix. exists [], s. reflexivity. Qed.

(** X27. Narrowing the search of the Jobs page narrows the list: when the
    lower-cased old search term occurs in the lower-cased new one, every
    job listed for the new term (and any location filter) is listed for
    the old term without a location filter.  With a lower-casing that
    keeps the empty string empty, the empty search and location filter
    list every job. *)
Theorem filteredJobs_narrowing (toLowerCase : text -> text)
    (jobs : list Job.row) (s s' l : text) :
  (JS.includes (toLowerCase s') (toLowerCase s) = true ->
   forall j, In j (Jobs.filteredJobs toLowerCase jobs s' l) ->
             In j (Jobs.filteredJobs toLowerCase jobs s []))
  /\ (toLowerCase [] = [] ->
      Jobs.filteredJobs toLowerCase jobs [] [] = jobs).
Proof.
  split.
  - intros H j Hj. unfold Jobs.filteredJobs in *.
    apply filter_In in Hj as [Hj M]. apply filter_In. split; [exact Hj|].
    apply andb_true_iff in M as [M _]. rewrite andb_true_r.
    unfold Jobs.matchesSearch in *.
    rewrite !orb_true_iff in *. destruct M as [[M|M]|M].
    + left; left. eapply includes_trans; eassumption.
    + left; right. eapply includes_trans; eassumption.
    + right. apply existsb_exists in M as [k [Hk M]].
      apply existsb_exists. exists k. split; [exact Hk|].
      eapply includes_trans; eassumption.
  - intros E. unfold Jobs.filteredJobs. apply filter_all. intros j _.
    unfold Jobs.matchesSearch, Jobs.matchesLocation. rewrite E.
    rewrite includes_empty. reflexivity.
Qed.

Lemma filteredJobs_narrowing_witness :
  In (Sample.job Sample.job1 Sample.bob open)
     (Jobs.filteredJobs (fun s => s) (jobs Sample.store) (JS.lit "Dev") [])
  /\ Jobs.filteredJobs (fun s => s) (jobs Sample.store) [] []
     = jobs Sample.store.
Proof.
  split.
  - apply (proj1 (filteredJobs_narrowing (fun s => s) (jobs Sample.store)
                    (JS.lit "Dev") (JS.lit "Developer")
                    (JS.lit "Remote"))).
    + reflexivity.
    + vm_compute. left; reflexivity.
  - apply (proj2 (filteredJobs_narrowing (fun s => s) (jobs Sample.store)
                    (JS.lit "Dev") (JS.lit "Developer")
                    (JS.lit "Remote"))).
    reflexivity.
Defined.
